(** * KieranSQL: type descriptors, condition algebra, statement builders and
    schema validation, embedded from the Python sources

    - [types_wrapper.py]     SQL_Type and its subclasses
    - [column_wrapper.py]    WhereConditionWrapper, ColumnWrapper
    - [table_wrapper.py]     Table validation and the statement entry points
    - [statement_wrapper.py] SQLStatement, the four statement wrappers and
                             the table view of a selection
    - [formatting.py]        Text and Formatting

    Python values are embedded as the inductive [PyVal]; exceptions as [exn];
    a call that may raise returns an [outcome].  Mutable condition objects live
    in a heap ([gmap]), the storage engine is a reply function over the history
    of calls it has received.

    Scope of the embedding: a float is an IEEE-754 binary64 value, held as a
    [spec_float] of the Standard Library and rounded by its operations; time
    values are naive (no tzinfo); a str is a sequence of characters below
    256, one [ascii] each.  int(), float() and str() are those of CPython
    3.11 in its default configuration: int() refuses a literal of more than
    4300 digits.  str() of an int is total here: the same limit on
    printing an int is not embedded.  fromisoformat is embedded on the
    texts isoformat() writes; the further ISO 8601 forms that CPython
    reads are refused. *)

From Stdlib Require Import ZArith Ascii String List Lia Bool.
From Stdlib Require Import Decimal DecimalString SpecFloat.
From stdpp Require Import base gmap strings list.

Import ListNotations.
Local Open Scope string_scope.
Local Open Scope list_scope.
Local Open Scope nat_scope.

(* ===================================================================== *)
(** ** Exceptions and results *)
(* ===================================================================== *)

(** The exception classes of errors.py, the built-in ones the code lets
    through, and the three sqlite3 errors [execute] translates. *)
Inductive exn : Type :=
  | InvalidStatement
  | InvalidQuery
  | InvalidColumnType
  | TableKeysError
  | InvalidPath
  | ConnectionException
  | IllegalArgumentError
  | ValueError
  | TypeError
  | OverflowError
  | AttributeError
  | KeyError
  | OperationalError
  | ProgrammingError
  | IntegrityError.

Inductive outcome (A : Type) : Type :=
  | Ok (a : A)
  | Raise (e : exn).
Arguments Ok {A} a.
Arguments Raise {A} e.

Definition bind {A B : Type} (m : outcome A) (k : A -> outcome B) : outcome B :=
  match m with
  | Ok a => k a
  | Raise e => Raise e
  end.

Notation "'let*' x ':=' m 'in' k" := (bind m (fun x => k))
  (at level 10, x name, m at level 100, k at level 200, only parsing).

(** [except ValueError]: IllegalArgumentError derives from ValueError
    (errors.py), so the handler catches both. *)
Definition is_ValueError (e : exn) : bool :=
  match e with
  | ValueError | IllegalArgumentError => true
  | _ => false
  end.

Fixpoint mapM {A B : Type} (f : A -> outcome B) (l : list A) : outcome (list B) :=
  match l with
  | [] => Ok []
  | a :: r => let* b := f a in let* bs := mapM f r in Ok (b :: bs)
  end.

(* ===================================================================== *)
(** ** Python values *)
(* ===================================================================== *)

(** datetime.date and a naive datetime.time. *)
Record date : Type := mkdate { year : N; month : N; day : N }.
Record time : Type := mktime { hour : N; minute : N; second : N; microsecond : N }.

(** A float: sign, mantissa and exponent of a binary64 number, a signed
    zero, an infinity or NaN. *)
Definition float : Type := spec_float.

Inductive PyVal : Type :=
  | VNone                 (* None *)
  | VNull                 (* an instance of types_wrapper.Null *)
  | VBool (b : bool)
  | VInt (z : Z)
  | VStr (s : string)
  | VDate (d : date)
  | VTime (t : time)
  | VFloat (f : float).

(** *** Calendar *)

Definition is_leap (y : N) : bool :=
  ((y mod 4 =? 0) && (negb (y mod 100 =? 0) || (y mod 400 =? 0)))%N.

Definition days_in_month (y m : N) : N :=
  match m with
  | 2 => if is_leap y then 29 else 28
  | 4 | 6 | 9 | 11 => 30
  | _ => 31
  end%N.

(** The range checks of the date and time constructors. *)
Definition valid_date (d : date) : bool :=
  ((1 <=? year d) && (year d <=? 9999) &&
   (1 <=? month d) && (month d <=? 12) &&
   (1 <=? day d) && (day d <=? days_in_month (year d) (month d)))%N.

Definition valid_time (t : time) : bool :=
  ((hour t <? 24) && (minute t <? 60) && (second t <? 60) && (microsecond t <? 1000000))%N.

(** *** Decimal digits *)

Definition digit (n : N) : ascii := ascii_of_N (48 + n).

Definition digit_val (c : ascii) : option N :=
  let n := N_of_ascii c in
  if ((48 <=? n) && (n <=? 57))%N then Some (n - 48)%N else None.

Definition fmt2 (n : N) : list ascii :=
  [digit (n / 10 mod 10); digit (n mod 10)]%N.

Definition fmt4 (n : N) : list ascii :=
  [digit (n / 1000 mod 10); digit (n / 100 mod 10); digit (n / 10 mod 10); digit (n mod 10)]%N.

Definition fmt6 (n : N) : list ascii :=
  [digit (n / 100000 mod 10); digit (n / 10000 mod 10); digit (n / 1000 mod 10);
   digit (n / 100 mod 10); digit (n / 10 mod 10); digit (n mod 10)]%N.

(** Reads a run of decimal digits, most significant first. *)
Fixpoint digits_N (acc : N) (l : list ascii) : option N :=
  match l with
  | [] => Some acc
  | c :: r =>
      match digit_val c with
      | Some d => digits_N (10 * acc + d)%N r
      | None => None
      end
  end.

Definition chars (s : string) : list ascii := list_ascii_of_string s.
Definition text (l : list ascii) : string := string_of_list_ascii l.

(** *** str(date), str(time): isoformat() *)

Definition date_isoformat (d : date) : string :=
  text (fmt4 (year d) ++ ["-"%char] ++ fmt2 (month d) ++ ["-"%char] ++ fmt2 (day d)).

Definition time_isoformat (t : time) : string :=
  text (fmt2 (hour t) ++ [":"%char] ++ fmt2 (minute t) ++ [":"%char] ++ fmt2 (second t)
        ++ (if (microsecond t =? 0)%N then [] else ["."%char] ++ fmt6 (microsecond t))).

(** *** date.fromisoformat, time.fromisoformat

    The forms isoformat() writes: YYYY-MM-DD, and HH[:MM[:SS[.fff[fff]]]].
    A string of another form, or whose fields are out of range, raises
    ValueError here.  CPython reads further forms, from 3.11 on the basic
    and the week dates among them, which the embedding refuses; a time
    text with a UTC offset denotes an aware time, which the embedding does
    not hold. *)

Definition is_char (c d : ascii) : bool := Ascii.eqb c d.

Definition date_fromisoformat (s : string) : outcome date :=
  match chars s with
  | [y1; y2; y3; y4; s1; m1; m2; s2; d1; d2] =>
      match digits_N 0%N [y1; y2; y3; y4], digits_N 0%N [m1; m2], digits_N 0%N [d1; d2] with
      | Some y, Some m, Some d =>
          if is_char s1 "-" && is_char s2 "-" && valid_date (mkdate y m d)
          then Ok (mkdate y m d) else Raise ValueError
      | _, _, _ => Raise ValueError
      end
  | _ => Raise ValueError
  end.

Definition mk_time_checked (h m s us : option N) : outcome time :=
  match h, m, s, us with
  | Some h, Some m, Some s, Some us =>
      if valid_time (mktime h m s us) then Ok (mktime h m s us) else Raise ValueError
  | _, _, _, _ => Raise ValueError
  end.

Definition time_fromisoformat (s : string) : outcome time :=
  match chars s with
  | [h1; h2] =>
      mk_time_checked (digits_N 0%N [h1; h2]) (Some 0%N) (Some 0%N) (Some 0%N)
  | [h1; h2; c1; m1; m2] =>
      if is_char c1 ":"
      then mk_time_checked (digits_N 0%N [h1; h2]) (digits_N 0%N [m1; m2]) (Some 0%N) (Some 0%N)
      else Raise ValueError
  | [h1; h2; c1; m1; m2; c2; s1; s2] =>
      if is_char c1 ":" && is_char c2 ":"
      then mk_time_checked (digits_N 0%N [h1; h2]) (digits_N 0%N [m1; m2])
                           (digits_N 0%N [s1; s2]) (Some 0%N)
      else Raise ValueError
  | [h1; h2; c1; m1; m2; c2; s1; s2; p; f1; f2; f3] =>
      if is_char c1 ":" && is_char c2 ":" && is_char p "."
      then mk_time_checked (digits_N 0%N [h1; h2]) (digits_N 0%N [m1; m2])
                           (digits_N 0%N [s1; s2])
                           (option_map (fun ms => ms * 1000)%N (digits_N 0%N [f1; f2; f3]))
      else Raise ValueError
  | [h1; h2; c1; m1; m2; c2; s1; s2; p; f1; f2; f3; f4; f5; f6] =>
      if is_char c1 ":" && is_char c2 ":" && is_char p "."
      then mk_time_checked (digits_N 0%N [h1; h2]) (digits_N 0%N [m1; m2])
                           (digits_N 0%N [s1; s2]) (digits_N 0%N [f1; f2; f3; f4; f5; f6])
      else Raise ValueError
  | _ => Raise ValueError
  end.

(** *** Built-in conversions on the embedded values *)

(** str(z) for an int. *)
Definition int_str (z : Z) : string := NilZero.string_of_int (Z.to_int z).

(** The white space int() and float() skip around a literal, among the
    characters below 256: the ASCII white space, and the two characters
    above 127 that count as blanks. *)
Definition is_space (c : ascii) : bool :=
  let n := N_of_ascii c in
  (((9 <=? n) && (n <=? 13)) || (n =? 32) || (n =? 133) || (n =? 160))%N.

Fixpoint lstrip (l : list ascii) : list ascii :=
  match l with
  | c :: r => if is_space c then lstrip r else l
  | [] => []
  end.

Definition strip (l : list ascii) : list ascii := rev (lstrip (rev (lstrip l))).

Definition is_digit (c : ascii) : bool :=
  match digit_val c with Some _ => true | None => false end.

(** Digits of an int literal: groups of digits separated by single
    underscores. [prev] tells whether the previous character was a digit. *)
Fixpoint int_digits (acc : Z) (prev : bool) (l : list ascii) : option Z :=
  match l with
  | [] => if prev then Some acc else None
  | c :: r =>
      match digit_val c with
      | Some d => int_digits (10 * acc + Z.of_N d)%Z true r
      | None => if is_char c "_" && prev then int_digits acc false r else None
      end
  end.

(** sys.int_info.default_max_str_digits *)
Definition max_str_digits : N := 4300.

(** int(s) for a str, base 10.  A literal with more than max_str_digits
    digits is refused with ValueError. *)
Definition int_of_str (s : string) : outcome Z :=
  let body :=
    match strip (chars s) with
    | c :: r =>
        if is_char c "-" then option_map Z.opp (int_digits 0%Z false r)
        else if is_char c "+" then int_digits 0%Z false r
        else int_digits 0%Z false (c :: r)
    | [] => None
    end in
  match body with
  | Some z =>
      if (max_str_digits <? N.of_nat (length (List.filter is_digit (chars s))))%N
      then Raise ValueError else Ok z
  | None => Raise ValueError
  end.

(** *** float: conversions from and to int *)

(** The finite floats are the canonical ones of binary64. *)
Definition valid_float (f : float) : bool := valid_binary 53 1024 f.

Definition is_nan (f : float) : bool :=
  match f with S754_nan => true | _ => false end.

(** The double nearest to num / den, ties to even; beyond the largest
    double the result is an infinity. *)
Definition float_of_ratio (negative : bool) (num den : positive) : float :=
  let '(q, e, l) := SFdiv_core_binary 53 1024 (Z.pos num) 0 (Z.pos den) 0 in
  binary_round_aux 53 1024 negative q e l.

(** float(z) for an int: the nearest double, OverflowError beyond the
    largest one. *)
Definition float_of_int (z : Z) : outcome float :=
  match binary_normalize 53 1024 z 0 false with
  | S754_infinity _ => Raise OverflowError
  | f => Ok f
  end.

(** int(f): truncation towards zero. *)
Definition int_of_float (f : float) : outcome Z :=
  match f with
  | S754_nan => Raise ValueError
  | S754_infinity _ => Raise OverflowError
  | S754_zero _ => Ok 0%Z
  | S754_finite s m e =>
      let a := (if 0 <=? e then Z.pos m * 2 ^ e else Z.pos m / 2 ^ (- e))%Z in
      Ok (if s then - a else a)%Z
  end.

(** f == z for an int z: the exact values are compared. *)
Definition float_eq_int (f : float) (z : Z) : bool :=
  match f with
  | S754_zero _ => (z =? 0)%Z
  | S754_finite s m e =>
      let a := (if s then Z.neg m else Z.pos m) in
      (if 0 <=? e then a * 2 ^ e =? z else a =? z * 2 ^ (- e))%Z
  | _ => false
  end.

(** *** float(s) for a str *)

(** An underscore is allowed between two digits only; the underscores are
    then dropped. [prev] is the previous character. *)
Fixpoint drop_underscores (prev : option ascii) (l : list ascii) : option (list ascii) :=
  match l with
  | [] => Some []
  | c :: r =>
      if is_char c "_" then
        match prev, r with
        | Some p, n :: _ =>
            if is_digit p && is_digit n then drop_underscores (Some c) r else None
        | _, _ => None
        end
      else option_map (cons c) (drop_underscores (Some c) r)
  end.

(** A run of digits at the head of a list, and what follows it. *)
Fixpoint span_digits (l : list ascii) : list N * list ascii :=
  match l with
  | c :: r =>
      match digit_val c with
      | Some d => let '(ds, rest) := span_digits r in (d :: ds, rest)
      | None => ([], l)
      end
  | [] => ([], [])
  end.

Definition digits_value (ds : list N) : N := fold_left (fun acc d => 10 * acc + d)%N ds 0%N.

Definition take_sign (l : list ascii) : bool * list ascii :=
  match l with
  | c :: r => if is_char c "-" then (true, r) else if is_char c "+" then (false, r) else (false, l)
  | [] => (false, [])
  end.

Definition lower (c : ascii) : ascii :=
  let n := N_of_ascii c in
  if ((65 <=? n) && (n <=? 90))%N then ascii_of_N (n + 32) else c.

(** inf, infinity and nan in any case. *)
Definition parse_inf_or_nan (negative : bool) (l : list ascii) : option float :=
  let s := text (map lower l) in
  if String.eqb s "inf" || String.eqb s "infinity" then Some (S754_infinity negative)
  else if String.eqb s "nan" then Some S754_nan
  else None.

(** The value of the decimal literal with digits [ds] scaled by 10^k.
    With n digits the value lies between 10^k and 10^(k+n): above 10^400
    it rounds to an infinity, below 10^-400 to a zero. *)
Definition float_of_decimal (negative : bool) (ds : list N) (k : Z) : float :=
  match digits_value ds with
  | N0 => S754_zero negative
  | Npos d =>
      if (400 <? k)%Z then S754_infinity negative
      else if (k + Z.of_nat (length ds) <? -400)%Z then S754_zero negative
      else if (0 <=? k)%Z then float_of_ratio negative (d * Z.to_pos (10 ^ k)) 1
      else float_of_ratio negative d (Z.to_pos (10 ^ (- k)))
  end.

(** The exponent part: e or E, an optional sign and at least one digit,
    up to the end of the text. *)
Definition parse_exponent (l : list ascii) : option Z :=
  match l with
  | [] => Some 0%Z
  | c :: r =>
      if is_char (lower c) "e" then
        let '(negative, r) := take_sign r in
        match span_digits r with
        | (d :: ds, []) =>
            let e := Z.of_N (digits_value (d :: ds)) in
            Some (if negative then - e else e)%Z
        | _ => None
        end
      else None
  end.

Fixpoint strip_zeros (l : list N) : list N :=
  match l with
  | 0%N :: r => strip_zeros r
  | _ => l
  end.

(** The most digits a float literal may have, leading zeros apart, and
    the most after its point. *)
Definition MAX_DIGITS : N := 1000000000.

(** digits [. digits] [exponent] or . digits [exponent], at least one
    digit before the exponent. *)
Definition parse_decimal (negative : bool) (l : list ascii) : option float :=
  let '(int_part, rest) := span_digits l in
  let '(frac_part, rest) :=
    match rest with
    | c :: r => if is_char c "." then span_digits r else ([], rest)
    | [] => ([], [])
    end in
  match int_part ++ frac_part with
  | [] => None
  | ds =>
      if ((MAX_DIGITS <? N.of_nat (length (strip_zeros ds)))
          || (MAX_DIGITS <? N.of_nat (length frac_part)))%N then None
      else
        match parse_exponent rest with
        | Some e => Some (float_of_decimal negative ds (e - Z.of_nat (length frac_part)))
        | None => None
        end
  end.

(** float(s) for a str *)
Definition float_of_str (s : string) : outcome float :=
  match drop_underscores None (chars s) with
  | None => Raise ValueError
  | Some l =>
      let '(negative, body) := take_sign (strip l) in
      match parse_decimal negative body with
      | Some f => Ok f
      | None =>
          match parse_inf_or_nan negative body with
          | Some f => Ok f
          | None => Raise ValueError
          end
      end
  end.

(** *** str(f): the shortest decimal text that reads back as f *)

(** Number of decimal digits of a positive number. *)
Fixpoint count_digits (fuel : nat) (n : N) : nat :=
  match fuel with
  | O => 0
  | S fuel => if (n =? 0)%N then 0 else S (count_digits fuel (n / 10))
  end.

(** The digits of n, most significant first. *)
Fixpoint digits_of (fuel : nat) (n : N) (acc : list N) : list N :=
  match fuel with
  | O => acc
  | S fuel => if (n =? 0)%N then acc else digits_of fuel (n / 10) ((n mod 10)%N :: acc)
  end.

(** For 0 < num / den < 1: the least k >= 1 with num * 10^k >= den. *)
Fixpoint leading_zeros (fuel : nat) (num den : N) (k : Z) : Z :=
  match fuel with
  | O => k
  | S fuel => if (den <=? num * 10)%N then k else leading_zeros fuel (num * 10)%N den (k + 1)%Z
  end.

(** The position of the decimal point: 10^(p-1) <= num / den < 10^p.  A
    double has fewer than 400 digits on either side of the point. *)
Definition decimal_point (num den : N) : Z :=
  if (den <=? num)%N then Z.of_nat (count_digits 400 (num / den))
  else (1 - leading_zeros 400 num den 1)%Z.

(** The text of f = m * 2^e = num / den with n significant digits: the
    n-digit decimal below f or the one above, whichever reads back as f;
    when both do, the nearer one, and the one with an even last digit when
    f is in the middle; none when neither does. *)
Definition with_digits (m : positive) (e : Z) (num den : N) (p : Z) (n : Z) : option N :=
  let scale := (p - n)%Z in
  let '(a, b) :=
    if (0 <=? scale)%Z then (num, (den * Z.to_N (10 ^ scale))%N)
    else ((num * Z.to_N (10 ^ (- scale)))%N, den) in
  let lo := (a / b)%N in
  let r := (a mod b)%N in
  let reads_back (c : N) :=
    match c with
    | N0 => false
    | Npos c =>
        let f := if (0 <=? scale)%Z then float_of_ratio false (c * Z.to_pos (10 ^ scale)) 1
                 else float_of_ratio false c (Z.to_pos (10 ^ (- scale))) in
        match f with
        | S754_finite false m' e' => Pos.eqb m' m && Z.eqb e' e
        | _ => false
        end
    end in
  let hi := (lo + 1)%N in
  match reads_back lo, reads_back hi with
  | true, true =>
      Some (if (2 * r <? b)%N || ((2 * r =? b)%N && N.even lo) then lo else hi)
  | true, false => Some lo
  | false, true => Some hi
  | false, false => None
  end.

(** The first number of digits, from [n] on, with which f reads back;
    seventeen digits always do. *)
Fixpoint shortest_from (fuel : nat) (m : positive) (e : Z) (num den : N) (p : Z) (n : Z)
    : N * Z :=
  match fuel with
  | O => (0%N, n)
  | S fuel =>
      match with_digits m e num den p n with
      | Some c => (c, n)
      | None => shortest_from fuel m e num den p (n + 1)
      end
  end.

(** The significant digits of a finite nonzero double and the position
    of its decimal point: the value reads 0.d1d2... * 10^point. *)
Definition shortest_digits (m : positive) (e : Z) : list N * Z :=
  let '(num, den) :=
    if (0 <=? e)%Z then (Z.to_N (Z.pos m * 2 ^ e), 1%N) else (Npos m, Z.to_N (2 ^ (- e))) in
  let p := decimal_point num den in
  let '(c, n) := shortest_from 17 m e num den p 1 in
  let ds := digits_of 400 c [] in
  (rev (strip_zeros (rev ds)), p + (Z.of_nat (length ds) - n))%Z.

Definition digit_text (ds : list N) : string := text (map digit ds).

Definition zeros (n : Z) : string := text (repeat "0"%char (Z.to_nat n)).

(** The repr style: exponent form when the point lies at -4 or before,
    or after 16 digits; otherwise positional, with .0 after an integer. *)
Definition format_float (ds : list N) (point : Z) : string :=
  let n := Z.of_nat (length ds) in
  if (point <=? -4)%Z || (16 <? point)%Z then
    let exponent := (point - 1)%Z in
    let mantissa :=
      match ds with
      | d :: _ :: _ => digit_text [d] +:+ "." +:+ digit_text (tl ds)
      | _ => digit_text ds
      end in
    mantissa +:+ "e" +:+ (if (exponent <? 0)%Z then "-" else "+")
    +:+ (if (Z.abs exponent <? 10)%Z then "0" else "") +:+ int_str (Z.abs exponent)
  else if (point <=? 0)%Z then "0." +:+ zeros (- point) +:+ digit_text ds
  else if (n <=? point)%Z then digit_text ds +:+ zeros (point - n) +:+ ".0"
  else digit_text (firstn (Z.to_nat point) ds) +:+ "." +:+ digit_text (skipn (Z.to_nat point) ds).

(** str(f) and repr(f) *)
Definition float_str (f : float) : string :=
  match f with
  | S754_nan => "nan"
  | S754_infinity s => if s then "-inf" else "inf"
  | S754_zero s => if s then "-0.0" else "0.0"
  | S754_finite s m e =>
      let '(ds, point) := shortest_digits m e in
      (if s then "-" else "") +:+ format_float ds point
  end.

(** *** The built-ins on the embedded values *)

(** str(): SQL_Type.__str__ returns string_repr, which is "Null()" for the
    Null marker. *)
Definition py_str (v : PyVal) : string :=
  match v with
  | VNone => "None"
  | VNull => "Null()"
  | VBool true => "True"
  | VBool false => "False"
  | VInt z => int_str z
  | VStr s => s
  | VDate d => date_isoformat d
  | VTime t => time_isoformat t
  | VFloat f => float_str f
  end.

(** int(item) *)
Definition py_int (v : PyVal) : outcome PyVal :=
  match v with
  | VInt z => Ok (VInt z)
  | VBool b => Ok (VInt (if b then 1 else 0)%Z)
  | VStr s => let* z := int_of_str s in Ok (VInt z)
  | VFloat f => let* z := int_of_float f in Ok (VInt z)
  | VNone | VNull | VDate _ | VTime _ => Raise TypeError
  end.

(** float(item) *)
Definition py_float (v : PyVal) : outcome PyVal :=
  match v with
  | VFloat f => Ok (VFloat f)
  | VInt z => let* f := float_of_int z in Ok (VFloat f)
  | VBool b => let* f := float_of_int (if b then 1 else 0)%Z in Ok (VFloat f)
  | VStr s => let* f := float_of_str s in Ok (VFloat f)
  | VNone | VNull | VDate _ | VTime _ => Raise TypeError
  end.

(** bool(item): truth value testing. *)
Definition py_bool (v : PyVal) : PyVal :=
  match v with
  | VNone => VBool false
  | VBool b => VBool b
  | VInt z => VBool (negb (z =? 0)%Z)
  | VStr s => VBool (negb (String.eqb s ""))
  | VFloat f => VBool (match f with S754_zero _ => false | _ => true end)
  | VNull | VDate _ | VTime _ => VBool true
  end.

(** item[1:-1]: defined for str, TypeError for the other embedded values. *)
Definition slice_1_m1 (v : PyVal) : outcome string :=
  match v with
  | VStr s => Ok (text (removelast (tl (chars s))))
  | _ => Raise TypeError
  end.

Definition date_eqb (a b : date) : bool :=
  ((year a =? year b) && (month a =? month b) && (day a =? day b))%N.

Definition time_eqb (a b : time) : bool :=
  ((hour a =? hour b) && (minute a =? minute b) && (second a =? second b)
   && (microsecond a =? microsecond b))%N.

Definition int_of_bool (b : bool) : Z := if b then 1%Z else 0%Z.

(** The == operator.  bool is a subclass of int and compares by value with
    it; a float compares by value with a float (NaN is equal to nothing,
    the two zeros are equal) and with an int; a Null marker has no __eq__
    and is equal only to itself. *)
Definition py_eq (a b : PyVal) : bool :=
  match a, b with
  | VNone, VNone => true
  | VNull, VNull => true
  | VBool x, VBool y => Bool.eqb x y
  | VBool x, VInt y => (int_of_bool x =? y)%Z
  | VInt x, VBool y => (x =? int_of_bool y)%Z
  | VInt x, VInt y => (x =? y)%Z
  | VStr x, VStr y => String.eqb x y
  | VDate x, VDate y => date_eqb x y
  | VTime x, VTime y => time_eqb x y
  | VFloat x, VFloat y => SFeqb x y
  | VFloat x, VInt y => float_eq_int x y
  | VInt x, VFloat y => float_eq_int y x
  | VFloat x, VBool y => float_eq_int x (int_of_bool y)
  | VBool x, VFloat y => float_eq_int y (int_of_bool x)
  | _, _ => false
  end.

(* ===================================================================== *)
(** ** types_wrapper.py: type descriptors *)
(* ===================================================================== *)

(** The subclasses of SQL_Type; String carries its length. *)
Inductive Kind : Type :=
  | KString (length : Z)
  | KInteger
  | KFloat
  | KBoolean
  | KDate
  | KTime
  | KNull.

(** An SQL_Type instance.  [obj_id] is the identity of the Python object:
    the class defines no __eq__, so list.index compares descriptors by
    identity. *)
Record SQL_Type : Type := mkSQL_Type {
  obj_id : positive;
  kind : Kind;
  is_primary_key : bool;
  is_nullable : bool;
  query : string;
  string_repr : string
}.

Definition evaluate_is_nullable (nullable : bool) (query : string) : string :=
  if negb nullable then query +:+ " NOT NULL" else query.

Definition evaluate_primary_key (primary_key : bool) (query : string) : string :=
  if primary_key then query +:+ " PRIMARY KEY" else query.

(** SQL_Type.__init__ *)
Definition SQL_Type_init (id : positive) (k : Kind) (query : string)
    (primary_key nullable : bool) (string_repr : string) : SQL_Type :=
  {| obj_id := id; kind := k;
     is_primary_key := primary_key; is_nullable := nullable;
     query := evaluate_primary_key primary_key (evaluate_is_nullable nullable query);
     string_repr := string_repr |}.

(** The constructors of the subclasses, with their default arguments
    written out.  String and Time carry an underscore: the plain names are
    taken by the constructor of [string] and by a command of the prover. *)
Definition String_ (id : positive) (length : Z) (primary_key nullable : bool) : SQL_Type :=
  SQL_Type_init id (KString length) ("VARCHAR(" +:+ int_str length +:+ ")")
                primary_key nullable ("String(" +:+ int_str length +:+ ")").

Definition Integer (id : positive) (primary_key nullable : bool) : SQL_Type :=
  SQL_Type_init id KInteger "INTEGER" primary_key nullable "Integer()".

Definition Float (id : positive) (primary_key nullable : bool) : SQL_Type :=
  SQL_Type_init id KFloat "REAL" primary_key nullable "Float()".

Definition Boolean (id : positive) (primary_key nullable : bool) : SQL_Type :=
  SQL_Type_init id KBoolean "INTEGER" primary_key nullable "Boolean()".

Definition Date (id : positive) (primary_key nullable : bool) : SQL_Type :=
  SQL_Type_init id KDate "DATE" primary_key nullable "Date()".

Definition Time_ (id : positive) (primary_key nullable : bool) : SQL_Type :=
  SQL_Type_init id KTime "DATE" primary_key nullable "Time()".

Definition Null (id : positive) : SQL_Type :=
  SQL_Type_init id KNull "NULL" false true "Null()".

(** isinstance(item, Null), type(item) == Null, type(item) == str *)
Definition is_Null (item : PyVal) : bool :=
  match item with VNull => true | _ => false end.

Definition is_str (item : PyVal) : bool :=
  match item with VStr _ => true | _ => false end.

Definition quoted (s : string) : string := "'" +:+ s +:+ "'".

(** SQL_Type.convert_to_sql_string: the to_sql method of String. *)
Definition convert_to_sql_string (item : PyVal) : outcome PyVal :=
  if negb (is_str item) then Raise InvalidColumnType
  else Ok (VStr (quoted (py_str item))).

(** Date.convert_to_sql_string and Time.convert_to_sql_string override the
    method above and have no type check. *)
Definition convert_to_sql_string_datetime (item : PyVal) : outcome PyVal :=
  Ok (VStr (quoted (py_str item))).

(** String.convert_to_python_string *)
Definition convert_to_python_string (item : PyVal) : outcome PyVal :=
  let* s := slice_1_m1 item in Ok (VStr s).

(** Boolean.int_to_bool_int *)
Definition int_to_bool_int (item : PyVal) : outcome PyVal :=
  let* result := py_int item in
  Ok (if py_eq result (VInt 0) then result else VInt 1).

(** Date.to_date, Time.to_time *)
Definition to_date (item : PyVal) : outcome PyVal :=
  let* s := slice_1_m1 item in
  let* d := date_fromisoformat s in Ok (VDate d).

Definition to_time (item : PyVal) : outcome PyVal :=
  let* s := slice_1_m1 item in
  let* t := time_fromisoformat s in Ok (VTime t).

(** Null.none_to_null *)
Definition none_to_null (item : PyVal) (column_is_null : bool) : outcome PyVal :=
  if negb (is_Null item) && column_is_null then Raise IllegalArgumentError
  else Ok (VStr "NULL").

(** The casting methods each subclass hands to SQL_Type.__init__. *)
Definition to_sql (t : SQL_Type) (item : PyVal) : outcome PyVal :=
  match kind t with
  | KString _ => convert_to_sql_string item
  | KInteger => py_int item
  | KFloat => py_float item
  | KBoolean => int_to_bool_int item
  | KDate | KTime => convert_to_sql_string_datetime item
  | KNull => none_to_null item true
  end.

Definition to_python (t : SQL_Type) (item : PyVal) : outcome PyVal :=
  match kind t with
  | KString _ => convert_to_python_string item
  | KInteger => py_int item
  | KFloat => py_float item
  | KBoolean => Ok (py_bool item)
  | KDate => to_date item
  | KTime => to_time item
  | KNull => Ok VNone
  end.

(** SQL_Type.convert_to_sql: the Null marker is persisted by its own
    to_sql; a ValueError of the casting method becomes
    IllegalArgumentError. *)
Definition convert_to_sql (t : SQL_Type) (item : PyVal) : outcome PyVal :=
  if is_Null item then none_to_null item false
  else match to_sql t item with
       | Ok v => Ok v
       | Raise e => if is_ValueError e then Raise IllegalArgumentError else Raise e
       end.

(** SQL_Type.convert_to_python *)
Definition convert_to_python (t : SQL_Type) (item : PyVal) : outcome PyVal :=
  to_python t item.

(** SQL_Type.validate *)
Definition validate (t : SQL_Type) (item : PyVal) : outcome unit :=
  if is_Null item && negb (is_nullable t) && negb (is_primary_key t)
  then Raise IllegalArgumentError else Ok tt.

(* ===================================================================== *)
(** ** column_wrapper.py: columns and WHERE conditions *)
(* ===================================================================== *)

(** A ColumnWrapper as statements see it: [table] is the name of the owning
    table, [foreign] is [Some original_column_name] for an instance of the
    subclass ForeignKey. *)
Record ColumnWrapper : Type := mkColumn {
  table : string;
  name : string;
  type : SQL_Type;
  foreign : option string
}.

(** ColumnWrapper.__str__ and ForeignKey.__str__ *)
Definition column_str (c : ColumnWrapper) : string :=
  match foreign c with
  | None => name c +:+ " [" +:+ string_repr (type c) +:+ "]"
  | Some _ => "Foreign Key{" +:+ name c +:+ " [" +:+ string_repr (type c) +:+ "]}"
  end.

(** ColumnWrapper.__transform_other *)
Definition transform_other (self : ColumnWrapper) (other : PyVal) : outcome PyVal :=
  match other with
  | VNone => Ok (VStr "NULL")
  | _ => convert_to_sql (type self) other
  end.

(** *** The heap of condition objects

    A WhereConditionWrapper is a mutable object whose parameter pool is a
    list object; both are heap cells, so that two conditions sharing a
    list, or a condition combined with itself, are represented. *)
Definition loc : Type := positive.

Inductive object : Type :=
  | OList (items : list PyVal)
  | OCond (condition : string) (parameterised_query_pool : loc).

Definition alloc (h : gmap loc object) (o : object) : gmap loc object * loc :=
  let l := fresh (dom h) in (<[l := o]> h, l).

(** WhereConditionWrapper.__init__ with a pool. *)
Definition WhereConditionWrapper (condition : string) (pool : list PyVal)
    (h : gmap loc object) : gmap loc object * loc :=
  let '(h1, lp) := alloc h (OList pool) in
  alloc h1 (OCond condition lp).

(** Reading an object: self.condition, self.parameterised_query_pool. *)
Definition get_condition (h : gmap loc object) (c : loc) : option string :=
  match h !! c with
  | Some (OCond s _) => Some s
  | _ => None
  end.

Definition get_pool (h : gmap loc object) (c : loc) : option (list PyVal) :=
  match h !! c with
  | Some (OCond _ p) =>
      match h !! p with
      | Some (OList l) => Some l
      | _ => None
      end
  | _ => None
  end.

(** The body shared by __and__ and __or__: extend self's pool in place with
    other's, append the connective and str(other) to self's text, return
    self.  An operand that is not a condition raises AttributeError. *)
Definition combine (connective : string) (self other : loc) (h : gmap loc object)
    : outcome (gmap loc object * loc) :=
  match h !! self, h !! other with
  | Some (OCond c1 p1), Some (OCond c2 p2) =>
      match h !! p1, h !! p2 with
      | Some (OList l1), Some (OList l2) =>
          let h1 := <[p1 := OList (l1 ++ l2)]> h in
          let h2 := <[self := OCond (c1 +:+ connective +:+ c2) p1]> h1 in
          Ok (h2, self)
      | _, _ => Raise TypeError
      end
  | _, _ => Raise AttributeError
  end.

Definition cond_and := combine " AND ".
Definition cond_or := combine " OR ".

(** The six comparison methods of ColumnWrapper. *)
Definition compare (operator : string) (self : ColumnWrapper) (other : PyVal)
    (h : gmap loc object) : outcome (gmap loc object * loc) :=
  let* other := transform_other self other in
  Ok (WhereConditionWrapper (name self +:+ " " +:+ operator +:+ " ?") [other] h).

Definition column_eq := compare "=".
Definition column_ne := compare "<>".
Definition column_lt := compare "<".
Definition column_le := compare "<=".
Definition column_gt := compare ">".
Definition column_ge := compare ">=".

(** Number of positional placeholders in a piece of SQL text. *)
Definition placeholders (s : string) : nat :=
  length (List.filter (fun c => is_char c "?") (chars s)).

(* ===================================================================== *)
(** ** The storage engine *)
(* ===================================================================== *)

(** One call of cursor.execute: the SQL text and the bound parameters. *)
Definition call : Type := (string * list PyVal)%type.

(** What sqlite3 answers: the rows fetchall() will return, or one of the
    exceptions the wrappers know about. *)
Inductive reply : Type :=
  | Rows (rows : list (list PyVal))
  | SqlOperationalError
  | SqlProgrammingError
  | SqlIntegrityError.

(** The state the statements act on: the calls the engine has received, the
    rows the cursor holds, and the next free object identity. *)
Record World : Type := mkWorld {
  calls : list call;
  cursor_rows : list (list PyVal);
  next_id : positive
}.

Definition M (A : Type) : Type := World -> World * outcome A.

Definition ret {A : Type} (a : A) : M A := fun w => (w, Ok a).
Definition raise {A : Type} (e : exn) : M A := fun w => (w, Raise e).
Definition lift {A : Type} (m : outcome A) : M A := fun w => (w, m).

Definition bindM {A B : Type} (m : M A) (k : A -> M B) : M B :=
  fun w =>
    match m w with
    | (w1, Ok a) => k a w1
    | (w1, Raise e) => (w1, Raise e)
    end.

Notation "'let!' x ':=' m 'in' k" := (bindM m (fun x => k))
  (at level 10, x name, m at level 100, k at level 200, only parsing).

(** A new object identity. *)
Definition new_id : M positive :=
  fun w => (mkWorld (calls w) (cursor_rows w) (Pos.succ (next_id w)), Ok (next_id w)).

Definition join (sep : string) (l : list string) : string := String.concat sep l.

(* ===================================================================== *)
(** ** table_wrapper.py: schema validation *)
(* ===================================================================== *)

(** What a class annotation of a user table can hold: an SQL_Type instance,
    a column of another table (a plain ColumnWrapper declares a foreign
    key; a ForeignKey instance is a ColumnWrapper with [foreign] set), or
    any other object. *)
Inductive decl : Type :=
  | DType (t : SQL_Type)
  | DColumn (c : ColumnWrapper)
  | DOther.

(** The second value of a class's __dict__, the one that follows
    __module__.  When the class body holds an annotation it is
    __annotations__, the dict of the annotated names in the order of the
    class body (an empty dict when no annotation of the body is
    executed).  In a class without annotations it is the first member the
    class body defines, or a slot of the class: [NoMapping], unless that
    member is itself a dict of declarations. *)
Inductive class_value : Type :=
  | Mapping (raw : list (string * decl))
  | NoMapping.

(** An entry of Table.foreign_keys: the wrapper of a foreign-key column,
    whose type is the referenced column. *)
Record fkey : Type := mkfkey { fkey_name : string; fkey_type : ColumnWrapper }.

Record Table : Type := mkTable {
  path : string;
  table_name : string;
  raw_columns : list (string * decl);
  columns : list ColumnWrapper;
  foreign_keys : list fkey
}.

(** type(x) == ColumnWrapper: exactly that class, not the subclass. *)
Definition is_ColumnWrapper (d : decl) : bool :=
  match d with
  | DColumn c => match foreign c with None => true | Some _ => false end
  | _ => false
  end.

(** SQL_Type in type(x).__bases__ *)
Definition is_SQL_Type (d : decl) : bool :=
  match d with DType _ => true | _ => false end.

Definition ends_with (s suffix : string) : bool :=
  let n := String.length s in
  let k := String.length suffix in
  (k <=? n) && String.eqb (substring (n - k) k s) suffix.

(** Table.__validate_path *)
Definition validate_path (path : PyVal) : outcome string :=
  match path with
  | VStr p => if negb (ends_with p ".db") then Raise InvalidPath else Ok p
  | _ => Raise InvalidPath
  end.

(** Table.__find_foreign_keys *)
Fixpoint find_foreign_keys (raw : list (string * decl)) : list fkey :=
  match raw with
  | [] => []
  | (column_name, DColumn c) :: r =>
      if is_ColumnWrapper (DColumn c)
      then mkfkey column_name c :: find_foreign_keys r
      else find_foreign_keys r
  | _ :: r => find_foreign_keys r
  end.

(** Table.__validate_foreign_keys *)
Fixpoint validate_foreign_keys (fkeys : list fkey) : outcome unit :=
  match fkeys with
  | [] => Ok tt
  | fk :: r =>
      if negb (is_primary_key (type (fkey_type fk))) then Raise TableKeysError
      else validate_foreign_keys r
  end.

(** The loop of Table.__validate_columns: reading is_primary_key off a
    column reference raises AttributeError, which is passed over; the type
    test comes in the same iteration. *)
Fixpoint count_primary_keys (column_types : list decl) (primary_keys_present : nat)
    : outcome nat :=
  match column_types with
  | [] => Ok primary_keys_present
  | column_type :: r =>
      let present :=
        match column_type with
        | DType t => if is_primary_key t then S primary_keys_present else primary_keys_present
        | _ => primary_keys_present
        end in
      if negb (is_SQL_Type column_type) && negb (is_ColumnWrapper column_type)
      then Raise InvalidColumnType
      else count_primary_keys r present
  end.

(** Table.__validate_columns *)
Definition validate_columns (raw : list (string * decl)) : outcome unit :=
  let* primary_keys_present := count_primary_keys (map snd raw) 0 in
  if primary_keys_present =? 0 then Raise TableKeysError
  else if 1 <? primary_keys_present then Raise TableKeysError
  else Ok tt.

(** The call of type(value_type.type) in __create_table: a new descriptor
    of the same class, built with the default flags (and the length of a
    String). *)
Definition same_class (id : positive) (t : SQL_Type) : SQL_Type :=
  match kind t with
  | KString n => String_ id n false true
  | KInteger => Integer id false true
  | KFloat => Float id false true
  | KBoolean => Boolean id false true
  | KDate => Date id false true
  | KTime => Time_ id false true
  | KNull => Null id
  end.

(** The first loop of Table.__create_table: the wrapped columns of the
    table, foreign keys replaced by ForeignKey instances, and the DDL
    fragment of each column. *)
Fixpoint build_columns (table_name : string) (raw : list (string * decl))
    : M (list (ColumnWrapper * string)) :=
  match raw with
  | [] => ret []
  | (value_name, value_type) :: r =>
      let! entry :=
        match value_type with
        | DType t => ret (mkColumn table_name value_name t None, value_name +:+ " " +:+ query t)
        | DColumn c =>
            if is_ColumnWrapper value_type then
              let! id := new_id in
              let t := same_class id (type c) in
              ret (mkColumn table_name value_name t (Some (name c)),
                   value_name +:+ " " +:+ query t)
            else raise AttributeError
        | DOther => raise AttributeError
        end in
      let! rest := build_columns table_name r in
      ret (entry :: rest)
  end.

Definition foreign_key_statement (fk : fkey) : string :=
  "FOREIGN KEY(" +:+ fkey_name fk +:+ ") REFERENCES " +:+ table (fkey_type fk)
  +:+ "(" +:+ name (fkey_type fk) +:+ ")".

Definition create_statement (table_name : string) (column_data : list string)
    (fkeys : list fkey) : string :=
  let base := "CREATE TABLE IF NOT EXISTS " +:+ table_name +:+ " (" +:+ join ", " column_data in
  let foreign_keys_statement := join ", " (map foreign_key_statement fkeys) in
  (if negb (String.eqb foreign_keys_statement "")
   then base +:+ ", " +:+ foreign_keys_statement else base) +:+ ")".

(* ===================================================================== *)
(** ** statement_wrapper.py: the pure helpers of the statement wrappers *)
(* ===================================================================== *)

(** A dict keyed by columns, in insertion order. The columns of one table
    have distinct names (they are the keys of its annotations), and
    ColumnWrapper hashes by name. *)
Definition row_data : Type := list (ColumnWrapper * PyVal).

(** list.index on strings: ValueError when the item is absent. *)
Fixpoint index_of (s : string) (l : list string) : outcome nat :=
  match l with
  | [] => Raise ValueError
  | x :: r => if String.eqb x s then Ok 0 else let* i := index_of s r in Ok (S i)
  end.

(** columns[columns.index(t)] on descriptors, compared by identity. *)
Fixpoint find_type (t : SQL_Type) (columns : list SQL_Type) : outcome SQL_Type :=
  match columns with
  | [] => Raise ValueError
  | x :: r => if Pos.eqb (obj_id x) (obj_id t) then Ok x else find_type t r
  end.

(** isinstance(column.type, Integer) and column.type.is_primary_key *)
Definition is_integer_primary_key (column : ColumnWrapper) : bool :=
  match kind (type column) with
  | KInteger => is_primary_key (type column)
  | _ => false
  end.

(** The loop of InsertIntoWrapper.__fill_all_columns over
    enumerate(all_columns), from [column_idx] on. *)
Fixpoint fill_loop (all_columns : list ColumnWrapper) (column_idx : nat)
    (relative_column_indexes : list nat) (data_values : list PyVal)
    (search_idx : nat) (return_data : row_data) : row_data :=
  match all_columns with
  | [] => return_data
  | column :: r =>
      if is_integer_primary_key column then
        fill_loop r (S column_idx) relative_column_indexes data_values search_idx return_data
      else if negb (length relative_column_indexes <=? search_idx) then
        if negb (column_idx =? nth search_idx relative_column_indexes 0) then
          fill_loop r (S column_idx) relative_column_indexes data_values search_idx
                    (return_data ++ [(column, VNull)])
        else
          fill_loop r (S column_idx) relative_column_indexes data_values (S search_idx)
                    (return_data ++ [(column, nth search_idx data_values VNone)])
      else
        fill_loop r (S column_idx) relative_column_indexes data_values search_idx
                  (return_data ++ [(column, VNull)])
  end.

(** InsertIntoWrapper.__fill_all_columns *)
Definition fill_all_columns (all_columns : list ColumnWrapper) (data : row_data)
    : outcome row_data :=
  let data_columns := map fst data in
  let data_values := map snd data in
  let* relative_column_indexes :=
    mapM (fun data_column => index_of (column_str data_column) (map column_str all_columns))
         data_columns in
  Ok (fill_loop all_columns 0 relative_column_indexes data_values 0 []).

(** InsertIntoWrapper.extract_sql_safe_values and its copy in
    UpdateWrapper. *)
Definition extract_sql_safe_values (columns : list SQL_Type) (data : row_data)
    : outcome (list PyVal) :=
  mapM (fun '(column_wrapper, value) =>
          let* column_type := find_type (type column_wrapper) columns in
          let* _ := validate column_type value in
          convert_to_sql column_type value)
       data.

(** dict.update on a column-keyed dict: an existing key keeps its place
    and takes the new value, a new key is appended. *)
Fixpoint dict_set (d : row_data) (k : ColumnWrapper) (v : PyVal) : row_data :=
  match d with
  | [] => [(k, v)]
  | (k', v') :: r =>
      if String.eqb (name k') (name k) then (k', v) :: r else (k', v') :: dict_set r k v
  end.

Definition dict_update (d extra : row_data) : row_data :=
  fold_left (fun acc '(k, v) => dict_set acc k v) extra d.

(** kwargs_conversion[column_name]: the column of that name, KeyError
    when there is none. *)
Fixpoint column_named (columns : list ColumnWrapper) (column_name : string)
    : outcome ColumnWrapper :=
  match columns with
  | [] => Raise KeyError
  | c :: r =>
      match column_named r column_name with
      | Ok c' => Ok c'
      | Raise _ => if String.eqb (name c) column_name then Ok c else Raise KeyError
      end
  end.

(** SQLStatement: the attributes set by __init__. *)
Record SQLStatement : Type := mkStatement {
  stmt_table : Table;
  parameterised_query_pool : list PyVal;
  statement : string;
  selector : option (list ColumnWrapper);
  is_deleting : bool;
  is_updating : bool
}.

(** One record of SQLStatement.to_python_types: zip(self.selector, record)
    stops at the shorter of the two, the fields beyond stay as fetched. *)
Fixpoint convert_record (selector : list ColumnWrapper) (record : list PyVal)
    : outcome (list PyVal) :=
  match selector, record with
  | column :: cs, field :: fs =>
      let* value :=
        if py_eq field (VStr "NULL") then Ok VNone
        else convert_to_python (type column) field in
      let* rest := convert_record cs fs in
      Ok (value :: rest)
  | _, _ => Ok record
  end.

(** SQLStatement.to_python_types *)
Definition to_python_types (selector : list ColumnWrapper) (data : list (list PyVal))
    : outcome (list (list PyVal)) :=
  mapM (convert_record selector) data.

(** The exceptions SQLStatement.execute translates. *)
Definition translate (e : exn) : exn :=
  match e with
  | OperationalError => InvalidQuery
  | ProgrammingError => ConnectionException
  | IntegrityError => IllegalArgumentError
  | _ => e
  end.

(** The two ways of naming the columns to select: Select("*"), and
    Select(column, ...). *)
Inductive select_columns : Type :=
  | Star
  | Columns (cols : list ColumnWrapper).

(** columns == ("*", ) in Table.Select.  Two tuples are compared item by
    item, and by their lengths only when no item differs.  The one item
    "*" is compared with the first argument: the str "*" is equal to it; a
    column answers through ColumnWrapper.__eq__, which converts "*" with
    the column's descriptor, and so may raise, and returns a condition
    object, which is true. *)
Definition is_wildcard (columns_arg : select_columns) : outcome bool :=
  match columns_arg with
  | Star => Ok true
  | Columns [] => Ok false
  | Columns (column :: rest) =>
      let* _ := transform_other column (VStr "*") in
      Ok (match rest with [] => true | _ :: _ => false end)
  end.

(* ===================================================================== *)
(** ** Statements and tables over an engine *)
(* ===================================================================== *)

Section Engine.

(** The engine answers a call knowing the calls that came before. *)
Variable engine : list call -> call -> reply.

(** cursor.execute(statement, parameters) *)
Definition cursor_execute (sql : string) (parameters : list PyVal) : M unit :=
  fun w =>
    let c := (sql, parameters) in
    let log := calls w ++ [c] in
    match engine (calls w) c with
    | Rows rows => (mkWorld log rows (next_id w), Ok tt)
    | SqlOperationalError => (mkWorld log (cursor_rows w) (next_id w), Raise OperationalError)
    | SqlProgrammingError => (mkWorld log (cursor_rows w) (next_id w), Raise ProgrammingError)
    | SqlIntegrityError => (mkWorld log (cursor_rows w) (next_id w), Raise IntegrityError)
    end.

(** cursor.fetchall() *)
Definition fetchall : M (list (list PyVal)) :=
  fun w => (mkWorld (calls w) [] (next_id w), Ok (cursor_rows w)).

(** Table.connect: sqlite3.connect, which is taken to open the file, the
    PRAGMA sent through connection.execute, and a new cursor, which holds
    no rows. *)
Definition connect : M unit :=
  fun w =>
    let c := ("PRAGMA foreign_keys = ON", []) in
    let log := calls w ++ [c] in
    match engine (calls w) c with
    | Rows _ => (mkWorld log [] (next_id w), Ok tt)
    | SqlOperationalError => (mkWorld log (cursor_rows w) (next_id w), Raise OperationalError)
    | SqlProgrammingError => (mkWorld log (cursor_rows w) (next_id w), Raise ProgrammingError)
    | SqlIntegrityError => (mkWorld log (cursor_rows w) (next_id w), Raise IntegrityError)
    end.

(** Table.__create_table: the statement is built, then executed inside
    connect_to(cls, commit=False), which connects before and closes the
    connection after; an error of sqlite3 is not translated here. *)
Definition create_table (table_name : string) (raw : list (string * decl))
    (fkeys : list fkey) : M (list ColumnWrapper) :=
  let! built := build_columns table_name raw in
  let! _ := connect in
  let! _ := cursor_execute (create_statement table_name (map snd built) fkeys) [] in
  ret (map fst built).

(** Table.__get_columns: list(cls.__dict__.values())[1], the value that
    follows __module__ in the class's __dict__. *)
Definition get_columns (second : class_value) : class_value := second.

(** raw_columns.items() *)
Definition items (raw_columns : class_value) : outcome (list (string * decl)) :=
  match raw_columns with
  | Mapping raw => Ok raw
  | NoMapping => Raise AttributeError
  end.

(** Table.__new__; [second] is the second value of the class's __dict__. *)
Definition Table_new (path : PyVal) (table_name : string) (second : class_value)
    : M Table :=
  let! path := lift (validate_path path) in
  let! raw_columns := lift (items (get_columns second)) in
  let fkeys := find_foreign_keys raw_columns in
  let! _ := lift (validate_foreign_keys fkeys) in
  let! _ := lift (validate_columns raw_columns) in
  let! columns := create_table table_name raw_columns fkeys in
  ret (mkTable path table_name raw_columns columns fkeys).

(** SQLStatement.execute.  The echo of the query on the console when
    output_queries is set is not part of the embedding. *)
Definition execute (self : SQLStatement) : M unit :=
  fun w =>
    match cursor_execute (statement self) (parameterised_query_pool self) w with
    | (w1, Ok u) => (w1, Ok u)
    | (w1, Raise e) => (w1, Raise (translate e))
    end.

(** SQLStatement.Where.  The argument is None or an object of the heap [h].
    An object that is no condition has no parameterised_query_pool: the
    AttributeError is raised inside the try block and becomes
    InvalidStatement.  A condition whose pool is not a list cannot extend
    the statement's pool: that TypeError is not caught. *)
Definition Where (self : SQLStatement) (h : gmap loc object) (condition : option loc)
    : M SQLStatement :=
  match condition with
  | None => raise InvalidStatement
  | Some c =>
      match h !! c with
      | Some (OCond condition_text p) =>
          match h !! p with
          | Some (OList pool) =>
              let self :=
                mkStatement (stmt_table self)
                            (parameterised_query_pool self ++ pool)
                            (statement self +:+ " WHERE " +:+ condition_text)
                            (selector self) (is_deleting self) (is_updating self) in
              let! _ := if is_deleting self || is_updating self then execute self else ret tt in
              ret self
          | _ => raise TypeError
          end
      | _ => raise InvalidStatement
      end
  end.

(** SQLStatement.Fetch: the fetched data with the selected columns, as held
    by a SelectionWrapper. *)
Definition Fetch (self : SQLStatement) : M (list (list PyVal) * list ColumnWrapper) :=
  match selector self with
  | None => raise InvalidStatement
  | Some selected =>
      let! _ := execute self in
      let! data := fetchall in
      let! data := lift (to_python_types selected data) in
      ret (data, selected)
  end.

(** SelectWrapper.__init__ *)
Definition SelectWrapper (selector : list ColumnWrapper) (table : Table) : M SQLStatement :=
  ret (mkStatement table []
         ("SELECT " +:+ join ", " (map name selector) +:+ " FROM " +:+ table_name table)
         (Some selector) false false).

(** DeleteWrapper.__init__ *)
Definition DeleteWrapper (table : Table) : M SQLStatement :=
  ret (mkStatement table [] ("DELETE FROM " +:+ table_name table) None true false).

(** InsertIntoWrapper.__init__ up to the call of the parent constructor.
    [data] is None when the caller passed no dict: data.keys() then raises
    AttributeError. *)
Definition insert_statement (table : Table) (data : option row_data) : outcome SQLStatement :=
  match data with
  | None => Raise AttributeError
  | Some data =>
      let* data := fill_all_columns (columns table) data in
      let* values := extract_sql_safe_values (map type (columns table)) data in
      let columns := join ", " (map (fun '(column, _) => name column) data) in
      let protected_values := join ", " (map (fun _ => "?") values) in
      Ok (mkStatement table (map (fun value => VStr (py_str value)) values)
            ("INSERT INTO " +:+ table_name table +:+ " (" +:+ columns +:+ ") VALUES ("
             +:+ protected_values +:+ ")")
            None false false)
  end.

(** InsertIntoWrapper.__init__: build, then execute at once. *)
Definition InsertIntoWrapper (table : Table) (data : option row_data) : M SQLStatement :=
  let! self := lift (insert_statement table data) in
  let! _ := execute self in
  ret self.

(** UpdateWrapper.__init__ *)
Definition UpdateWrapper (table : Table) (data : option row_data) : M SQLStatement :=
  match data with
  | None => raise AttributeError
  | Some data =>
      let keys := map (fun '(column, _) => name column) data in
      let! values := lift (extract_sql_safe_values (map type (columns table)) data) in
      let statement_base := join ", " (map (fun key => key +:+ " = ?") keys) in
      ret (mkStatement table (map (fun value => VStr (py_str value)) values)
             ("UPDATE " +:+ table_name table +:+ " SET " +:+ statement_base)
             None false true)
  end.

(** Table.Select *)
Definition Select (cls : Table) (columns_arg : select_columns) : M SQLStatement :=
  let! wildcard := lift (is_wildcard columns_arg) in
  match columns_arg with
  | Columns cols => if wildcard then SelectWrapper (columns cls) cls else SelectWrapper cols cls
  | Star => SelectWrapper (columns cls) cls
  end.

(** Table.Delete *)
Definition Delete (cls : Table) : M SQLStatement := DeleteWrapper cls.

(** **kwargs is always a dict, never None. *)
Definition kwargs_is_None (kwargs : list (string * PyVal)) : bool := false.

(** The merge of the keyword arguments shared by InsertInto and Update:
    each keyword is looked up among the table's columns, then data.update
    is called, which raises AttributeError on None. *)
Definition merge_kwargs (cls : Table) (data : option row_data)
    (kwargs : list (string * PyVal)) : outcome (option row_data) :=
  match kwargs with
  | [] => Ok data
  | _ =>
      let* converted :=
        mapM (fun '(column_name, value) =>
                let* column := column_named (columns cls) column_name in Ok (column, value))
             kwargs in
      match data with
      | None => Raise AttributeError
      | Some d => Ok (Some (dict_update d converted))
      end
  end.

(** Table.InsertInto *)
Definition InsertInto (cls : Table) (data : option row_data) (kwargs : list (string * PyVal))
    : M SQLStatement :=
  if (match data with None => true | Some _ => false end) && kwargs_is_None kwargs
  then raise IllegalArgumentError
  else
    let! data := lift (merge_kwargs cls data kwargs) in
    InsertIntoWrapper cls data.

(** Table.Update *)
Definition Update (cls : Table) (data : option row_data) (kwargs : list (string * PyVal))
    : M SQLStatement :=
  if (match data with None => true | Some _ => false end) && kwargs_is_None kwargs
  then raise IllegalArgumentError
  else
    let! data := lift (merge_kwargs cls data kwargs) in
    UpdateWrapper cls data.

End Engine.

(* ===================================================================== *)
(** * Vocabulary of the properties and sample data

    The predicates the properties are stated with, in the words of the
    specification, and the tables and conditions of example.py used as
    concrete inputs. *)
(* ===================================================================== *)

(** to_domain(to_persisted(v)) == v *)
Definition round_trips (T : SQL_Type) (v : PyVal) : Prop :=
  exists persisted domain,
    convert_to_sql T v = Ok persisted /\
    convert_to_python T persisted = Ok domain /\
    py_eq domain v = true.

(** The values a descriptor is written for, read off its casting
    methods and their annotations: str for String, int for Integer, float
    for Float, Union[bool, int] for Boolean, date, time, and the Null
    marker for Null. *)
Definition valid_domain_value (T : SQL_Type) (v : PyVal) : bool :=
  match kind T, v with
  | KString _, VStr _ => true
  | KInteger, (VInt _ | VBool _) => true
  | KFloat, VFloat f => valid_float f
  | KBoolean, (VBool _ | VInt _) => true
  | KDate, VDate d => valid_date d
  | KTime, VTime t => valid_time t
  | KNull, VNull => true
  | _, _ => false
  end.

(** The valid values that do come back equal: all of them except an int
    other than 0 and 1 given to Boolean, the float NaN, and the Null
    marker. *)
Definition returns_equal (T : SQL_Type) (v : PyVal) : bool :=
  match kind T, v with
  | KBoolean, VInt z => (z =? 0)%Z || (z =? 1)%Z
  | KFloat, VFloat f => valid_float f && negb (is_nan f)
  | KNull, _ => false
  | _, _ => valid_domain_value T v
  end.

(** self.parameterised_query_pool as a reference: the list object a
    condition points to. *)
Definition get_pool_ref (h : gmap loc object) (c : loc) : option loc :=
  match h !! c with
  | Some (OCond _ p) => Some p
  | _ => None
  end.

(** Two leaf conditions, x = 1 and y = 2, each with a pool of its own. *)
Definition two_conditions : gmap loc object :=
  <[4%positive := OCond "y = ?" 3%positive]>
    (<[3%positive := OList [VInt 2]]>
       (<[2%positive := OCond "x = ?" 1%positive]>
          (<[1%positive := OList [VInt 1]]> ∅))).

(** The operators of __eq__, __ne__, __lt__, __le__, __gt__ and __ge__. *)
Definition comparison_operators : list string := ["="; "<>"; "<"; "<="; ">"; ">="].

(** The six comparison methods with their operators. *)
Definition comparisons
    : list (string * (ColumnWrapper -> PyVal -> gmap loc object -> outcome (gmap loc object * loc))) :=
  [("=", column_eq); ("<>", column_ne); ("<", column_lt);
   ("<=", column_le); (">", column_gt); (">=", column_ge)].

(** The key rules in the words of the specification: the number of
    declared primary keys, and a foreign key whose target is not one. *)
Definition declares_primary_key (d : decl) : bool :=
  match d with
  | DType t => is_primary_key t
  | _ => false
  end.

Definition primary_keys (raw : list (string * decl)) : nat :=
  length (List.filter declares_primary_key (map snd raw)).

Definition foreign_key_to_non_primary (d : decl) : bool :=
  match d with
  | DColumn c => is_ColumnWrapper d && negb (is_primary_key (type c))
  | _ => false
  end.

Definition keys_rejected (raw : list (string * decl)) : bool :=
  (primary_keys raw =? 0) || (1 <? primary_keys raw)
  || existsb foreign_key_to_non_primary (map snd raw).

(** Every declared type belongs to the closed set: a descriptor, or a
    column of another table. *)
Definition closed_types (raw : list (string * decl)) : bool :=
  forallb (fun d => is_SQL_Type d || is_ColumnWrapper d) (map snd raw).

(** The two key checks in the order Table.__new__ runs them. *)
Definition key_validation (raw : list (string * decl)) : outcome unit :=
  let* _ := validate_foreign_keys (find_foreign_keys raw) in
  validate_columns raw.

(** The Subjects table of example.py. *)
Definition Subjects_columns : list (string * decl) :=
  [("SubjectID", DType (Integer 1 true true));
   ("SubjectName", DType (String_ 2 20 false true))].

Definition no_rows : list call -> call -> reply := fun _ _ => Rows [].

Definition empty_world : World := mkWorld [] [] 100.

(** The Students table of example.py, without its foreign key. *)
Definition StudentID : ColumnWrapper := mkColumn "Students" "StudentID" (Integer 3 true true) None.
Definition FirstName : ColumnWrapper := mkColumn "Students" "FirstName" (String_ 4 30 false true) None.
Definition LastName : ColumnWrapper := mkColumn "Students" "LastName" (String_ 5 20 false true) None.

Definition Students_columns : list (string * decl) :=
  [("StudentID", DType (type StudentID));
   ("FirstName", DType (type FirstName));
   ("LastName", DType (type LastName))].

Definition Students : Table :=
  mkTable "database.db" "Students" Students_columns [StudentID; FirstName; LastName] [].

(** The value the mapping holds for a column, found by the column's text
    as __fill_all_columns finds it; the null marker when there is none. *)
Fixpoint value_for (data : row_data) (column : ColumnWrapper) : PyVal :=
  match data with
  | [] => VNull
  | (key, value) :: r =>
      if String.eqb (column_str key) (column_str column) then value else value_for r column
  end.

(** The columns that appear in the generated column list: all but an
    integer primary key. *)
Definition kept (column : ColumnWrapper) : bool := negb (is_integer_primary_key column).

(** str(data_column) for an entry of the mapping. *)
Definition key_text (entry : ColumnWrapper * PyVal) : string := column_str (fst entry).

(** The indexes found in the whole table, seen from position [k] on. *)
Definition indexes_from (r : list ColumnWrapper) (k : nat) (data : row_data) (rel : list nat)
    : Prop :=
  Forall2 (fun entry i =>
             exists j, index_of (key_text entry) (map column_str r) = Ok j /\ i = k + j)
          data rel.

(** The condition StudentID = 1 of example.py, as two heap cells. *)
Definition StudentID_is_1 : gmap loc object :=
  <[2%positive := OCond "StudentID = ?" 1%positive]> (<[1%positive := OList [VInt 1]]> ∅).

(** How one entry of the value mapping is bound: the descriptor found for
    the column converts the value, and the parameter is the str() of the
    result. *)
Definition bound_as_text (columns : list SQL_Type) (entry : ColumnWrapper * PyVal)
    (parameter : PyVal) : Prop :=
  exists column_type converted,
    find_type (type (fst entry)) columns = Ok column_type /\
    convert_to_sql column_type (snd entry) = Ok converted /\
    parameter = VStr (py_str converted) /\
    (snd entry = VNull -> parameter = VStr "NULL") /\
    (forall z, converted = VInt z -> parameter = VStr (int_str z)).

(** A table with an integer column that is not its key. *)
Definition Marks : Table :=
  mkTable "database.db" "Marks"
    [("MarkID", DType (Integer 6 true true));
     ("Points", DType (Integer 7 false true));
     ("Comment", DType (String_ 8 40 false true))]
    [mkColumn "Marks" "MarkID" (Integer 6 true true) None;
     mkColumn "Marks" "Points" (Integer 7 false true) None;
     mkColumn "Marks" "Comment" (String_ 8 40 false true) None]
    [].

Definition Points : ColumnWrapper := mkColumn "Marks" "Points" (Integer 7 false true) None.

(* ===================================================================== *)
(** * formatting.py and the table view of a selection *)
(* ===================================================================== *)

(** What the formatting utilities take and print: a str, or a Text, which
    holds the unformatted value it was made from ([string]) and the text
    with the escape codes ([raw_text]). *)
Inductive printable : Type :=
  | PStr (s : string)
  | PText (string_ : printable) (raw_text : string).

(** len(): Text.__len__ is the len of the unformatted value. *)
Fixpoint py_len (p : printable) : nat :=
  match p with
  | PStr s => String.length s
  | PText inner _ => py_len inner
  end.

(** str(): Text.__str__ is the raw text. *)
Definition printable_str (p : printable) : string :=
  match p with
  | PStr s => s
  | PText _ raw => raw
  end.

(** The escape codes of class Formatting: ESC, an opening bracket, the
    number and m. *)
Definition escape (code : string) : string := String "027"%char ("[" +:+ code +:+ "m").

Definition END : string := escape "0".
Definition BLACK : string := escape "30".
Definition RED : string := escape "31".
Definition GREEN : string := escape "32".
Definition YELLOW : string := escape "33".
Definition BLUE : string := escape "34".
Definition MAGENTA : string := escape "35".
Definition CYAN : string := escape "36".
Definition WHITE : string := escape "37".
Definition SUCCESS : string := escape "92".
Definition WARNING : string := escape "93".
Definition FAIL : string := escape "91".
Definition BOLD : string := escape "1".
Definition DIM : string := escape "2".
Definition UNDERLINE : string := escape "4".

(** The body the fourteen class methods share:
    Text(string, code + str(string) + END). *)
Definition formatted (code : string) (p : printable) : printable :=
  PText p (code +:+ printable_str p +:+ END).

Definition black := formatted BLACK.
Definition yellow := formatted YELLOW.
Definition blue := formatted BLUE.
Definition magenta := formatted MAGENTA.
Definition cyan := formatted CYAN.
Definition white := formatted WHITE.
Definition success := formatted SUCCESS.
Definition warning := formatted WARNING.
Definition fail := formatted FAIL.
Definition bold := formatted BOLD.
Definition dim := formatted DIM.
Definition underline := formatted UNDERLINE.
Definition green := formatted GREEN.
Definition red := formatted RED.

(** SQLStatement.__str__: the statement, two tabs and the parameters in
    braces. *)
Definition statement_str (self : SQLStatement) : string :=
  statement self +:+ String "009"%char (String "009"%char "{")
  +:+ join ", " (map py_str (parameterised_query_pool self)) +:+ "}".

(** round(n / 4) for a length: Python rounds a half to the even
    neighbour. *)
Definition round_quarters (n : nat) : nat :=
  let k := n / 4 in
  match n mod 4 with
  | 0 | 1 => k
  | 2 => if Nat.even k then k else S k
  | _ => S k
  end.

(** "\t" * n, empty for a negative n. *)
Definition tabs (n : Z) : string := text (repeat "009"%char (Z.to_nat n)).

(** SelectionWrapper.__get_padding; [None] stands for the IndexError of
    target_lengths[column_idx].  The quotient by 4 is a float division
    followed by int(), which truncates. *)
Definition get_padding (column_idx : nat) (target_lengths : list nat) (field : printable)
    : option string :=
  match target_lengths !! column_idx with
  | None => None
  | Some target_length =>
      let field_length := Z.of_nat (py_len field) in
      Some (tabs (Z.quot (Z.of_nat target_length - (field_length - field_length mod 4)) 4))
  end.

(** SelectionWrapper.__convert_to_viewable_sql *)
Definition convert_to_viewable_sql (field : PyVal) (column : ColumnWrapper) : string :=
  let field :=
    match field with
    | VNone => "NULL"
    | VStr s => quoted s
    | _ => py_str field
    end in
  match foreign column with
  | Some original_column_name => original_column_name +:+ "[" +:+ field +:+ "]"
  | None => field
  end.

(** One row of the first comprehension of format_selection, from
    [field_idx] on; [None] stands for the IndexError of
    columns[field_idx]. *)
Fixpoint view_row (columns : list ColumnWrapper) (field_idx : nat) (row : list PyVal)
    : option (list printable) :=
  match row with
  | [] => Some []
  | field :: r =>
      match columns !! field_idx, view_row columns (S field_idx) r with
      | Some column, Some rest => Some (PStr (convert_to_viewable_sql field column) :: rest)
      | _, _ => None
      end
  end.

Fixpoint view_rows (columns : list ColumnWrapper) (selection_data : list (list PyVal))
    : option (list (list printable)) :=
  match selection_data with
  | [] => Some []
  | row :: r =>
      match view_row columns 0 row, view_rows columns r with
      | Some v, Some rest => Some (v :: rest)
      | _, _ => None
      end
  end.

(** zip over the rows: as many columns as the shortest row has
    fields. *)
Definition shortest (rows : list (list printable)) : nat :=
  match rows with
  | [] => 0
  | row :: r => fold_right (fun x n => Nat.min (length x) n) (length row) r
  end.

Definition zip_rows (rows : list (list printable)) : list (list printable) :=
  map (fun i => map (fun row => nth i row (PStr "")) rows) (seq 0 (shortest rows)).

(** len(max(column, key=len)) *)
Definition longest (column : list printable) : nat :=
  fold_right (fun x n => Nat.max (py_len x) n) 0 column.

(** 4 * round(len(max(column, key=len)) / 4) + 4 *)
Definition target_length (column : list printable) : nat :=
  4 * round_quarters (longest column) + 4.

(** The inner loop of format_selection over enumerate(row), from
    [column_idx] on. *)
Fixpoint format_fields (target_lengths : list nat) (column_idx : nat) (row : list printable)
    : option string :=
  match row with
  | [] => Some ""
  | field :: r =>
      match get_padding column_idx target_lengths field,
            format_fields target_lengths (S column_idx) r with
      | Some padding, Some rest =>
          Some (printable_str (bold (PStr "|")) +:+ String "009"%char (printable_str field)
                +:+ padding +:+ rest)
      | _, _ => None
      end
  end.

Definition format_row (target_lengths : list nat) (row : list printable) : option string :=
  match format_fields target_lengths 0 row with
  | Some fields => Some (fields +:+ printable_str (bold (PStr "|")) +:+ String "010"%char "")
  | None => None
  end.

Fixpoint format_rows (target_lengths : list nat) (data : list (list printable))
    : option string :=
  match data with
  | [] => Some ""
  | row :: r =>
      match format_row target_lengths row, format_rows target_lengths r with
      | Some line, Some rest => Some (line +:+ rest)
      | _, _ => None
      end
  end.

(** The rows format_selection prints: the headings, an empty row, and the
    viewable rows. *)
Definition table_rows (columns : list ColumnWrapper) (viewed : list (list printable))
    : list (list printable) :=
  map (fun column => bold (underline (PStr (name column)))) columns
  :: map (fun _ => PStr "") columns
  :: viewed.

(** SelectionWrapper.format_selection; [None] stands for an IndexError. *)
Definition format_selection (columns : list ColumnWrapper) (selection_data : list (list PyVal))
    : option string :=
  match view_rows columns selection_data with
  | None => None
  | Some viewed =>
      let data := table_rows columns viewed in
      let target_lengths := map target_length (zip_rows (rev data)) in
      format_rows target_lengths data
  end.

(* ===================================================================== *)
(** * Vocabulary of the further properties *)
(* ===================================================================== *)

(** The values whose str() the interpreter gives: all but an int of more
    digits than max_str_digits, which the default configuration refuses
    to print. *)
Definition str_within_limit (v : PyVal) : bool :=
  match v with
  | VInt z => (N.of_nat (String.length (int_str (Z.abs z))) <=? max_str_digits)%N
  | _ => true
  end.

(** The four ways in which the conversion of a value for a column
    fails. *)
Definition conversion_error (T : SQL_Type) (v : PyVal) (e : exn) : Prop :=
  (e = InvalidColumnType /\ (exists n, kind T = KString n) /\ is_str v = false)
  \/ (e = IllegalArgumentError /\
      ((kind T = KNull /\ is_Null v = false)
       \/ ((kind T = KInteger \/ kind T = KBoolean) /\
           ((exists s, v = VStr s /\ int_of_str s = Raise ValueError)
            \/ v = VFloat S754_nan))
       \/ (kind T = KFloat /\ exists s, v = VStr s /\ float_of_str s = Raise ValueError)))
  \/ (e = TypeError /\ (kind T = KInteger \/ kind T = KFloat \/ kind T = KBoolean) /\
      (v = VNone \/ (exists d, v = VDate d) \/ (exists t, v = VTime t)))
  \/ (e = OverflowError /\
      (((kind T = KInteger \/ kind T = KBoolean) /\ exists s, v = VFloat (S754_infinity s))
       \/ (kind T = KFloat /\ exists z, v = VInt z /\ float_of_int z = Raise OverflowError))).

(** A value of the Python type a column's descriptor stands for. *)
Definition own_value (T : SQL_Type) (v : PyVal) : bool :=
  match kind T, v with
  | KString _, VStr _ => true
  | KInteger, VInt _ => true
  | KFloat, VFloat f => valid_float f
  | KBoolean, VBool _ => true
  | KDate, VDate d => valid_date d
  | KTime, VTime t => valid_time t
  | _, _ => false
  end.

(** What was written into a field: a value of the column's type, or the
    null marker. *)
Definition storable (column : ColumnWrapper) (v : PyVal) : Prop :=
  v = VNull \/ own_value (type column) v = true.

(** What a fetch gives for it: None for the null marker. *)
Definition fetched (v : PyVal) : PyVal :=
  match v with
  | VNull => VNone
  | _ => v
  end.

(** The columns a Select that returns has selected: all the columns of
    the table for "*", and also for a single column, whose comparison
    with "*" leaves two tuples of one item; the given columns otherwise. *)
Definition selected_columns (cls : Table) (columns_arg : select_columns)
    : list ColumnWrapper :=
  match columns_arg with
  | Star => columns cls
  | Columns [_] => columns cls
  | Columns cols => cols
  end.

(** The persisted forms of the values of one row, column by column. *)
Fixpoint persist_row (selector : list ColumnWrapper) (values : list PyVal)
    : outcome (list PyVal) :=
  match selector, values with
  | column :: cs, value :: vs =>
      let* p := convert_to_sql (type column) value in
      let* rest := persist_row cs vs in
      Ok (p :: rest)
  | _, _ => Ok []
  end.

(** A condition whose text has as many placeholders as its pool has
    parameters. *)
Definition aligned_condition (h : gmap loc object) (c : loc) : Prop :=
  exists t l,
    get_condition h c = Some t /\ get_pool h c = Some l /\ placeholders t = length l.

(** The same for a statement. *)
Definition aligned_statement (self : SQLStatement) : Prop :=
  placeholders (statement self) = length (parameterised_query_pool self).

(** Names written into the SQL text without a question mark. *)
Definition plain_name (s : string) : Prop := placeholders s = 0.

(** How a column of a constructed table answers its declaration: the
    declared name, the table's name, and either the declared descriptor
    or, for a reference to another table's column, a ForeignKey instance
    with a new descriptor of the referenced class that is nullable and no
    primary key. *)
Definition column_of_declaration (table_name : string) (declaration : string * decl)
    (column : ColumnWrapper) : Prop :=
  name column = fst declaration /\
  table column = table_name /\
  match snd declaration with
  | DType t => type column = t /\ foreign column = None
  | DColumn c =>
      foreign column = Some (name c) /\
      kind (type column) = kind (type c) /\
      is_primary_key (type column) = false /\
      is_nullable (type column) = true
  | DOther => False
  end.

(** The CREATE TABLE text of a table: its name, each column with the SQL
    of its type and, after the columns, one FOREIGN KEY clause for each
    foreign key. *)
Definition create_table_text (cls : Table) : string :=
  "CREATE TABLE IF NOT EXISTS " +:+ table_name cls +:+ " ("
  +:+ join ", " (map (fun c => name c +:+ " " +:+ query (type c)) (columns cls))
  +:+ match foreign_keys cls with
      | [] => ""
      | _ :: _ =>
          ", " +:+ join ", "
                     (map (fun fk => "FOREIGN KEY(" +:+ fkey_name fk +:+ ") REFERENCES "
                                     +:+ table (fkey_type fk) +:+ "("
                                     +:+ name (fkey_type fk) +:+ ")")
                          (foreign_keys cls))
      end
  +:+ ")".

(** The number of primary-key columns of a table. *)
Definition primary_key_columns (columns : list ColumnWrapper) : nat :=
  length (List.filter (fun c => is_primary_key (type c)) columns).

(** The fourteen class methods of Formatting, by name, and the escape
    code each one opens with. *)
Inductive method : Type :=
  | Black | Yellow | Blue | Magenta | Cyan | White | Success | Warning | Fail_
  | Bold | Dim | Underline | Green | Red.

Definition call_method (m : method) : printable -> printable :=
  match m with
  | Black => black | Yellow => yellow | Blue => blue | Magenta => magenta
  | Cyan => cyan | White => white | Success => success | Warning => warning
  | Fail_ => fail | Bold => bold | Dim => dim | Underline => underline
  | Green => green | Red => red
  end.

Definition opening_code (m : method) : string :=
  match m with
  | Black => BLACK | Yellow => YELLOW | Blue => BLUE | Magenta => MAGENTA
  | Cyan => CYAN | White => WHITE | Success => SUCCESS | Warning => WARNING
  | Fail_ => FAIL | Bold => BOLD | Dim => DIM | Underline => UNDERLINE
  | Green => GREEN | Red => RED
  end.

(** Nested calls m1(m2(...(string))): the head of the list is the
    outermost call. *)
Definition nested (methods : list method) (string_ : string) : printable :=
  fold_right call_method (PStr string_) methods.

(* ===================================================================== *)
(** * Further sample data *)
(* ===================================================================== *)

(** The Subjects table after the insertion of example.py, as sqlite
    answers a selection of both columns. *)
Definition SubjectID : ColumnWrapper := mkColumn "Subjects" "SubjectID" (Integer 1 true true) None.
Definition SubjectName : ColumnWrapper :=
  mkColumn "Subjects" "SubjectName" (String_ 2 20 false true) None.
Definition Subjects : Table :=
  mkTable "database.db" "Subjects" Subjects_columns [SubjectID; SubjectName] [].
Definition one_subject : list call -> call -> reply :=
  fun _ _ => Rows [[VInt 1; VStr "'Computing'"]].

(** Three leaf conditions, each with its own pool. *)
Definition three_conditions : gmap loc object :=
  <[6%positive := OCond "z = ?" 5%positive]> (<[5%positive := OList [VInt 3]]> two_conditions).

(** A table whose second column is NOT NULL. *)
Definition Rooms : Table :=
  mkTable "database.db" "Rooms"
    [("RoomID", DType (Integer 9 true true));
     ("Building", DType (String_ 10 20 false false));
     ("Floor", DType (Integer 11 false true))]
    [mkColumn "Rooms" "RoomID" (Integer 9 true true) None;
     mkColumn "Rooms" "Building" (String_ 10 20 false false) None;
     mkColumn "Rooms" "Floor" (Integer 11 false true) None]
    [].

Definition Building : ColumnWrapper := mkColumn "Rooms" "Building" (String_ 10 20 false false) None.
Definition Floor : ColumnWrapper := mkColumn "Rooms" "Floor" (Integer 11 false true) None.

(* ===================================================================== *)
(** * Properties *)
(* ===================================================================== *)

(** ** Text lemmas *)

Ltac Zify.zify_post_hook ::= Z.div_mod_to_equations.

Arguments digit : simpl never.

Lemma chars_text (l : list ascii) : chars (text l) = l.
Proof. apply list_ascii_of_string_of_list_ascii. Qed.

Lemma text_chars (s : string) : text (chars s) = s.
Proof. apply string_of_list_ascii_of_string. Qed.

Lemma chars_append (s t : string) : chars (s +:+ t) = chars s ++ chars t.
Proof.
  unfold chars. induction s as [|c s IH]; simpl; [reflexivity|].
  now rewrite IH.
Qed.

Lemma slice_quoted (s : string) : slice_1_m1 (VStr (quoted s)) = Ok s.
Proof.
  unfold slice_1_m1, quoted. rewrite !chars_append. simpl.
  rewrite removelast_last. now rewrite text_chars.
Qed.

Lemma digit_val_digit (n : N) : (n < 10)%N -> digit_val (digit n) = Some n.
Proof.
  intros H. unfold digit_val, digit.
  rewrite N_ascii_embedding by lia.
  replace ((48 <=? 48 + n)%N && (48 + n <=? 57)%N) with true.
  - f_equal. lia.
  - symmetry. apply andb_true_iff. split; apply N.leb_le; lia.
Qed.

Lemma mod10_lt (n : N) : (n mod 10 < 10)%N.
Proof. apply N.mod_upper_bound. lia. Qed.

(** The facts about one decimal digit of [n] that linear arithmetic needs. *)
Lemma div_mod_10 (n : N) :
  (n = 10 * (n / 10) + n mod 10 /\ n mod 10 < 10)%N.
Proof.
  split; [apply N.div_mod; lia | apply N.mod_upper_bound; lia].
Qed.

Lemma div_pow10 (n : N) :
  (n / 100 = n / 10 / 10 /\ n / 1000 = n / 10 / 10 / 10 /\
   n / 10000 = n / 10 / 10 / 10 / 10 /\ n / 100000 = n / 10 / 10 / 10 / 10 / 10)%N.
Proof.
  rewrite !N.Div0.div_div. simpl. auto.
Qed.

Ltac digit_arith n :=
  destruct (div_pow10 n) as (E2 & E3 & E4 & E5);
  rewrite ?E2, ?E3, ?E4, ?E5;
  pose proof (div_mod_10 n);
  pose proof (div_mod_10 (n / 10));
  pose proof (div_mod_10 (n / 10 / 10));
  pose proof (div_mod_10 (n / 10 / 10 / 10));
  pose proof (div_mod_10 (n / 10 / 10 / 10 / 10));
  pose proof (div_mod_10 (n / 10 / 10 / 10 / 10 / 10));
  lia.

Lemma fmt2_read (n : N) : (n < 100)%N -> digits_N 0%N (fmt2 n) = Some n.
Proof.
  intros H. unfold fmt2. simpl.
  rewrite !digit_val_digit by apply mod10_lt.
  f_equal. digit_arith n.
Qed.

Lemma fmt4_read (n : N) : (n < 10000)%N -> digits_N 0%N (fmt4 n) = Some n.
Proof.
  intros H. unfold fmt4. simpl.
  rewrite !digit_val_digit by apply mod10_lt.
  f_equal. digit_arith n.
Qed.

Lemma fmt6_read (n : N) : (n < 1000000)%N -> digits_N 0%N (fmt6 n) = Some n.
Proof.
  intros H. unfold fmt6. simpl.
  rewrite !digit_val_digit by apply mod10_lt.
  f_equal. digit_arith n.
Qed.

Lemma days_in_month_le (y m : N) : (days_in_month y m <= 31)%N.
Proof.
  unfold days_in_month. destruct m as [|p]; [lia|].
  do 4 (try destruct p as [p|p|]); destruct (is_leap y); lia.
Qed.

(** Parsing what isoformat() printed gives the date back. *)
Lemma date_fromisoformat_isoformat (d : date) :
  valid_date d = true -> date_fromisoformat (date_isoformat d) = Ok d.
Proof.
  intros V. destruct d as [y m dd].
  pose proof V as V'. unfold valid_date in V'. simpl in V'.
  repeat (apply andb_true_iff in V'; destruct V' as [V' ?]).
  repeat match goal with H : (_ <=? _)%N = true |- _ => apply N.leb_le in H end.
  pose proof (days_in_month_le y m).
  unfold date_fromisoformat, date_isoformat. rewrite chars_text. simpl year; simpl month; simpl day.
  pose proof (fmt4_read y ltac:(lia)) as E4.
  pose proof (fmt2_read m ltac:(lia)) as Em.
  pose proof (fmt2_read dd ltac:(lia)) as Ed.
  unfold fmt4 in *. unfold fmt2 in *. cbn [app].
  rewrite E4, Em, Ed. rewrite V. reflexivity.
Qed.

Lemma time_fromisoformat_isoformat (t : time) :
  valid_time t = true -> time_fromisoformat (time_isoformat t) = Ok t.
Proof.
  intros V. destruct t as [h m s us].
  pose proof V as V'. unfold valid_time in V'. simpl in V'.
  repeat (apply andb_true_iff in V'; destruct V' as [V' ?]).
  repeat match goal with H : (_ <? _)%N = true |- _ => apply N.ltb_lt in H end.
  unfold time_fromisoformat, time_isoformat. rewrite chars_text.
  simpl hour; simpl minute; simpl second; simpl microsecond.
  pose proof (fmt2_read h ltac:(lia)) as Eh.
  pose proof (fmt2_read m ltac:(lia)) as Em.
  pose proof (fmt2_read s ltac:(lia)) as Es.
  pose proof (fmt6_read us ltac:(lia)) as Eu.
  destruct (us =? 0)%N eqn:Z0.
  - apply N.eqb_eq in Z0. subst us.
    unfold fmt2 in *. cbn [app]. rewrite Eh, Em, Es.
    simpl. rewrite V. reflexivity.
  - unfold fmt2 in *. unfold fmt6 in *. cbn [app]. rewrite Eh, Em, Es, Eu.
    simpl. rewrite V. reflexivity.
Qed.

(* ===================================================================== *)
(** ** Round trip of the value conversions *)
(* ===================================================================== *)

Lemma date_eqb_refl (d : date) : date_eqb d d = true.
Proof. unfold date_eqb. now rewrite !N.eqb_refl. Qed.

Lemma time_eqb_refl (t : time) : time_eqb t t = true.
Proof. unfold time_eqb. now rewrite !N.eqb_refl. Qed.

Lemma SFeqb_refl (f : float) : is_nan f = false -> SFeqb f f = true.
Proof.
  unfold SFeqb, SFcompare. destruct f as [s|s| |s m e]; try discriminate; intros _.
  - reflexivity.
  - now destruct s.
  - rewrite Z.compare_refl.
    change (PosDef.Pos.compare_cont Eq m m) with (Pos.compare m m).
    rewrite Pos.compare_refl. now destruct s.
Qed.

(** C1, as the code has it.  For every descriptor, Float included, and
    every valid domain value, except an int other than 0 and 1 given to
    Boolean, the float NaN given to Float and the Null marker given to
    Null, converting to the persisted form and back gives a value equal
    (==) to the original. *)
Theorem round_trip_of_valid_values (T : SQL_Type) (v : PyVal) :
  valid_domain_value T v = true ->
  returns_equal T v = true ->
  round_trips T v.
Proof.
  unfold round_trips, valid_domain_value, returns_equal, convert_to_sql,
    convert_to_python, to_sql, to_python.
  intros Hv Hr.
  destruct (kind T) eqn:K; destruct v as [| |b|z|s|d|t|f]; try discriminate; simpl.
  - (* String *)
    exists (VStr (quoted s)), (VStr s). repeat split.
    + unfold convert_to_python_string. now rewrite slice_quoted.
    + simpl. apply String.eqb_refl.
  - (* Integer given a bool *)
    exists (VInt (if b then 1 else 0)), (VInt (if b then 1 else 0)).
    repeat split. now destruct b.
  - (* Integer given an int *)
    exists (VInt z), (VInt z). repeat split. apply Z.eqb_refl.
  - (* Float given a float that is not NaN *)
    exists (VFloat f), (VFloat f). repeat split.
    apply andb_true_iff in Hr as [_ Hn]. apply SFeqb_refl.
    now destruct (is_nan f).
  - (* Boolean given a bool *)
    exists (VInt (if b then 1 else 0)), (VBool b). repeat split; now destruct b.
  - (* Boolean given 0 or 1 *)
    apply orb_true_iff in Hr. destruct Hr as [E|E]; apply Z.eqb_eq in E; subst z;
      [exists (VInt 0), (VBool false) | exists (VInt 1), (VBool true)]; repeat split.
  - (* Date *)
    exists (VStr (quoted (date_isoformat d))), (VDate d). repeat split.
    + unfold to_date. rewrite slice_quoted. simpl.
      now rewrite date_fromisoformat_isoformat.
    + apply date_eqb_refl.
  - (* Time *)
    exists (VStr (quoted (time_isoformat t))), (VTime t). repeat split.
    + unfold to_time. rewrite slice_quoted. simpl.
      now rewrite time_fromisoformat_isoformat.
    + apply time_eqb_refl.
Qed.

Lemma round_trip_of_valid_values_witness :
  round_trips (Date 1 false true) (VDate (mkdate 2024 2 29)).
Proof.
  apply round_trip_of_valid_values; reflexivity.
Defined.

(** What comes back for an int given to Boolean: the truth value of the
    int. *)
Lemma boolean_round_trip_of_int (id : positive) (primary_key nullable : bool) (z : Z) :
  exists persisted,
    convert_to_sql (Boolean id primary_key nullable) (VInt z) = Ok persisted /\
    convert_to_python (Boolean id primary_key nullable) persisted
    = Ok (VBool (negb (z =? 0)%Z)).
Proof.
  unfold convert_to_sql, convert_to_python, to_sql, to_python. simpl.
  destruct (z =? 0)%Z eqn:E.
  - apply Z.eqb_eq in E. subst. now exists (VInt 0).
  - now exists (VInt 1).
Qed.

(** C1 as stated fails.  Boolean accepts the int 5 (its to_sql is annotated
    Union[bool, int]) and persists it as 1, which comes back as True, and
    True == 5 is false; the Null descriptor persists its marker as the text
    NULL and gives back None, which is not the marker; Float gives NaN back
    as NaN, which is not equal to itself. *)
Lemma round_trip_fails_for_boolean_int_null_and_nan :
  (valid_domain_value (Boolean 1 false true) (VInt 5) = true /\
   convert_to_sql (Boolean 1 false true) (VInt 5) = Ok (VInt 1) /\
   convert_to_python (Boolean 1 false true) (VInt 1) = Ok (VBool true) /\
   py_eq (VBool true) (VInt 5) = false /\
   ~ round_trips (Boolean 1 false true) (VInt 5))
  /\
  (valid_domain_value (Null 1) VNull = true /\
   convert_to_sql (Null 1) VNull = Ok (VStr "NULL") /\
   convert_to_python (Null 1) (VStr "NULL") = Ok VNone /\
   py_eq VNone VNull = false /\
   ~ round_trips (Null 1) VNull)
  /\
  (valid_domain_value (Float 1 false true) (VFloat S754_nan) = true /\
   convert_to_sql (Float 1 false true) (VFloat S754_nan) = Ok (VFloat S754_nan) /\
   convert_to_python (Float 1 false true) (VFloat S754_nan) = Ok (VFloat S754_nan) /\
   py_eq (VFloat S754_nan) (VFloat S754_nan) = false /\
   ~ round_trips (Float 1 false true) (VFloat S754_nan)).
Proof.
  split; [|split].
  - repeat split; try reflexivity.
    intros (p & d & Hp & Hd & He). vm_compute in Hp. injection Hp as <-.
    vm_compute in Hd. injection Hd as <-. discriminate He.
  - repeat split; try reflexivity.
    intros (p & d & Hp & Hd & He). vm_compute in Hp. injection Hp as <-.
    vm_compute in Hd. injection Hd as <-. discriminate He.
  - repeat split; try reflexivity.
    intros (p & d & Hp & Hd & He). vm_compute in Hp. injection Hp as <-.
    vm_compute in Hd. injection Hd as <-. discriminate He.
Qed.

(* ===================================================================== *)
(** ** The condition algebra *)
(* ===================================================================== *)

Section Heap.

Implicit Types (h : gmap loc object) (c p : loc) (l : list PyVal) (s : string).

Lemma get_condition_inv h c s :
  get_condition h c = Some s -> exists p, h !! c = Some (OCond s p).
Proof.
  unfold get_condition. destruct (h !! c) as [[|s' p]|]; try discriminate.
  intros [= ->]. now exists p.
Qed.

Lemma get_pool_inv h c l :
  get_pool h c = Some l ->
  exists s p, h !! c = Some (OCond s p) /\ h !! p = Some (OList l).
Proof.
  unfold get_pool. destruct (h !! c) as [[|s p]|]; try discriminate.
  destruct (h !! p) as [[l'|]|] eqn:E; try discriminate.
  intros [= ->]. now exists s, p.
Qed.

Lemma get_pool_intro h c s p l :
  h !! c = Some (OCond s p) -> h !! p = Some (OList l) -> get_pool h c = Some l.
Proof. unfold get_pool. now intros -> ->. Qed.

Lemma get_condition_intro h c s p :
  h !! c = Some (OCond s p) -> get_condition h c = Some s.
Proof. unfold get_condition. now intros ->. Qed.

(** What combine does to the heap: two cells are overwritten, the list of
    the left operand and the left operand itself. *)
Lemma combine_cells connective h c1 c2 s1 s2 p1 p2 l1 l2 :
  h !! c1 = Some (OCond s1 p1) -> h !! p1 = Some (OList l1) ->
  h !! c2 = Some (OCond s2 p2) -> h !! p2 = Some (OList l2) ->
  combine connective c1 c2 h =
    Ok (<[c1 := OCond (s1 +:+ connective +:+ s2) p1]> (<[p1 := OList (l1 ++ l2)]> h), c1).
Proof.
  intros H1 H2 H3 H4. unfold combine. now rewrite H1, H3, H2, H4.
Qed.

Lemma combine_left connective h c1 c2 s1 s2 l1 l2 :
  get_condition h c1 = Some s1 -> get_pool h c1 = Some l1 ->
  get_condition h c2 = Some s2 -> get_pool h c2 = Some l2 ->
  exists h',
    combine connective c1 c2 h = Ok (h', c1) /\
    get_condition h' c1 = Some (s1 +:+ connective +:+ s2) /\
    get_pool h' c1 = Some (l1 ++ l2) /\
    (c2 <> c1 -> get_pool_ref h c2 <> get_pool_ref h c1 ->
     get_condition h' c2 = Some s2 /\ get_pool h' c2 = Some l2).
Proof.
  intros Hs1 Hl1 Hs2 Hl2.
  destruct (get_pool_inv _ _ _ Hl1) as (s1' & p1 & Hc1 & Hp1).
  destruct (get_pool_inv _ _ _ Hl2) as (s2' & p2 & Hc2 & Hp2).
  unfold get_condition in Hs1, Hs2. rewrite Hc1 in Hs1. rewrite Hc2 in Hs2.
  injection Hs1 as ->. injection Hs2 as ->.
  assert (p1 <> c1) as Hne1 by congruence.
  assert (p1 <> c2) as Hne2 by congruence.
  assert (p2 <> c1) as Hne3 by congruence.
  eexists. split; [apply (combine_cells connective h c1 c2 s1 s2 p1 p2 l1 l2); assumption|].
  split; [|split].
  - eapply get_condition_intro. apply lookup_insert_eq.
  - eapply get_pool_intro; [apply lookup_insert_eq|].
    rewrite lookup_insert_ne by congruence. apply lookup_insert_eq.
  - intros Hc Hp. unfold get_pool_ref in Hp. rewrite Hc1, Hc2 in Hp.
    assert (p2 <> p1) by congruence.
    split.
    + eapply get_condition_intro.
      rewrite lookup_insert_ne by congruence. rewrite lookup_insert_ne by congruence. exact Hc2.
    + eapply get_pool_intro.
      * rewrite lookup_insert_ne by congruence. rewrite lookup_insert_ne by congruence. exact Hc2.
      * rewrite lookup_insert_ne by congruence. rewrite lookup_insert_ne by congruence. exact Hp2.
Qed.

Lemma alloc_fresh h o : h !! (alloc h o).2 = None /\ (alloc h o).1 = <[(alloc h o).2 := o]> h.
Proof.
  unfold alloc. simpl. split; [|reflexivity].
  apply not_elem_of_dom. apply is_fresh.
Qed.

(** A new condition and its pool are two new cells. *)
Lemma WhereConditionWrapper_new s l h :
  let '(h', c) := WhereConditionWrapper s l h in
  h !! c = None /\ get_condition h' c = Some s /\ get_pool h' c = Some l /\
  (forall c', is_Some (h !! c') -> h' !! c' = h !! c').
Proof.
  unfold WhereConditionWrapper.
  destruct (alloc h (OList l)) as [h1 lp] eqn:E1.
  destruct (alloc h1 (OCond s lp)) as [h2 lc] eqn:E2.
  pose proof (alloc_fresh h (OList l)) as [F1 U1]. rewrite E1 in F1, U1. simpl in F1, U1.
  pose proof (alloc_fresh h1 (OCond s lp)) as [F2 U2]. rewrite E2 in F2, U2. simpl in F2, U2.
  subst h1 h2.
  assert (lc <> lp) as Hne.
  { intros ->. rewrite lookup_insert_eq in F2. discriminate. }
  rewrite lookup_insert_ne in F2 by congruence.
  split; [exact F2|]. split; [|split].
  - eapply get_condition_intro. apply lookup_insert_eq.
  - eapply get_pool_intro; [apply lookup_insert_eq|].
    rewrite lookup_insert_ne by congruence. apply lookup_insert_eq.
  - intros c' [o Ho].
    rewrite lookup_insert_ne by congruence. rewrite lookup_insert_ne by congruence.
    reflexivity.
Qed.

End Heap.

(** C2.  The parameters of A AND B are the parameters of A followed by
    those of B, so their number is the sum of the two; the same holds for
    A OR B.  The operands are read before the combination. *)
Theorem and_or_parameters (h : gmap loc object) (A B : loc) (pa pb : list PyVal) :
  get_pool h A = Some pa ->
  get_pool h B = Some pb ->
  (exists h' r, cond_and A B h = Ok (h', r) /\
     get_pool h' r = Some (pa ++ pb) /\
     (forall params, get_pool h' r = Some params -> length params = length pa + length pb))
  /\
  (exists h' r, cond_or A B h = Ok (h', r) /\
     get_pool h' r = Some (pa ++ pb) /\
     (forall params, get_pool h' r = Some params -> length params = length pa + length pb)).
Proof.
  intros HA HB.
  destruct (get_pool_inv _ _ _ HA) as (sa & la & HcA & _).
  destruct (get_pool_inv _ _ _ HB) as (sb & lb & HcB & _).
  pose proof (get_condition_intro _ _ _ _ HcA) as HsA.
  pose proof (get_condition_intro _ _ _ _ HcB) as HsB.
  split.
  - destruct (combine_left " AND " h A B sa sb pa pb HsA HA HsB HB) as (h' & E & _ & P & _).
    exists h', A. repeat split; try assumption.
    intros params Hp. rewrite P in Hp. injection Hp as <-. apply length_app.
  - destruct (combine_left " OR " h A B sa sb pa pb HsA HA HsB HB) as (h' & E & _ & P & _).
    exists h', A. repeat split; try assumption.
    intros params Hp. rewrite P in Hp. injection Hp as <-. apply length_app.
Qed.

Lemma and_or_parameters_witness :
  (exists h' r, cond_and 2%positive 4%positive two_conditions = Ok (h', r) /\
     get_pool h' r = Some ([VInt 1] ++ [VInt 2]) /\
     (forall params, get_pool h' r = Some params -> length params = 1 + 1))
  /\
  (exists h' r, cond_or 2%positive 4%positive two_conditions = Ok (h', r) /\
     get_pool h' r = Some ([VInt 1] ++ [VInt 2]) /\
     (forall params, get_pool h' r = Some params -> length params = 1 + 1)).
Proof.
  apply (and_or_parameters two_conditions 2%positive 4%positive [VInt 1] [VInt 2]);
    reflexivity.
Defined.

(** C3 as stated fails: combining x = 1 with y = 2 returns the left operand
    itself, not a new object, and leaves it with the combined text and
    both parameters. *)
Lemma and_changes_its_left_operand :
  get_condition two_conditions 2%positive = Some "x = ?" /\
  get_pool two_conditions 2%positive = Some [VInt 1] /\
  exists h',
    cond_and 2%positive 4%positive two_conditions = Ok (h', 2%positive) /\
    is_Some (two_conditions !! 2%positive) /\
    get_condition h' 2%positive = Some "x = ? AND y = ?" /\
    get_pool h' 2%positive = Some [VInt 1; VInt 2] /\
    get_condition h' 2%positive <> get_condition two_conditions 2%positive /\
    get_pool h' 2%positive <> get_pool two_conditions 2%positive.
Proof.
  split; [reflexivity|]. split; [reflexivity|].
  eexists. split; [reflexivity|].
  split; [now eexists|].
  repeat split; try reflexivity; vm_compute; discriminate.
Qed.

(** C3, as the code has it.  A AND B (and A OR B) returns the left operand
    A itself, updated in place: its text becomes the text of A, the
    connective and the text of B, its parameters those of A followed by
    those of B.  The right operand is unchanged when it is another object
    than A with another parameter list. *)
Theorem and_or_update_left_operand_in_place
    (h : gmap loc object) (A B : loc) (ta tb : string) (pa pb : list PyVal) :
  get_condition h A = Some ta -> get_pool h A = Some pa ->
  get_condition h B = Some tb -> get_pool h B = Some pb ->
  (exists h',
     cond_and A B h = Ok (h', A) /\
     get_condition h' A = Some (ta +:+ " AND " +:+ tb) /\
     get_pool h' A = Some (pa ++ pb) /\
     (B <> A -> get_pool_ref h B <> get_pool_ref h A ->
      get_condition h' B = Some tb /\ get_pool h' B = Some pb))
  /\
  (exists h',
     cond_or A B h = Ok (h', A) /\
     get_condition h' A = Some (ta +:+ " OR " +:+ tb) /\
     get_pool h' A = Some (pa ++ pb) /\
     (B <> A -> get_pool_ref h B <> get_pool_ref h A ->
      get_condition h' B = Some tb /\ get_pool h' B = Some pb)).
Proof.
  intros H1 H2 H3 H4. split.
  - exact (combine_left " AND " h A B ta tb pa pb H1 H2 H3 H4).
  - exact (combine_left " OR " h A B ta tb pa pb H1 H2 H3 H4).
Qed.

Lemma and_or_update_left_operand_in_place_witness :
  (exists h',
     cond_and 2%positive 4%positive two_conditions = Ok (h', 2%positive) /\
     get_condition h' 2%positive = Some ("x = ?" +:+ " AND " +:+ "y = ?") /\
     get_pool h' 2%positive = Some ([VInt 1] ++ [VInt 2]) /\
     (4%positive <> 2%positive ->
      get_pool_ref two_conditions 4%positive <> get_pool_ref two_conditions 2%positive ->
      get_condition h' 4%positive = Some "y = ?" /\ get_pool h' 4%positive = Some [VInt 2]))
  /\
  (exists h',
     cond_or 2%positive 4%positive two_conditions = Ok (h', 2%positive) /\
     get_condition h' 2%positive = Some ("x = ?" +:+ " OR " +:+ "y = ?") /\
     get_pool h' 2%positive = Some ([VInt 1] ++ [VInt 2]) /\
     (4%positive <> 2%positive ->
      get_pool_ref two_conditions 4%positive <> get_pool_ref two_conditions 2%positive ->
      get_condition h' 4%positive = Some "y = ?" /\ get_pool h' 4%positive = Some [VInt 2])).
Proof.
  apply (and_or_update_left_operand_in_place two_conditions 2%positive 4%positive
           "x = ?" "y = ?" [VInt 1] [VInt 2]); reflexivity.
Defined.

(** *** Leaf comparisons *)

Lemma placeholders_append (s t : string) :
  placeholders (s +:+ t) = placeholders s + placeholders t.
Proof.
  unfold placeholders. rewrite chars_append, List.filter_app. apply length_app.
Qed.

Lemma placeholders_leaf (column_name operator : string) :
  placeholders column_name = 0 ->
  In operator comparison_operators ->
  placeholders (column_name +:+ " " +:+ operator +:+ " ?") = 1.
Proof.
  intros H0 Hop. rewrite !placeholders_append, H0.
  simpl in Hop.
  repeat (destruct Hop as [<-|Hop]; [reflexivity|]). contradiction.
Qed.

Lemma comparisons_compare operator method :
  In (operator, method) comparisons ->
  In operator comparison_operators /\ method = compare operator.
Proof.
  intros H. simpl in H.
  repeat (destruct H as [[= <- <-]|H]; [split; [simpl; tauto | reflexivity]|]).
  contradiction.
Qed.

Lemma compare_builds
    (operator : string) (self : ColumnWrapper) (other : PyVal) (h : gmap loc object) :
  In operator comparison_operators ->
  placeholders (name self) = 0 ->
  match compare operator self other h with
  | Ok (h', c) =>
      exists parameter,
        get_condition h' c = Some (name self +:+ " " +:+ operator +:+ " ?") /\
        (forall t, get_condition h' c = Some t -> placeholders t = 1) /\
        get_pool h' c = Some [parameter] /\
        h !! c = None /\
        (other = VNone -> parameter = VStr "NULL") /\
        (other <> VNone -> convert_to_sql (type self) other = Ok parameter)
  | Raise e => other <> VNone /\ convert_to_sql (type self) other = Raise e
  end.
Proof.
  intros Hop Hname. unfold compare.
  destruct (transform_other self other) as [parameter|e] eqn:Et; cbn [bind].
  - pose proof (WhereConditionWrapper_new
                  (name self +:+ " " +:+ operator +:+ " ?") [parameter] h) as W.
    destruct (WhereConditionWrapper _ _ h) as [h' c].
    destruct W as (Hnew & Hs & Hp & _).
    exists parameter.
    split; [exact Hs|]. split; [|split; [exact Hp|split; [exact Hnew|split]]].
    + intros t Ht. rewrite Hs in Ht. injection Ht as <-.
      now apply placeholders_leaf.
    + intros ->. simpl in Et. congruence.
    + intros Hn. destruct other; simpl in Et; congruence.
  - destruct other; simpl in Et; try discriminate; split; congruence.
Qed.

(** C8, as the code has it.  Each of the six comparisons of a column with a
    value gives a new condition whose text is the column name, the
    operator and one placeholder, and whose parameter list holds exactly
    one entry: the value converted by the column's descriptor, or, for the
    domain null None, the text NULL, which is bound like any other
    parameter.  A failed conversion raises and builds no condition. *)
Theorem comparison_builds_one_placeholder
    (operator : string)
    (method : ColumnWrapper -> PyVal -> gmap loc object -> outcome (gmap loc object * loc))
    (self : ColumnWrapper) (other : PyVal) (h : gmap loc object) :
  In (operator, method) comparisons ->
  placeholders (name self) = 0 ->
  match method self other h with
  | Ok (h', c) =>
      exists parameter,
        get_condition h' c = Some (name self +:+ " " +:+ operator +:+ " ?") /\
        (forall t, get_condition h' c = Some t -> placeholders t = 1) /\
        get_pool h' c = Some [parameter] /\
        h !! c = None /\
        (other = VNone -> parameter = VStr "NULL") /\
        (other <> VNone -> convert_to_sql (type self) other = Ok parameter)
  | Raise e => other <> VNone /\ convert_to_sql (type self) other = Raise e
  end.
Proof.
  intros Hin Hname.
  destruct (comparisons_compare _ _ Hin) as [Hop ->].
  now apply compare_builds.
Qed.

Lemma comparison_builds_one_placeholder_witness :
  match column_le (mkColumn "T" "ID" (Integer 1 true true) None) (VInt 3) ∅ with
  | Ok (h', c) =>
      exists parameter,
        get_condition h' c = Some ("ID" +:+ " " +:+ "<=" +:+ " ?") /\
        (forall t, get_condition h' c = Some t -> placeholders t = 1) /\
        get_pool h' c = Some [parameter] /\
        (∅ : gmap loc object) !! c = None /\
        (VInt 3 = VNone -> parameter = VStr "NULL") /\
        (VInt 3 <> VNone -> convert_to_sql (Integer 1 true true) (VInt 3) = Ok parameter)
  | Raise e => VInt 3 <> VNone /\ convert_to_sql (Integer 1 true true) (VInt 3) = Raise e
  end.
Proof.
  apply (comparison_builds_one_placeholder "<=" column_le
           (mkColumn "T" "ID" (Integer 1 true true) None) (VInt 3) ∅).
  - simpl. tauto.
  - reflexivity.
Defined.

(** C8 as stated fails on its last clause: comparing a column with None
    leaves the text ID = ? without any NULL literal and binds the text NULL
    as the one parameter. *)
Lemma comparison_with_None_binds_a_parameter :
  exists h' c,
    column_eq (mkColumn "T" "ID" (Integer 1 true true) None) VNone ∅ = Ok (h', c) /\
    get_condition h' c = Some "ID = ?" /\
    get_pool h' c = Some [VStr "NULL"] /\
    get_pool h' c <> Some [].
Proof.
  eexists _, _. split; [reflexivity|].
  repeat split; try reflexivity. vm_compute. discriminate.
Qed.

(* ===================================================================== *)
(** ** Key validation of a table *)
(* ===================================================================== *)

Lemma validate_foreign_keys_result (raw : list (string * decl)) :
  validate_foreign_keys (find_foreign_keys raw) =
    if existsb foreign_key_to_non_primary (map snd raw) then Raise TableKeysError else Ok tt.
Proof.
  induction raw as [|[n d] raw IH]; [reflexivity|].
  destruct d as [t|c|]; simpl; try exact IH.
  destruct (foreign c); simpl; [exact IH|].
  destruct (is_primary_key (type c)); simpl; [exact IH | reflexivity].
Qed.

Lemma count_primary_keys_closed (raw : list (string * decl)) (n : nat) :
  closed_types raw = true ->
  count_primary_keys (map snd raw) n = Ok (n + primary_keys raw).
Proof.
  unfold closed_types, primary_keys.
  revert n. induction raw as [|[x d] raw IH]; intros n Hc; simpl in *.
  - f_equal. lia.
  - apply andb_true_iff in Hc. destruct Hc as [Hd Hc].
    destruct d as [t|c|]; simpl in *.
    + rewrite IH by assumption. destruct (is_primary_key t); simpl; f_equal; lia.
    + rewrite Hd. simpl. now rewrite IH.
    + discriminate.
Qed.

Lemma validate_columns_closed (raw : list (string * decl)) :
  closed_types raw = true ->
  validate_columns raw =
    if (primary_keys raw =? 0) || (1 <? primary_keys raw)
    then Raise TableKeysError else Ok tt.
Proof.
  intros Hc. unfold validate_columns.
  rewrite count_primary_keys_closed by assumption. simpl.
  destruct (primary_keys raw =? 0); [reflexivity|].
  now destruct (1 <? primary_keys raw).
Qed.

Lemma key_validation_closed (raw : list (string * decl)) :
  closed_types raw = true ->
  key_validation raw = if keys_rejected raw then Raise TableKeysError else Ok tt.
Proof.
  intros Hc. unfold key_validation, keys_rejected.
  rewrite validate_foreign_keys_result, validate_columns_closed by assumption.
  destruct (existsb foreign_key_to_non_primary (map snd raw)); simpl.
  - now rewrite orb_true_r.
  - now rewrite orb_false_r.
Qed.

Lemma count_primary_keys_open (raw : list (string * decl)) (n : nat) :
  closed_types raw = false ->
  count_primary_keys (map snd raw) n = Raise InvalidColumnType.
Proof.
  unfold closed_types. revert n.
  induction raw as [|[x d] raw IH]; intros n Hc; [discriminate|].
  cbn [map snd forallb count_primary_keys] in *.
  destruct d as [t|c|]; cbn [is_SQL_Type negb andb orb] in *.
  - now apply IH.
  - destruct (is_ColumnWrapper (DColumn c)); cbn [negb] in *; [now apply IH|reflexivity].
  - reflexivity.
Qed.

Lemma validate_columns_open (raw : list (string * decl)) :
  closed_types raw = false -> validate_columns raw = Raise InvalidColumnType.
Proof.
  intros Hc. unfold validate_columns. now rewrite count_primary_keys_open.
Qed.

Lemma validate_path_accepts (location : PyVal) :
  (exists p, validate_path location = Ok p)
  <-> exists p, location = VStr p /\ ends_with p ".db" = true.
Proof.
  unfold validate_path. split.
  - intros [p H]. destruct location; try discriminate.
    destruct (ends_with s ".db") eqn:E; [|discriminate]. eauto.
  - intros (p & -> & E). rewrite E. eauto.
Qed.

Lemma validate_path_raises (location : PyVal) (e : exn) :
  validate_path location = Raise e -> e = InvalidPath.
Proof.
  unfold validate_path. destruct location; try (now intros [= <-]).
  destruct (negb (ends_with s ".db")); [now intros [= <-]|discriminate].
Qed.

(** Building the columns can only fail on a declaration that validation
    has already refused. *)
Lemma build_columns_raises (table_name : string) (raw : list (string * decl)) (w : World) :
  match build_columns table_name raw w with
  | (w', Ok _) => calls w' = calls w
  | (w', Raise e) => e = AttributeError /\ calls w' = calls w
  end.
Proof.
  revert w. induction raw as [|[n d] raw IH]; intros w; simpl; [reflexivity|].
  unfold bindM.
  destruct d as [t|c|]; simpl.
  - specialize (IH w). destruct (build_columns table_name raw w) as [w1 [l|e]]; simpl; exact IH.
  - destruct (foreign c); simpl; [auto|].
    match goal with |- context [build_columns table_name raw ?w1] => specialize (IH w1) end.
    destruct (build_columns table_name raw _) as [w1 [l|e]]; simpl in *; exact IH.
  - auto.
Qed.

Section TableKeys.

Variable engine : list call -> call -> reply.

(** What the engine can make a connection or a cursor raise. *)
Lemma connect_raises (w : World) (e : exn) :
  snd (connect engine w) = Raise e ->
  e = OperationalError \/ e = ProgrammingError \/ e = IntegrityError.
Proof. unfold connect. destruct (engine _ _); cbn [snd]; intros [= <-]; auto. Qed.

Lemma connect_calls (w : World) :
  calls (fst (connect engine w)) = calls w ++ [("PRAGMA foreign_keys = ON", [])].
Proof. unfold connect. now destruct (engine _ _). Qed.

Lemma cursor_execute_raises (sql : string) (parameters : list PyVal) (w : World) (e : exn) :
  snd (cursor_execute engine sql parameters w) = Raise e ->
  e = OperationalError \/ e = ProgrammingError \/ e = IntegrityError.
Proof. unfold cursor_execute. destruct (engine _ _); cbn [snd]; intros [= <-]; auto. Qed.

(** Once the columns are validated, creating the table can only fail
    with an error of the engine, or on a declaration that validation
    refuses. *)
Lemma create_table_errors (table_name : string) (raw : list (string * decl))
    (fkeys : list fkey) (w : World) (e : exn) :
  snd (create_table engine table_name raw fkeys w) = Raise e ->
  e = AttributeError \/ e = OperationalError \/ e = ProgrammingError \/ e = IntegrityError.
Proof.
  unfold create_table, bindM.
  pose proof (build_columns_raises table_name raw w) as B.
  destruct (build_columns table_name raw w) as [w1 [built|e']]; cbn [snd].
  - pose proof (connect_raises w1) as C.
    destruct (connect engine w1) as [w2 [[]|e2]]; cbn [snd] in *.
    + match goal with |- context [cursor_execute engine ?q ?a w2] =>
        pose proof (cursor_execute_raises q a w2) as X;
        destruct (cursor_execute engine q a w2) as [w3 [[]|e3]]
      end; cbn [snd] in *; [discriminate|].
      intros [= <-]. right. now apply X.
    + intros [= <-]. right. now apply C.
  - destruct B as [-> _]. intros [= <-]. now left.
Qed.

Lemma create_table_raises (table_name : string) (raw : list (string * decl))
    (fkeys : list fkey) (w : World) :
  snd (create_table engine table_name raw fkeys w) <> Raise TableKeysError.
Proof.
  intros H. apply create_table_errors in H as [H|[H|[H|H]]]; discriminate.
Qed.

(** Table.__new__ once the path is accepted and the columns are
    found. *)
Lemma Table_new_keys (path : PyVal) (p : string) (table_name : string)
    (raw : list (string * decl)) (w : World) :
  validate_path path = Ok p ->
  snd (Table_new engine path table_name (Mapping raw) w) = Raise TableKeysError <->
  key_validation raw = Raise TableKeysError.
Proof.
  intros Hp. unfold Table_new, key_validation, bindM, lift. rewrite Hp.
  cbn [get_columns items].
  destruct (validate_foreign_keys (find_foreign_keys raw)) as [[]|e]; cbn [bind snd].
  2: { split; intros H; congruence. }
  destruct (validate_columns raw) as [[]|e]; cbn [bind snd].
  2: { split; intros H; congruence. }
  pose proof (create_table_raises table_name raw (find_foreign_keys raw) w) as C.
  destruct (create_table engine table_name raw (find_foreign_keys raw) w) as [w1 [cols|e]];
    unfold ret; cbn [snd] in *; split; intros H; congruence.
Qed.

End TableKeys.

(** The two key checks: a foreign key to a column that is no primary key
    is reported first; the number of primary keys is looked at only when
    every declared type is in the closed set. *)
Lemma key_validation_result (raw : list (string * decl)) :
  key_validation raw = Raise TableKeysError <->
  keys_rejected raw = true /\
  (existsb foreign_key_to_non_primary (map snd raw) = true \/ closed_types raw = true).
Proof.
  unfold key_validation, keys_rejected. rewrite validate_foreign_keys_result.
  destruct (existsb foreign_key_to_non_primary (map snd raw)); cbn [bind].
  - rewrite orb_true_r. split; auto.
  - rewrite orb_false_r. destruct (closed_types raw) eqn:Hc.
    + rewrite validate_columns_closed by assumption.
      destruct ((primary_keys raw =? 0) || (1 <? primary_keys raw)).
      * split; auto.
      * split; [discriminate|]. intros [H _]. discriminate.
    + rewrite validate_columns_open by assumption.
      split; [discriminate|]. intros [_ [H|H]]; discriminate.
Qed.

(** C4, as the code has it.  Constructing a table raises TableKeysError
    exactly when the storage path is accepted, the columns are found (the
    second value of the class's __dict__ is a mapping, as the annotations
    of the class body are), the keys are rejected (no primary key, more
    than one, or a foreign key whose target is not a primary key) and no
    declared type outside the closed set is met before: either a foreign
    key to a column that is no primary key is found, and it is reported
    first, or every declared type is a descriptor or a column of another
    table.  A schema whose keys are not rejected never raises
    TableKeysError, and passes both key checks when its declared types are
    in the closed set. *)
Theorem table_keys_error_exactly_when_keys_rejected
    (engine : list call -> call -> reply) (location : PyVal) (declared_name : string)
    (w : World) :
  (forall second,
     snd (Table_new engine location declared_name second w) = Raise TableKeysError
     <-> (exists p, location = VStr p /\ ends_with p ".db" = true) /\
         exists raw,
           second = Mapping raw /\
           keys_rejected raw = true /\
           (existsb foreign_key_to_non_primary (map snd raw) = true
            \/ closed_types raw = true))
  /\
  (forall raw,
     keys_rejected raw = false ->
     snd (Table_new engine location declared_name (Mapping raw) w) <> Raise TableKeysError /\
     (closed_types raw = true ->
      validate_foreign_keys (find_foreign_keys raw) = Ok tt /\ validate_columns raw = Ok tt)).
Proof.
  assert (forall second,
            snd (Table_new engine location declared_name second w) = Raise TableKeysError
            <-> (exists p, location = VStr p /\ ends_with p ".db" = true) /\
                exists raw,
                  second = Mapping raw /\
                  keys_rejected raw = true /\
                  (existsb foreign_key_to_non_primary (map snd raw) = true
                   \/ closed_types raw = true)) as Hiff.
  { intros second. pose proof (validate_path_accepts location) as Ha.
    destruct (validate_path location) as [p|e] eqn:Hp.
    - destruct second as [raw|].
      + rewrite (Table_new_keys engine location p declared_name raw w Hp).
        rewrite key_validation_result. split.
        * intros H. split; [apply Ha; eauto|]. exists raw. split; [reflexivity|exact H].
        * intros (_ & raw' & [= <-] & H). exact H.
      + unfold Table_new, bindM, lift. rewrite Hp. cbn [get_columns items snd].
        split; [discriminate|]. intros (_ & raw & H & _). discriminate.
    - unfold Table_new, bindM, lift. rewrite Hp. cbn [snd].
      apply validate_path_raises in Hp as ->. split; [discriminate|].
      intros (Hex & _). apply Ha in Hex as [p Hp]. discriminate. }
  split; [exact Hiff|].
  intros raw Hk. split.
  - intros H. apply Hiff in H as (_ & raw' & [= <-] & H & _). congruence.
  - intros Hc. unfold keys_rejected in Hk.
    apply orb_false_iff in Hk. destruct Hk as [Hk Hf].
    rewrite validate_foreign_keys_result, Hf.
    rewrite validate_columns_closed by assumption. now rewrite Hk.
Qed.

Lemma table_keys_error_exactly_when_keys_rejected_witness :
  keys_rejected Subjects_columns = false /\
  closed_types Subjects_columns = true /\
  snd (Table_new no_rows (VStr "database.db") "Subjects" (Mapping Subjects_columns) empty_world)
    <> Raise TableKeysError /\
  validate_foreign_keys (find_foreign_keys Subjects_columns) = Ok tt /\
  validate_columns Subjects_columns = Ok tt.
Proof.
  destruct (table_keys_error_exactly_when_keys_rejected no_rows (VStr "database.db")
              "Subjects" empty_world) as [_ H].
  destruct (H Subjects_columns eq_refl) as [Hn Hc].
  destruct (Hc eq_refl) as [Hf Hv].
  repeat split; assumption.
Defined.

(** C4 as stated fails: the key rules are not looked at, or not reported,
    in three cases.  A table whose only column is annotated with an object
    that is no descriptor declares no primary key, yet its construction
    raises InvalidColumnType, raised inside the counting loop before the
    number of primary keys is looked at; a table without a primary key
    whose path is not accepted raises InvalidPath; and a class without
    annotations, which declares no primary key either, ends in
    AttributeError. *)
Lemma no_primary_key_yet_no_TableKeysError :
  (primary_keys [("Name", DOther)] = 0 /\
   keys_rejected [("Name", DOther)] = true /\
   validate_columns [("Name", DOther)] = Raise InvalidColumnType /\
   Table_new no_rows (VStr "database.db") "Subjects" (Mapping [("Name", DOther)]) empty_world
     = (empty_world, Raise InvalidColumnType) /\
   snd (Table_new no_rows (VStr "database.db") "Subjects" (Mapping [("Name", DOther)])
          empty_world)
     <> Raise TableKeysError)
  /\
  (keys_rejected [("Name", DType (String_ 2 20 false true))] = true /\
   Table_new no_rows (VStr "database.sqlite") "Subjects"
     (Mapping [("Name", DType (String_ 2 20 false true))]) empty_world
     = (empty_world, Raise InvalidPath))
  /\
  Table_new no_rows (VStr "database.db") "Subjects" NoMapping empty_world
    = (empty_world, Raise AttributeError).
Proof.
  repeat split; try reflexivity. vm_compute. discriminate.
Qed.

(* ===================================================================== *)
(** ** Statements *)
(* ===================================================================== *)

Example Students_is_constructed :
  snd (Table_new no_rows (VStr "database.db") "Students" (Mapping Students_columns)
         empty_world)
  = Ok Students.
Proof. reflexivity. Qed.

Section Statements.

Variable engine : list call -> call -> reply.

Lemma cursor_execute_calls (sql : string) (parameters : list PyVal) (w : World) :
  calls (fst (cursor_execute engine sql parameters w)) = calls w ++ [(sql, parameters)].
Proof. unfold cursor_execute. now destruct (engine _ _). Qed.

Lemma execute_calls (self : SQLStatement) (w : World) :
  calls (fst (execute engine self w))
  = calls w ++ [(statement self, parameterised_query_pool self)].
Proof.
  unfold execute.
  pose proof (cursor_execute_calls (statement self) (parameterised_query_pool self) w) as E.
  now destruct (cursor_execute engine _ _ w) as [w1 [u|e]].
Qed.

Lemma execute_raises (self : SQLStatement) (w : World) (e : exn) :
  snd (execute engine self w) = Raise e ->
  e = InvalidQuery \/ e = ConnectionException \/ e = IllegalArgumentError.
Proof.
  unfold execute, cursor_execute.
  destruct (engine _ _); simpl; intros [= <-]; auto.
Qed.

Lemma convert_record_no_selector (record : list PyVal) : convert_record [] record = Ok record.
Proof. now destruct record. Qed.

Lemma to_python_types_no_selector (data : list (list PyVal)) : to_python_types [] data = Ok data.
Proof.
  unfold to_python_types. induction data as [|r data IH]; [reflexivity|].
  cbn [mapM]. rewrite convert_record_no_selector. cbn [bind]. now rewrite IH.
Qed.

(** WHERE with a condition whose pool is a list. *)
Lemma Where_condition (self : SQLStatement) (h : gmap loc object) (c : loc)
    (condition_text : string) (pool : list PyVal) :
  get_condition h c = Some condition_text ->
  get_pool h c = Some pool ->
  Where engine self h (Some c)
  = let self :=
      mkStatement (stmt_table self)
                  (parameterised_query_pool self ++ pool)
                  (statement self +:+ " WHERE " +:+ condition_text)
                  (selector self) (is_deleting self) (is_updating self) in
    let! _ := if is_deleting self || is_updating self then execute engine self else ret tt in
    ret self.
Proof.
  intros Hs Hp. unfold Where, get_condition, get_pool in *.
  destruct (h !! c) as [[|s p]|]; try discriminate.
  destruct (h !! p) as [[l|]|]; try discriminate.
  injection Hs as ->. injection Hp as ->. reflexivity.
Qed.

(** The engine call a WHERE makes on a deleting or updating statement. *)
Lemma Where_calls (self : SQLStatement) (h : gmap loc object) (c : loc)
    (condition_text : string) (pool : list PyVal) (w : World) :
  is_deleting self || is_updating self = true ->
  get_condition h c = Some condition_text ->
  get_pool h c = Some pool ->
  calls (fst (Where engine self h (Some c) w))
  = calls w ++ [(statement self +:+ " WHERE " +:+ condition_text,
                 parameterised_query_pool self ++ pool)].
Proof.
  intros Hf Hs Hp. rewrite (Where_condition self h c condition_text pool Hs Hp).
  cbn [is_deleting is_updating]. rewrite Hf. unfold bindM.
  match goal with |- context [execute engine ?s w] =>
    pose proof (execute_calls s w) as E; destruct (execute engine s w) as [w1 [u|e]]
  end; exact E.
Qed.

End Statements.

(** C6 fails on the code.  Select() without columns stores the empty tuple
    as selector, which is not None, so Fetch passes its guard and sends
    SELECT  FROM <table> to the engine; whatever the engine answers, the
    result is not InvalidStatement. *)
Theorem fetch_without_columns_reaches_the_engine
    (engine : list call -> call -> reply) (cls : Table) (w : World) :
  let run := (let! s := Select cls (Columns []) in Fetch engine s) w in
  calls (fst run) = calls w ++ [("SELECT  FROM " +:+ table_name cls, [])] /\
  snd run <> Raise InvalidStatement /\
  (engine (calls w) ("SELECT  FROM " +:+ table_name cls, []) = SqlOperationalError ->
   snd run = Raise InvalidQuery).
Proof.
  unfold Select, is_wildcard, lift, SelectWrapper, Fetch, bindM, ret. cbn [selector].
  match goal with |- context [execute engine ?s w] =>
    pose proof (execute_calls engine s w) as E;
    pose proof (execute_raises engine s w) as R;
    assert (forall r, engine (calls w) (statement s, parameterised_query_pool s) = r ->
                      r = SqlOperationalError -> snd (execute engine s w) = Raise InvalidQuery) as O
      by (intros r Hr ->; unfold execute, cursor_execute; now rewrite Hr);
    destruct (execute engine s w) as [w1 [u|e]]
  end; cbn [statement parameterised_query_pool] in *.
  - unfold fetchall, lift. rewrite to_python_types_no_selector. simpl.
    repeat split; [exact E|discriminate|].
    intros H. specialize (O _ H eq_refl). discriminate.
  - simpl. repeat split; [exact E| |].
    + destruct (R e eq_refl) as [->|[->| ->]]; discriminate.
    + intros H. specialize (O _ H eq_refl). simpl in O. congruence.
Qed.

Lemma mapM_raises {A B : Type} (f : A -> outcome B) (l : list A) (e : exn) :
  mapM f l = Raise e -> exists a, In a l /\ f a = Raise e.
Proof.
  induction l as [|a l IH]; [discriminate|].
  cbn [mapM]. destruct (f a) as [b|e'] eqn:Ea; cbn [bind].
  - destruct (mapM f l) as [bs|e'] eqn:El; cbn [bind]; [discriminate|].
    intros [= ->]. destruct (IH eq_refl) as (x & Hx & Ex). exists x. split; [now right|exact Ex].
  - intros [= ->]. exists a. split; [now left|exact Ea].
Qed.

Lemma column_named_raises (columns : list ColumnWrapper) (column_name : string) (e : exn) :
  column_named columns column_name = Raise e -> e = KeyError.
Proof.
  induction columns as [|c columns IH]; cbn [column_named]; [now intros [= <-]|].
  destruct (column_named columns column_name); [discriminate|].
  destruct (String.eqb (name c) column_name); [discriminate|now intros [= <-]].
Qed.

(** C7 fails on the code.  InsertInto called without a dict never reaches
    its IllegalArgumentError: the guard also asks for kwargs to be None,
    which it never is.  With no keywords either, the call ends in the
    AttributeError of None.keys(); with keywords it ends in the KeyError of
    an unknown column name or the AttributeError of None.update().  The
    engine is not called. *)
Theorem insert_without_data_raises_AttributeError
    (engine : list call -> call -> reply) (cls : Table) (w : World) :
  InsertInto engine cls None [] w = (w, Raise AttributeError) /\
  forall kwargs, exists e,
    InsertInto engine cls None kwargs w = (w, Raise e) /\
    (e = AttributeError \/ e = KeyError) /\
    e <> IllegalArgumentError.
Proof.
  split; [reflexivity|].
  intros kwargs. unfold InsertInto, bindM, lift. cbn [kwargs_is_None andb].
  destruct kwargs as [|kw kwargs].
  - exists AttributeError. repeat split; [now left|discriminate].
  - cbn [merge_kwargs].
    match goal with |- context [mapM ?f ?l] => destruct (mapM f l) as [converted|e] eqn:Em end;
      cbn [bind].
    + exists AttributeError. repeat split; [now left|discriminate].
    + exists e. apply mapM_raises in Em as ([column_name value] & _ & Ea).
      destruct (column_named (columns cls) column_name) as [c|e'] eqn:Ec; [discriminate|].
      cbn [bind] in Ea. injection Ea as <-.
      apply column_named_raises in Ec as ->.
      repeat split; [now right|discriminate].
Qed.

(* ===================================================================== *)
(** ** The fill rule of Insert on mappings in table order *)
(* ===================================================================== *)

Lemma nth_drop_0 {A : Type} (l : list A) (s : nat) (d : A) :
  nth 0 (drop s l) d = nth s l d.
Proof.
  revert s. induction l as [|a l IH]; intros [|s]; simpl; auto.
Qed.

Lemma fill_loop_drop (r : list ColumnWrapper) (k : nat) (rel : list nat) (vals : list PyVal)
    (s : nat) (acc : row_data) :
  fill_loop r k rel vals s acc = fill_loop r k (drop s rel) (drop s vals) 0 acc.
Proof.
  revert k rel vals s acc. induction r as [|c r IH]; intros k rel vals s acc; [reflexivity|].
  cbn [fill_loop].
  destruct (is_integer_primary_key c); [apply IH|].
  rewrite length_drop, !nth_drop_0.
  replace (length rel - s <=? 0) with (length rel <=? s)
    by (destruct (Nat.leb_spec (length rel) s), (Nat.leb_spec (length rel - s) 0); lia).
  destruct (length rel <=? s) eqn:L; cbn [negb]; [apply IH|].
  destruct (k =? nth s rel 0); cbn [negb].
  - rewrite IH. rewrite (IH _ (drop s rel) (drop s vals) 1). rewrite !drop_drop.
    replace (s + 1) with (S s) by lia. reflexivity.
  - apply IH.
Qed.

Lemma index_of_cons (s x : string) (l : list string) :
  index_of s (x :: l) =
    if String.eqb x s then Ok 0 else let* i := index_of s l in Ok (S i).
Proof. reflexivity. Qed.

Lemma index_of_In (s : string) (l : list string) :
  In s l -> exists i, index_of s l = Ok i.
Proof.
  induction l as [|x l IH]; intros H; [contradiction|].
  rewrite index_of_cons. destruct (String.eqb x s) eqn:E; [now eexists|].
  apply String.eqb_neq in E. destruct H as [->|H]; [congruence|].
  destruct (IH H) as [i ->]. now eexists.
Qed.

Lemma value_for_absent (data : row_data) (c : ColumnWrapper) :
  ~ In (column_str c) (map key_text data) -> value_for data c = VNull.
Proof.
  induction data as [|[key v] data IH]; intros H; [reflexivity|].
  simpl in *. destruct (String.eqb (column_str key) (column_str c)) eqn:E.
  - apply String.eqb_eq in E. exfalso. apply H. now left.
  - apply IH. intros Hin. apply H. now right.
Qed.

(** The keys of a mapping that follows the kept columns are columns. *)
Lemma keys_among_columns (data : row_data) (r : list ColumnWrapper) (entry : ColumnWrapper * PyVal) :
  sublist (map key_text data) (map column_str (List.filter kept r)) ->
  In entry data -> In (key_text entry) (map column_str r).
Proof.
  intros Sub Hin.
  assert (key_text entry ∈ map key_text data) as H
    by (apply list_elem_of_In, in_map, Hin).
  eapply elem_of_submseteq in H; [|apply sublist_submseteq, Sub].
  apply list_elem_of_In, in_map_iff in H as (c & <- & Hc).
  apply in_map. now apply List.filter_In in Hc as [Hc _].
Qed.

Lemma indexes_from_tail (c : ColumnWrapper) (r : list ColumnWrapper) (k : nat)
    (data : row_data) (rel : list nat) :
  indexes_from (c :: r) k data rel ->
  (forall entry, In entry data -> key_text entry <> column_str c) ->
  indexes_from r (S k) data rel.
Proof.
  unfold indexes_from. intros F Hne.
  induction F as [|entry i data rel (j & Hj & ->) F IHF]; constructor.
  - cbn [map] in Hj. rewrite index_of_cons in Hj.
    destruct (String.eqb (column_str c) (key_text entry)) eqn:E.
    + apply String.eqb_eq in E. exfalso. apply (Hne entry); [now left|auto].
    + destruct (index_of _ (map column_str r)) as [j'|]; [|discriminate].
      injection Hj as <-. exists j'. split; [reflexivity|lia].
  - apply IHF. intros e He. apply Hne. now right.
Qed.

(** The loop, characterised for a mapping that follows the order of the
    columns still to come. *)
Lemma fill_loop_in_order (r : list ColumnWrapper) (k : nat) (data : row_data)
    (rel : list nat) (acc : row_data) :
  NoDup (map column_str r) ->
  sublist (map key_text data) (map column_str (List.filter kept r)) ->
  indexes_from r k data rel ->
  fill_loop r k rel (map snd data) 0 acc
  = acc ++ map (fun c => (c, value_for data c)) (List.filter kept r).
Proof.
  revert k data rel acc.
  induction r as [|c r IH]; intros k data rel acc ND Sub F.
  - simpl. now rewrite app_nil_r.
  - cbn [fill_loop]. cbn [map] in ND. apply NoDup_cons in ND as [Hc ND].
    rewrite list_elem_of_In in Hc.
    cbn [List.filter] in *. unfold kept at 1. unfold kept at 1 in Sub.
    destruct (is_integer_primary_key c) eqn:PK; cbn [negb] in *.
    + (* the integer primary key is skipped *)
      apply IH; [assumption|assumption|].
      apply indexes_from_tail with (c := c); [assumption|].
      intros entry He Heq. apply Hc. rewrite <- Heq.
      eapply keys_among_columns; eassumption.
    + destruct F as [|[key v] i data rel (j & Hj & ->) F].
      * (* nothing left in the mapping *)
        cbn [length Nat.leb negb map].
        rewrite (IH (S k) [] [] _ ND); [| apply sublist_nil_l | constructor].
        cbn [map value_for]. now rewrite <- app_assoc.
      * cbn [length map nth fst snd key_text] in *. cbn [Nat.leb negb].
        unfold key_text in Hj. cbn [fst] in Hj.
        rewrite index_of_cons in Hj.
        destruct (String.eqb (column_str c) (column_str key)) eqn:E.
        -- (* the next entry of the mapping is this column *)
           apply String.eqb_eq in E. injection Hj as <-.
           rewrite Nat.add_0_r, Nat.eqb_refl. cbn [negb].
           rewrite fill_loop_drop. cbn [drop].
           assert (sublist (map key_text data) (map column_str (List.filter kept r))) as Sub'.
           { unfold key_text at 1 in Sub. cbn [fst] in Sub. rewrite <- E in Sub.
             apply sublist_cons_r in Sub as [Sub|(l' & Heq & Sub)].
             - apply sublist_cons_l in Sub as (k1 & k2 & Hk & Sub).
               rewrite Hk. apply sublist_inserts_l. now apply sublist_cons.
             - now injection Heq as <-. }
           assert (forall entry, In entry data -> key_text entry <> column_str c) as Hne.
           { intros entry He Heq. apply Hc. rewrite <- Heq.
             eapply keys_among_columns; eassumption. }
           rewrite (IH (S k) data rel _ ND Sub' (indexes_from_tail _ _ _ _ _ F Hne)).
           rewrite <- app_assoc. cbn [app map]. f_equal. f_equal.
           ++ cbn [value_for]. rewrite <- E, String.eqb_refl. reflexivity.
           ++ apply map_ext_in. intros c' Hc'. f_equal. cbn [value_for].
              destruct (String.eqb (column_str key) (column_str c')) eqn:E'; [|reflexivity].
              apply String.eqb_eq in E'. exfalso. apply Hc. rewrite E, E'.
              apply in_map. now apply List.filter_In in Hc' as [Hc' _].
        -- (* the next entry of the mapping is a later column *)
           apply String.eqb_neq in E.
           destruct (index_of (column_str key) (map column_str r)) as [j'|] eqn:Ej; [|discriminate].
           injection Hj as <-.
           replace (k =? k + S j') with false by (symmetry; apply Nat.eqb_neq; lia).
           cbn [negb].
           assert (sublist (map key_text ((key, v) :: data))
                           (map column_str (List.filter kept r))) as Sub'.
           { cbn [map] in *. apply sublist_cons_r in Sub as [Sub|(l' & Heq & _)]; [exact Sub|].
             injection Heq as Heq _. unfold key_text in Heq. cbn [fst] in Heq. congruence. }
           assert (forall entry, In entry ((key, v) :: data) -> key_text entry <> column_str c)
             as Hne.
           { intros entry He Heq. apply Hc. rewrite <- Heq.
             eapply keys_among_columns; eassumption. }
           assert (indexes_from r (S k) ((key, v) :: data) ((k + S j') :: rel)) as F'.
           { constructor.
             - exists j'. split; [exact Ej|lia].
             - apply indexes_from_tail with (c := c); [exact F|].
               intros e He. apply Hne. now right. }
           rewrite (IH (S k) ((key, v) :: data) _ _ ND Sub' F').
           rewrite <- app_assoc. cbn [app map]. f_equal. f_equal. f_equal.
           symmetry. apply value_for_absent.
           intros Hin. apply in_map_iff in Hin as (e & He1 & He2).
           apply (Hne e He2). exact He1.
Qed.

Lemma mapM_Forall2 {A B : Type} (f : A -> outcome B) (l : list A) :
  (forall a, In a l -> exists b, f a = Ok b) ->
  exists bs, mapM f l = Ok bs /\ Forall2 (fun a b => f a = Ok b) l bs.
Proof.
  induction l as [|a l IH]; intros H.
  - exists []. split; [reflexivity|constructor].
  - destruct (H a (or_introl eq_refl)) as [b Hb].
    destruct IH as (bs & E & F); [intros x Hx; apply H; now right|].
    exists (b :: bs). cbn [mapM]. rewrite Hb. cbn [bind]. rewrite E. cbn [bind].
    split; [reflexivity|now constructor].
Qed.

(** X8.  For a mapping whose columns come in table order (and leave out
    the integer primary key), __fill_all_columns does what its docstring
    says: every kept column of the table carries the value given for it,
    or the null marker when none was given. *)
Lemma fill_all_columns_in_table_order (all_columns : list ColumnWrapper) (data : row_data) :
  NoDup (map column_str all_columns) ->
  sublist (map key_text data) (map column_str (List.filter kept all_columns)) ->
  fill_all_columns all_columns data
  = Ok (map (fun c => (c, value_for data c)) (List.filter kept all_columns)).
Proof.
  intros ND Sub. unfold fill_all_columns.
  destruct (mapM_Forall2
              (fun data_column => index_of (column_str data_column) (map column_str all_columns))
              (map fst data)) as (rel & -> & F).
  { intros a Ha. apply in_map_iff in Ha as (entry & <- & He).
    apply index_of_In. exact (keys_among_columns data all_columns entry Sub He). }
  cbn [bind]. f_equal.
  rewrite (fill_loop_in_order all_columns 0 data rel [] ND Sub); [reflexivity|].
  unfold indexes_from. clear -F.
  revert rel F. induction data as [|entry data IH]; intros rel F.
  - inversion F. constructor.
  - cbn [map] in F. inversion F as [|? i ? rel' Hi F']; subst.
    constructor; [exists i; split; [exact Hi|reflexivity] | now apply IH].
Qed.

Lemma fill_all_columns_in_table_order_witness :
  fill_all_columns (columns Students) [(LastName, VStr "Lock")]
  = Ok (map (fun c => (c, value_for [(LastName, VStr "Lock")] c))
          (List.filter kept (columns Students))).
Proof.
  apply fill_all_columns_in_table_order.
  - vm_compute. repeat constructor; rewrite list_elem_of_In; simpl; intuition discriminate.
  - vm_compute. apply sublist_cons. apply sublist_skip. constructor.
Defined.

(** C5 fails on the code.  The fill loop walks the table's columns with one
    cursor into the mapping and expects the mapping in table order: with
    LastName given before FirstName, FirstName is taken for a column that
    was not passed in and is filled with the null marker, although the
    mapping holds a value for it.  The same mapping in table order keeps
    both values. *)
Theorem insert_out_of_table_order_drops_a_value
    (engine : list call -> call -> reply) (w : World) :
  fill_all_columns (columns Students) [(LastName, VStr "Lock"); (FirstName, VStr "Kieran")]
    = Ok [(FirstName, VNull); (LastName, VStr "Lock")] /\
  calls (fst (InsertInto engine Students
                (Some [(LastName, VStr "Lock"); (FirstName, VStr "Kieran")]) [] w))
    = calls w ++ [("INSERT INTO Students (FirstName, LastName) VALUES (?, ?)",
                   [VStr "NULL"; VStr "'Lock'"])] /\
  fill_all_columns (columns Students) [(FirstName, VStr "Kieran"); (LastName, VStr "Lock")]
    = Ok [(FirstName, VStr "Kieran"); (LastName, VStr "Lock")].
Proof.
  split; [reflexivity|]. split; [|reflexivity].
  unfold InsertInto, InsertIntoWrapper, bindM, lift. cbn [kwargs_is_None andb merge_kwargs].
  assert (insert_statement Students
            (Some [(LastName, VStr "Lock"); (FirstName, VStr "Kieran")])
          = Ok (mkStatement Students [VStr "NULL"; VStr "'Lock'"]
                  "INSERT INTO Students (FirstName, LastName) VALUES (?, ?)"
                  None false false)) as -> by reflexivity.
  match goal with |- context [execute engine ?s w] =>
    pose proof (execute_calls engine s w) as E; destruct (execute engine s w) as [w1 [u|e]]
  end; exact E.
Qed.

Arguments Where : simpl never.

(** C9.  A Delete or an Update statement is built without any call of the
    engine (the world is left as it was), and applying WHERE with a
    condition to it makes exactly one call: the log of the engine grows by
    the statement with its WHERE clause and the joined parameters, whatever
    the engine answers. *)
Theorem delete_update_execute_once_at_where
    (engine : list call -> call -> reply) (cls : Table)
    (data : option row_data) (kwargs : list (string * PyVal))
    (h : gmap loc object) (c : loc) (condition_text : string) (pool : list PyVal)
    (w : World) :
  get_condition h c = Some condition_text ->
  get_pool h c = Some pool ->
  (exists self,
     Delete cls w = (w, Ok self) /\
     calls (fst (Where engine self h (Some c) w))
     = calls w ++ [(statement self +:+ " WHERE " +:+ condition_text,
                    parameterised_query_pool self ++ pool)])
  /\
  (fst (Update cls data kwargs w) = w /\
   forall self,
     snd (Update cls data kwargs w) = Ok self ->
     calls (fst (Where engine self h (Some c) w))
     = calls w ++ [(statement self +:+ " WHERE " +:+ condition_text,
                    parameterised_query_pool self ++ pool)]).
Proof.
  intros Hs Hp. split.
  - eexists. split; [reflexivity|].
    now apply Where_calls.
  - unfold Update, UpdateWrapper, bindM, lift, raise, ret. cbn [kwargs_is_None].
    rewrite andb_false_r.
    destruct (merge_kwargs cls data kwargs) as [[d|]|e]; simpl.
    + destruct (extract_sql_safe_values _ d) as [values|e]; simpl.
      * split; [reflexivity|]. intros self [= <-]. now apply Where_calls.
      * split; [reflexivity|]. discriminate.
    + split; [reflexivity|]. discriminate.
    + split; [reflexivity|]. discriminate.
Qed.

Lemma delete_update_execute_once_at_where_witness :
  (exists self,
     Delete Students empty_world = (empty_world, Ok self) /\
     calls (fst (Where no_rows self StudentID_is_1 (Some 2%positive) empty_world))
     = calls empty_world ++ [(statement self +:+ " WHERE " +:+ "StudentID = ?",
                              parameterised_query_pool self ++ [VInt 1])])
  /\
  (fst (Update Students (Some [(FirstName, VStr "Connor")]) [] empty_world) = empty_world /\
   forall self,
     snd (Update Students (Some [(FirstName, VStr "Connor")]) [] empty_world) = Ok self ->
     calls (fst (Where no_rows self StudentID_is_1 (Some 2%positive) empty_world))
     = calls empty_world ++ [(statement self +:+ " WHERE " +:+ "StudentID = ?",
                              parameterised_query_pool self ++ [VInt 1])]).
Proof.
  apply (delete_update_execute_once_at_where no_rows Students
           (Some [(FirstName, VStr "Connor")]) [] StudentID_is_1 2%positive
           "StudentID = ?" [VInt 1] empty_world); reflexivity.
Defined.

Example update_where_of_the_example :
  calls (fst ((let! s := Update Students (Some [(FirstName, VStr "Connor")]) [] in
               Where no_rows s StudentID_is_1 (Some 2%positive)) empty_world))
  = [("UPDATE Students SET FirstName = ? WHERE StudentID = ?", [VStr "'Connor'"; VInt 1])].
Proof. reflexivity. Qed.

(* ===================================================================== *)
(** ** The parameters of Insert and Update *)
(* ===================================================================== *)

Lemma extract_sql_safe_values_bound (columns : list SQL_Type) (data : row_data)
    (values : list PyVal) :
  extract_sql_safe_values columns data = Ok values ->
  Forall2 (bound_as_text columns) data (map (fun value => VStr (py_str value)) values).
Proof.
  unfold extract_sql_safe_values.
  revert values. induction data as [|[column value] data IH]; intros values H.
  - injection H as <-. constructor.
  - cbn [mapM] in H.
    destruct (find_type (type column) columns) as [column_type|] eqn:Ef; [|discriminate].
    cbn [bind] in H.
    destruct (validate column_type value) as [[]|]; [|discriminate].
    cbn [bind] in H.
    destruct (convert_to_sql column_type value) as [converted|] eqn:Ec; [|discriminate].
    cbn [bind] in H.
    destruct (mapM _ data) as [rest|]; [|discriminate].
    injection H as <-. cbn [map]. constructor; [|now apply IH].
    exists column_type, converted. cbn [fst snd].
    repeat split; try assumption.
    + intros ->. unfold convert_to_sql in Ec. simpl in Ec. now injection Ec as <-.
    + now intros z ->.
Qed.

Lemma Forall2_all_text (columns : list SQL_Type) (data : row_data) (pool : list PyVal) :
  Forall2 (bound_as_text columns) data pool ->
  Forall (fun parameter => exists s, parameter = VStr s) pool.
Proof.
  induction 1 as [|entry parameter data pool (t & v & _ & _ & -> & _) _ IH]; constructor.
  - now eexists.
  - exact IH.
Qed.

(** C10.  The parameter list an Insert or an Update is built with holds,
    entry by entry, the str() of the value the column's descriptor
    converted: the null marker is bound as the text NULL, an int as its
    decimal text, and every entry is a str.  For Insert this list is what
    the engine receives. *)
Theorem insert_update_parameters_are_text
    (engine : list call -> call -> reply) (table : Table) (data : row_data) (w : World) :
  (forall self,
     insert_statement table (Some data) = Ok self ->
     exists filled,
       fill_all_columns (columns table) data = Ok filled /\
       Forall2 (bound_as_text (map type (columns table))) filled
               (parameterised_query_pool self) /\
       Forall (fun parameter => exists s, parameter = VStr s) (parameterised_query_pool self) /\
       calls (fst (InsertIntoWrapper engine table (Some data) w))
       = calls w ++ [(statement self, parameterised_query_pool self)])
  /\
  (forall self,
     snd (UpdateWrapper table (Some data) w) = Ok self ->
     Forall2 (bound_as_text (map type (columns table))) data
             (parameterised_query_pool self) /\
     Forall (fun parameter => exists s, parameter = VStr s) (parameterised_query_pool self)).
Proof.
  split.
  - intros self H. unfold InsertIntoWrapper, bindM, lift. rewrite H.
    unfold insert_statement in H.
    destruct (fill_all_columns (columns table) data) as [filled|] eqn:Ef; [|discriminate].
    cbn [bind] in H.
    destruct (extract_sql_safe_values _ filled) as [values|] eqn:Ev; [|discriminate].
    cbn [bind] in H. injection H as <-. cbn [parameterised_query_pool statement].
    pose proof (extract_sql_safe_values_bound _ _ _ Ev) as B.
    exists filled. repeat split; try assumption.
    + eapply Forall2_all_text. exact B.
    + match goal with |- context [execute engine ?s w] =>
        pose proof (execute_calls engine s w) as E; destruct (execute engine s w) as [w1 [u|e]]
      end; exact E.
  - intros self H. unfold UpdateWrapper, bindM, lift, ret in H.
    destruct (extract_sql_safe_values _ data) as [values|] eqn:Ev; [|discriminate].
    simpl in H. injection H as <-. cbn [parameterised_query_pool].
    pose proof (extract_sql_safe_values_bound _ _ _ Ev) as B.
    split; [exact B|]. eapply Forall2_all_text. exact B.
Qed.

Example insert_of_the_example :
  calls (fst (InsertInto no_rows Students
                (Some [(FirstName, VStr "Kieran"); (LastName, VStr "Lock")]) [] empty_world))
  = [("INSERT INTO Students (FirstName, LastName) VALUES (?, ?)",
      [VStr "'Kieran'"; VStr "'Lock'"])].
Proof. reflexivity. Qed.

Example insert_binds_text_only :
  calls (fst (InsertInto no_rows Marks
                (Some [(mkColumn "Marks" "Points" (Integer 7 false true) None, VInt 42)])
                [] empty_world))
  = [("INSERT INTO Marks (Points, Comment) VALUES (?, ?)", [VStr "42"; VStr "NULL"])].
Proof. reflexivity. Qed.

Lemma insert_update_parameters_are_text_witness :
  (exists self,
     insert_statement Marks (Some [(Points, VInt 42)]) = Ok self /\
     parameterised_query_pool self = [VStr "42"; VStr "NULL"] /\
     Forall (fun parameter => exists s, parameter = VStr s) (parameterised_query_pool self))
  /\
  (exists self,
     snd (UpdateWrapper Marks (Some [(Points, VInt 42)]) empty_world) = Ok self /\
     parameterised_query_pool self = [VStr "42"] /\
     Forall (fun parameter => exists s, parameter = VStr s) (parameterised_query_pool self)).
Proof.
  destruct (insert_update_parameters_are_text no_rows Marks [(Points, VInt 42)] empty_world)
    as [HI HU].
  split.
  - eexists. split; [reflexivity|]. split; [reflexivity|].
    destruct (HI _ eq_refl) as (filled & _ & _ & T & _). exact T.
  - eexists. split; [reflexivity|]. split; [reflexivity|].
    destruct (HU _ eq_refl) as [_ T]. exact T.
Defined.

(* ===================================================================== *)
(** * Further properties of the type descriptors *)
(* ===================================================================== *)

Lemma int_of_str_raises (s : string) (e : exn) : int_of_str s = Raise e -> e = ValueError.
Proof.
  unfold int_of_str.
  match goal with |- context [match ?b with Some _ => _ | None => _ end] => destruct b end;
    [|now intros [= <-]].
  destruct (_ <? _)%N; [now intros [= <-]|discriminate].
Qed.

Lemma float_of_str_raises (s : string) (e : exn) : float_of_str s = Raise e -> e = ValueError.
Proof.
  unfold float_of_str. destruct (drop_underscores None (chars s)); [|now intros [= <-]].
  destruct (take_sign (strip l)) as [negative body].
  destruct (parse_decimal negative body); [discriminate|].
  destruct (parse_inf_or_nan negative body); [discriminate|now intros [= <-]].
Qed.

Lemma float_of_int_raises (z : Z) (e : exn) : float_of_int z = Raise e -> e = OverflowError.
Proof.
  unfold float_of_int. destruct (binary_normalize 53 1024 z 0 false); try discriminate.
  now intros [= <-].
Qed.

Lemma py_int_result (v p : PyVal) : py_int v = Ok p -> exists z, p = VInt z.
Proof.
  destruct v; simpl; try discriminate.
  - intros [= <-]. now eexists.
  - intros [= <-]. now eexists.
  - destruct (int_of_str s); simpl; [|discriminate]. intros [= <-]. now eexists.
  - destruct (int_of_float f); simpl; [|discriminate]. intros [= <-]. now eexists.
Qed.

Lemma py_float_result (v p : PyVal) : py_float v = Ok p -> exists f, p = VFloat f.
Proof.
  destruct v; simpl; try discriminate.
  - destruct (float_of_int _); simpl; [|discriminate]. intros [= <-]. now eexists.
  - destruct (float_of_int z); simpl; [|discriminate]. intros [= <-]. now eexists.
  - destruct (float_of_str s); simpl; [|discriminate]. intros [= <-]. now eexists.
  - intros [= <-]. now eexists.
Qed.

(** How int() fails on the embedded values. *)
Lemma py_int_raises (v : PyVal) (e : exn) :
  py_int v = Raise e ->
  (e = ValueError /\
   ((exists s, v = VStr s /\ int_of_str s = Raise ValueError) \/ v = VFloat S754_nan))
  \/ (e = TypeError /\
      (v = VNone \/ v = VNull \/ (exists d, v = VDate d) \/ (exists t, v = VTime t)))
  \/ (e = OverflowError /\ exists s, v = VFloat (S754_infinity s)).
Proof.
  destruct v as [| |b|z|s|d|t|f]; cbn [py_int]; try discriminate.
  - intros [= <-]. right. left. auto.
  - intros [= <-]. right. left. auto.
  - destruct (int_of_str s) as [z|e'] eqn:Es; cbn [bind]; [discriminate|].
    apply int_of_str_raises in Es as Ee. subst e'. intros [= <-]. left. eauto.
  - intros [= <-]. right. left. split; [reflexivity|]. right. right. left. eauto.
  - intros [= <-]. right. left. split; [reflexivity|]. right. right. right. eauto.
  - destruct f as [s|s| |s m e']; cbn [int_of_float bind]; try discriminate.
    + intros [= <-]. right. right. eauto.
    + intros [= <-]. left. auto.
Qed.

(** How float() fails on the embedded values. *)
Lemma py_float_raises (v : PyVal) (e : exn) :
  py_float v = Raise e ->
  (e = ValueError /\ exists s, v = VStr s /\ float_of_str s = Raise ValueError)
  \/ (e = TypeError /\
      (v = VNone \/ v = VNull \/ (exists d, v = VDate d) \/ (exists t, v = VTime t)))
  \/ (e = OverflowError /\ exists z, v = VInt z /\ float_of_int z = Raise OverflowError).
Proof.
  destruct v as [| |b|z|s|d|t|f]; cbn [py_float]; try discriminate.
  - intros [= <-]. right. left. auto.
  - intros [= <-]. right. left. auto.
  - destruct b; vm_compute; discriminate.
  - destruct (float_of_int z) as [f|e'] eqn:Ez; cbn [bind]; [discriminate|].
    apply float_of_int_raises in Ez as Ee. subst e'. intros [= <-]. right. right. eauto.
  - destruct (float_of_str s) as [f|e'] eqn:Es; cbn [bind]; [discriminate|].
    apply float_of_str_raises in Es as Ee. subst e'. intros [= <-]. left. eauto.
  - intros [= <-]. right. left. split; [reflexivity|]. right. right. left. eauto.
  - intros [= <-]. right. left. split; [reflexivity|]. right. right. right. eauto.
Qed.

Lemma int_column_errors (T : SQL_Type) (v : PyVal) (e e0 : exn) :
  kind T = KInteger \/ kind T = KBoolean ->
  v <> VNull ->
  py_int v = Raise e0 ->
  (if is_ValueError e0 then Raise IllegalArgumentError else Raise e0) = @Raise PyVal e ->
  conversion_error T v e.
Proof.
  intros Hk Hn E H. unfold conversion_error.
  apply py_int_raises in E as [[-> C]|[[-> C]|[-> C]]]; cbn [is_ValueError] in H;
    injection H as <-.
  - right. left. split; [reflexivity|]. right. left. split; [exact Hk|exact C].
  - right. right. left. split; [reflexivity|]. split; [destruct Hk; auto|].
    destruct C as [C|[C|[C|C]]]; [auto|congruence|auto|auto].
  - right. right. right. split; [reflexivity|]. left. split; [exact Hk|exact C].
Qed.

(** X1.  convert_to_sql turns every ValueError of a casting method into
    IllegalArgumentError.  For a value whose str() the interpreter gives,
    it fails in four ways only:
    InvalidColumnType for a String column given a value that is not a
    str; IllegalArgumentError for an Integer or Boolean column given a str
    that int() refuses or the float NaN, for a Float column given a str
    that float() refuses, and for the Null descriptor given anything but
    the marker; TypeError for an Integer, Float or Boolean column given
    None, a date or a time; OverflowError for an Integer or Boolean column
    given an infinite float and for a Float column given an int beyond the
    largest float. *)
Theorem convert_to_sql_errors (T : SQL_Type) (v : PyVal) (e : exn) :
  str_within_limit v = true ->
  convert_to_sql T v = Raise e ->
  e <> ValueError /\ conversion_error T v e.
Proof.
  intros _ H.
  assert (conversion_error T v e) as C.
  { revert H. unfold convert_to_sql, to_sql.
    destruct (is_Null v) eqn:N.
    { unfold none_to_null. rewrite andb_false_r. discriminate. }
    assert (v <> VNull) as Hn by (intros ->; discriminate).
    destruct (kind T) eqn:K.
    - (* String *)
      unfold convert_to_sql_string. destruct (is_str v) eqn:S; simpl; [discriminate|].
      intros [= <-]. left. rewrite K. eauto.
    - (* Integer *)
      destruct (py_int v) as [q|e0] eqn:E; [discriminate|].
      apply int_column_errors; auto.
    - (* Float *)
      destruct (py_float v) as [q|e0] eqn:E; [discriminate|]. intros H.
      unfold conversion_error. rewrite K.
      apply py_float_raises in E as [[-> C]|[[-> C]|[-> C]]]; cbn [is_ValueError] in H;
        injection H as <-.
      + right. left. split; [reflexivity|]. right. right. auto.
      + right. right. left. split; [reflexivity|]. split; [auto|].
        destruct C as [C|[C|[C|C]]]; [auto|congruence|auto|auto].
      + right. right. right. split; [reflexivity|]. right. auto.
    - (* Boolean *)
      unfold int_to_bool_int.
      destruct (py_int v) as [q|e0] eqn:E; cbn [bind]; [discriminate|].
      apply int_column_errors; auto.
    - discriminate.
    - discriminate.
    - (* Null *)
      unfold none_to_null. rewrite N. simpl. intros [= <-].
      right. left. split; [reflexivity|]. left. now rewrite K. }
  split; [|exact C].
  intros ->. destruct C as [[C _]|[[C _]|[[C _]|[C _]]]]; discriminate.
Qed.

Lemma convert_to_sql_errors_witness :
  IllegalArgumentError <> ValueError /\
  conversion_error (Integer 1 false true) (VStr "twelve") IllegalArgumentError.
Proof.
  apply (convert_to_sql_errors (Integer 1 false true) (VStr "twelve") IllegalArgumentError).
  - reflexivity.
  - reflexivity.
Defined.

(** X2.  What a descriptor can hand to a statement: the null marker is
    persisted as the text NULL by every descriptor; otherwise String gives
    the quoted str, Integer an int, Float a float, Boolean 0 or 1 and
    nothing else, Date and Time the quoted str() of the value; the Null
    descriptor persists nothing but the marker. *)
Theorem convert_to_sql_persisted_form (T : SQL_Type) (v p : PyVal) :
  convert_to_sql T v = Ok p ->
  (v = VNull /\ p = VStr "NULL")
  \/ match kind T with
     | KString _ => exists s, v = VStr s /\ p = VStr (quoted s)
     | KInteger => exists z, p = VInt z
     | KFloat => exists f, p = VFloat f
     | KBoolean => p = VInt 0 \/ p = VInt 1
     | KDate | KTime => p = VStr (quoted (py_str v))
     | KNull => False
     end.
Proof.
  unfold convert_to_sql, to_sql.
  destruct (is_Null v) eqn:N.
  - destruct v; try discriminate. simpl. intros [= <-]. now left.
  - intros H. right. destruct (kind T) eqn:K.
    + unfold convert_to_sql_string in H. destruct v; simpl in H; try discriminate.
      injection H as <-. now exists s.
    + destruct (py_int v) as [q|] eqn:E; [|destruct (is_ValueError e); discriminate].
      injection H as <-. exact (py_int_result _ _ E).
    + destruct (py_float v) as [q|] eqn:E; [|destruct (is_ValueError e); discriminate].
      injection H as <-. exact (py_float_result _ _ E).
    + unfold int_to_bool_int in H.
      destruct (py_int v) as [q|] eqn:E; simpl in H; [|destruct (is_ValueError e); discriminate].
      destruct (py_int_result _ _ E) as [z ->]. simpl in H.
      destruct (z =? 0)%Z eqn:Z0; injection H as <-; [|now right].
      apply Z.eqb_eq in Z0. subst. now left.
    + simpl in H. now injection H as <-.
    + simpl in H. now injection H as <-.
    + unfold none_to_null in H. rewrite N in H. discriminate.
Qed.

Lemma convert_to_sql_persisted_form_witness :
  (VInt 7 = VNull /\ VInt 1 = VStr "NULL")
  \/ match kind (Boolean 1 false true) with
     | KString _ => exists s, VInt 7 = VStr s /\ VInt 1 = VStr (quoted s)
     | KInteger => exists z, VInt 1 = VInt z
     | KFloat => exists f, VInt 1 = VFloat f
     | KBoolean => VInt 1 = VInt 0 \/ VInt 1 = VInt 1
     | KDate | KTime => VInt 1 = VStr (quoted (py_str (VInt 7)))
     | KNull => False
     end.
Proof.
  apply (convert_to_sql_persisted_form (Boolean 1 false true) (VInt 7) (VInt 1)).
  reflexivity.
Defined.

(* ===================================================================== *)
(** * Further properties of fetching *)
(* ===================================================================== *)

Lemma own_value_round_trip (T : SQL_Type) (v : PyVal) :
  own_value T v = true ->
  exists p, convert_to_sql T v = Ok p /\ py_eq p (VStr "NULL") = false /\
            convert_to_python T p = Ok v.
Proof.
  unfold own_value, convert_to_sql, convert_to_python, to_sql, to_python.
  intros H. destruct (kind T); destruct v as [| |b|z|s|d|t|f]; try discriminate; simpl.
  - exists (VStr (quoted s)). repeat split.
    unfold convert_to_python_string. now rewrite slice_quoted.
  - now exists (VInt z).
  - now exists (VFloat f).
  - exists (VInt (if b then 1 else 0)). repeat split; now destruct b.
  - exists (VStr (quoted (date_isoformat d))). repeat split.
    unfold to_date. rewrite slice_quoted. simpl. now rewrite date_fromisoformat_isoformat.
  - exists (VStr (quoted (time_isoformat t))). repeat split.
    unfold to_time. rewrite slice_quoted. simpl. now rewrite time_fromisoformat_isoformat.
Qed.

Lemma storable_round_trip (c : ColumnWrapper) (v : PyVal) :
  storable c v ->
  exists p, convert_to_sql (type c) v = Ok p /\
            (let* value := if py_eq p (VStr "NULL") then Ok VNone
                           else convert_to_python (type c) p in Ok value) = Ok (fetched v).
Proof.
  intros [->|H].
  - exists (VStr "NULL"). split; reflexivity.
  - destruct (own_value_round_trip _ _ H) as (p & E & N & R).
    exists p. split; [exact E|]. rewrite N, R. simpl.
    destruct v; try reflexivity. unfold own_value in H. destruct (kind (type c)); discriminate.
Qed.

Lemma persist_row_round_trip (selector : list ColumnWrapper) (values : list PyVal) :
  Forall2 storable selector values ->
  exists persisted,
    persist_row selector values = Ok persisted /\
    convert_record selector persisted = Ok (map fetched values).
Proof.
  induction 1 as [|c v selector values Hs _ (rest & Er & Ec)].
  - now exists [].
  - destruct (storable_round_trip c v Hs) as (p & Ep & Rp).
    exists (p :: rest). cbn [persist_row convert_record map]. rewrite Ep, Er. cbn [bind].
    split; [reflexivity|]. cbn [bind] in Rp.
    destruct (if py_eq p (VStr "NULL") then Ok VNone else convert_to_python (type c) p)
      as [value|]; [|discriminate].
    injection Rp as ->. cbn [bind]. now rewrite Ec.
Qed.

(** A Select that returns has built the SELECT statement of the
    selected columns, and has left the world as it was. *)
Lemma Select_returns (cls : Table) (columns_arg : select_columns) (w : World)
    (s : SQLStatement) :
  snd (Select cls columns_arg w) = Ok s ->
  Select cls columns_arg w
  = (w, Ok (mkStatement cls []
              ("SELECT " +:+ join ", " (map name (selected_columns cls columns_arg))
               +:+ " FROM " +:+ table_name cls)
              (Some (selected_columns cls columns_arg)) false false)).
Proof.
  unfold Select, bindM, lift, is_wildcard, SelectWrapper, ret.
  destruct columns_arg as [|[|c [|c2 r]]]; try reflexivity.
  - destruct (transform_other c (VStr "*")); cbn [bind snd]; [reflexivity|discriminate].
  - destruct (transform_other c (VStr "*")); cbn [bind snd]; [reflexivity|discriminate].
Qed.

(** X3.  Fetch gives back what was stored.  When a Select returns and
    the engine answers its statement, SELECT with the names of the
    selected columns FROM the table, with rows that hold, column by
    column, the persisted forms of values of the columns' own types or of
    the null marker, Fetch returns exactly those values, None standing for
    the marker, together with the selected columns: all the columns of
    the table for "*" or a single column, the given columns otherwise. *)
Theorem fetch_returns_the_stored_values
    (engine : list call -> call -> reply) (cls : Table) (columns_arg : select_columns)
    (s : SQLStatement) (stored persisted : list (list PyVal)) (w : World) :
  snd (Select cls columns_arg w) = Ok s ->
  Forall (fun values => Forall2 storable (selected_columns cls columns_arg) values) stored ->
  Forall2 (fun values row => persist_row (selected_columns cls columns_arg) values = Ok row)
          stored persisted ->
  engine (calls w)
         ("SELECT " +:+ join ", " (map name (selected_columns cls columns_arg))
          +:+ " FROM " +:+ table_name cls, [])
    = Rows persisted ->
  snd ((let! s := Select cls columns_arg in Fetch engine s) w)
  = Ok (map (map fetched) stored, selected_columns cls columns_arg).
Proof.
  intros Hsel Hs Hp He. apply Select_returns in Hsel.
  unfold bindM at 1. rewrite Hsel.
  set (cols := selected_columns cls columns_arg) in *.
  unfold Fetch, bindM, ret, execute, cursor_execute, fetchall, lift.
  cbn [selector statement parameterised_query_pool]. rewrite He. cbn [cursor_rows].
  assert (to_python_types cols persisted = Ok (map (map fetched) stored)) as ->; [|reflexivity].
  unfold to_python_types. clear He Hsel.
  induction Hp as [|values row stored persisted Hrow _ IH]; [reflexivity|].
  apply Forall_cons in Hs as [Hv Hs].
  destruct (persist_row_round_trip cols values Hv) as (row' & Er & Ec).
  rewrite Hrow in Er. injection Er as <-.
  cbn [mapM map]. rewrite Ec. cbn [bind]. now rewrite (IH Hs).
Qed.

Lemma fetch_returns_the_stored_values_witness :
  snd ((let! s := Select Subjects (Columns [SubjectName]) in
        Fetch one_subject s) empty_world)
  = Ok (map (map fetched) [[VInt 1; VStr "Computing"]],
        selected_columns Subjects (Columns [SubjectName])).
Proof.
  apply (fetch_returns_the_stored_values one_subject Subjects (Columns [SubjectName])
           (mkStatement Subjects [] "SELECT SubjectID, SubjectName FROM Subjects"
              (Some [SubjectID; SubjectName]) false false)
           [[VInt 1; VStr "Computing"]] [[VInt 1; VStr "'Computing'"]] empty_world).
  - reflexivity.
  - repeat constructor; right; reflexivity.
  - repeat constructor.
  - reflexivity.
Defined.

(** X4.  A row that the conversion of a fetch accepts keeps its length and
    holds no None in a String, Integer, Float, Date or Time column: a field
    the engine returns as None there raises TypeError (a Boolean column
    turns it into False). *)
Theorem fetched_None_is_refused (selector : list ColumnWrapper) (record : list PyVal) :
  (forall out,
     convert_record selector record = Ok out ->
     length out = length record /\
     forall i column,
       selector !! i = Some column -> record !! i = Some VNone ->
       kind (type column) = KBoolean \/ kind (type column) = KNull)
  /\
  (forall column cs fs,
     selector = column :: cs -> record = VNone :: fs ->
     kind (type column) <> KBoolean -> kind (type column) <> KNull ->
     convert_record selector record = Raise TypeError).
Proof.
  split.
  - revert record. induction selector as [|c cs IH]; intros record out H.
    + destruct record; injection H as <-; (split; [reflexivity|]); intros i column Hi; inversion Hi.
    + destruct record as [|field fs]; [injection H as <-; split; [reflexivity|]; intros i column _ Hi; inversion Hi|].
      cbn [convert_record] in H.
      destruct (if py_eq field (VStr "NULL") then Ok VNone
                else convert_to_python (type c) field) as [value|] eqn:Ev; [|discriminate].
      cbn [bind] in H.
      destruct (convert_record cs fs) as [rest|] eqn:Er; [|discriminate].
      injection H as <-. destruct (IH fs rest Er) as [Hl Hn].
      split; [simpl; now rewrite Hl|].
      intros [|i] column Hc Hf; simpl in Hc, Hf.
      * injection Hc as <-. injection Hf as ->. simpl in Ev.
        unfold convert_to_python, to_python in Ev.
        destruct (kind (type c)); simpl in Ev; try discriminate; auto.
      * eauto.
  - intros column cs fs -> -> Hb Hn. cbn [convert_record]. simpl py_eq. cbv iota.
    unfold convert_to_python, to_python.
    destruct (kind (type column)); simpl; try reflexivity; contradiction.
Qed.

(* ===================================================================== *)
(** * Further properties of the condition algebra *)
(* ===================================================================== *)

(** What combine leaves alone: any condition other than the left operand
    whose pool is another list. *)
Lemma combine_frame (connective : string) (h h' : gmap loc object) (c1 c2 r c : loc)
    (s : string) (l : list PyVal) :
  combine connective c1 c2 h = Ok (h', r) ->
  c <> c1 -> get_pool_ref h c <> get_pool_ref h c1 ->
  get_condition h c = Some s -> get_pool h c = Some l ->
  get_condition h' c = Some s /\ get_pool h' c = Some l.
Proof.
  unfold combine. intros H Hc Hp Hs Hl.
  destruct (h !! c1) as [[|s1 p1]|] eqn:E1; try discriminate.
  destruct (h !! c2) as [[|s2 p2]|] eqn:E2; try discriminate.
  destruct (h !! p1) as [[l1|]|] eqn:E3; try discriminate.
  destruct (h !! p2) as [[l2|]|] eqn:E4; try discriminate.
  injection H as <- <-.
  destruct (get_pool_inv _ _ _ Hl) as (s' & p & Ec & Epl).
  unfold get_pool_ref in Hp. rewrite Ec, E1 in Hp.
  assert (p <> p1) by congruence.
  assert (p <> c1) by congruence.
  assert (c <> p1) by congruence.
  split.
  - unfold get_condition in *. now rewrite !lookup_insert_ne by congruence.
  - apply (get_pool_intro _ _ s' p); rewrite !lookup_insert_ne by congruence; assumption.
Qed.

(** X5.  AND and OR keep the placeholders and the parameters in step: when
    both operands have as many placeholders as parameters, so has the
    combined condition. *)
Theorem and_or_keep_conditions_aligned (h : gmap loc object) (A B : loc) :
  aligned_condition h A ->
  aligned_condition h B ->
  (exists h', cond_and A B h = Ok (h', A) /\ aligned_condition h' A)
  /\ (exists h', cond_or A B h = Ok (h', A) /\ aligned_condition h' A).
Proof.
  intros (ta & pa & Hta & Hpa & Ea) (tb & pb & Htb & Hpb & Eb).
  split.
  - destruct (combine_left " AND " h A B ta tb pa pb Hta Hpa Htb Hpb) as (h' & E & T & P & _).
    exists h'. split; [exact E|]. exists (ta +:+ " AND " +:+ tb), (pa ++ pb).
    repeat split; try assumption.
    rewrite !placeholders_append, length_app, Ea, Eb. reflexivity.
  - destruct (combine_left " OR " h A B ta tb pa pb Hta Hpa Htb Hpb) as (h' & E & T & P & _).
    exists h'. split; [exact E|]. exists (ta +:+ " OR " +:+ tb), (pa ++ pb).
    repeat split; try assumption.
    rewrite !placeholders_append, length_app, Ea, Eb. reflexivity.
Qed.

Lemma and_or_keep_conditions_aligned_witness :
  (exists h', cond_and 2%positive 4%positive two_conditions = Ok (h', 2%positive)
              /\ aligned_condition h' 2%positive)
  /\ (exists h', cond_or 2%positive 4%positive two_conditions = Ok (h', 2%positive)
                 /\ aligned_condition h' 2%positive).
Proof.
  apply (and_or_keep_conditions_aligned two_conditions 2%positive 4%positive).
  - exists "x = ?", [VInt 1]. repeat split.
  - exists "y = ?", [VInt 2]. repeat split.
Defined.

(** X6.  Chained combinators read in call order: (A AND B) OR C is again
    the object A, its text is the three texts joined left to right by the
    two connectives and its parameters are those of A, B and C in that
    order, provided C is another object than A with a pool of its own. *)
Theorem chained_conditions_in_call_order
    (h : gmap loc object) (A B C : loc) (ta tb tc : string) (pa pb pc : list PyVal) :
  get_condition h A = Some ta -> get_pool h A = Some pa ->
  get_condition h B = Some tb -> get_pool h B = Some pb ->
  get_condition h C = Some tc -> get_pool h C = Some pc ->
  C <> A -> get_pool_ref h C <> get_pool_ref h A ->
  exists h1 h2,
    cond_and A B h = Ok (h1, A) /\
    cond_or A C h1 = Ok (h2, A) /\
    get_condition h2 A = Some ((ta +:+ " AND " +:+ tb) +:+ " OR " +:+ tc) /\
    get_pool h2 A = Some ((pa ++ pb) ++ pc).
Proof.
  intros Hta Hpa Htb Hpb Htc Hpc Hne Hpne.
  destruct (combine_left " AND " h A B ta tb pa pb Hta Hpa Htb Hpb) as (h1 & E1 & T1 & P1 & _).
  destruct (combine_frame " AND " h h1 A B A C tc pc E1 Hne Hpne Htc Hpc) as [Htc1 Hpc1].
  destruct (combine_left " OR " h1 A C _ tc _ pc T1 P1 Htc1 Hpc1) as (h2 & E2 & T2 & P2 & _).
  exists h1, h2. repeat split; assumption.
Qed.

Lemma chained_conditions_in_call_order_witness :
  exists h1 h2,
    cond_and 2%positive 4%positive three_conditions = Ok (h1, 2%positive) /\
    cond_or 2%positive 6%positive h1 = Ok (h2, 2%positive) /\
    get_condition h2 2%positive = Some (("x = ?" +:+ " AND " +:+ "y = ?") +:+ " OR " +:+ "z = ?") /\
    get_pool h2 2%positive = Some (([VInt 1] ++ [VInt 2]) ++ [VInt 3]).
Proof.
  apply (chained_conditions_in_call_order three_conditions 2%positive 4%positive 6%positive);
    try reflexivity; vm_compute; discriminate.
Defined.

(* ===================================================================== *)
(** * Further properties of Insert and Update *)
(* ===================================================================== *)

Lemma index_of_Ok_In (s : string) (l : list string) (i : nat) :
  index_of s l = Ok i -> In s l.
Proof.
  revert i. induction l as [|x l IH]; intros i H; [discriminate|].
  rewrite index_of_cons in H. destruct (String.eqb x s) eqn:E.
  - apply String.eqb_eq in E. now left.
  - destruct (index_of s l) as [j|]; [|discriminate]. right. eauto.
Qed.

Lemma index_of_Raise (s : string) (l : list string) (e : exn) :
  index_of s l = Raise e -> e = ValueError /\ ~ In s l.
Proof.
  induction l as [|x l IH]; intros H.
  - injection H as <-. split; [reflexivity|]. intros [].
  - rewrite index_of_cons in H. destruct (String.eqb x s) eqn:E; [discriminate|].
    apply String.eqb_neq in E.
    destruct (index_of s l) as [j|e'] eqn:Ei; [discriminate|].
    simpl in H. injection H as <-. destruct (IH eq_refl) as [-> Hn].
    split; [reflexivity|]. intros [Hx|Hx]; [congruence|contradiction].
Qed.

Lemma mapM_Ok_all {A B : Type} (f : A -> outcome B) (l : list A) (bs : list B) :
  mapM f l = Ok bs -> length bs = length l /\ Forall (fun a => exists b, f a = Ok b) l.
Proof.
  revert bs. induction l as [|a l IH]; intros bs H.
  - injection H as <-. split; [reflexivity|constructor].
  - cbn [mapM] in H. destruct (f a) as [b|] eqn:Ea; [|discriminate]. cbn [bind] in H.
    destruct (mapM f l) as [bs'|]; [|discriminate]. injection H as <-.
    destruct (IH bs' eq_refl) as [Hl Hf]. split; [simpl; now rewrite Hl|].
    constructor; [now exists b|exact Hf].
Qed.

Lemma fill_loop_columns (r : list ColumnWrapper) (k : nat) (rel : list nat)
    (vals : list PyVal) (s : nat) (acc : row_data) :
  map fst (fill_loop r k rel vals s acc) = map fst acc ++ List.filter kept r.
Proof.
  revert k s acc. induction r as [|c r IH]; intros k s acc.
  - simpl. now rewrite app_nil_r.
  - cbn [fill_loop List.filter]. unfold kept at 1.
    destruct (is_integer_primary_key c); cbn [negb]; [apply IH|].
    destruct (negb (length rel <=? s)); [destruct (negb (k =? nth s rel 0))|];
      rewrite IH, map_app, <- app_assoc; reflexivity.
Qed.

Lemma fill_all_columns_keys (all_columns : list ColumnWrapper) (data : row_data)
    (filled : row_data) :
  fill_all_columns all_columns data = Ok filled ->
  map fst filled = List.filter kept all_columns.
Proof.
  unfold fill_all_columns.
  match goal with |- context [mapM ?f ?l] => destruct (mapM f l) as [rel|e] end;
    cbn [bind]; [|discriminate].
  intros [= <-]. now rewrite fill_loop_columns.
Qed.

(** X7.  The columns an Insert names do not depend on the mapping: as
    soon as every column of the mapping is found in the table, the filled
    mapping has exactly the table's columns in table order, the integer
    primary key left out; a column that is not found raises ValueError. *)
Theorem fill_all_columns_names_the_kept_columns
    (all_columns : list ColumnWrapper) (data : row_data) :
  match fill_all_columns all_columns data with
  | Ok filled =>
      map fst filled = List.filter kept all_columns /\
      Forall (fun entry => In (key_text entry) (map column_str all_columns)) data
  | Raise e =>
      e = ValueError /\
      Exists (fun entry => ~ In (key_text entry) (map column_str all_columns)) data
  end.
Proof.
  unfold fill_all_columns.
  match goal with |- context [mapM ?f ?l] => destruct (mapM f l) as [rel|e] eqn:Em end;
    cbn [bind].
  - split; [now rewrite fill_loop_columns|].
    apply mapM_Ok_all in Em as [_ Hf].
    apply Forall_forall. intros entry He. rewrite Forall_forall in Hf.
    destruct (Hf (fst entry)) as [i Hi]; [apply list_elem_of_In, in_map, list_elem_of_In, He|].
    exact (index_of_Ok_In _ _ _ Hi).
  - apply mapM_raises in Em as (key & Hk & Ek).
    apply index_of_Raise in Ek as [-> Hn]. split; [reflexivity|].
    apply in_map_iff in Hk as (entry & <- & He).
    apply Exists_exists. exists entry. split; [now apply list_elem_of_In|exact Hn].
Qed.

Lemma extract_sql_safe_values_null_rule (columns : list SQL_Type) (data : row_data)
    (values : list PyVal) :
  extract_sql_safe_values columns data = Ok values ->
  length values = length data /\
  Forall (fun entry =>
            snd entry = VNull ->
            exists t, find_type (type (fst entry)) columns = Ok t /\
                      is_nullable t || is_primary_key t = true) data.
Proof.
  unfold extract_sql_safe_values. revert values.
  induction data as [|[column value] data IH]; intros values H.
  - injection H as <-. split; [reflexivity|constructor].
  - cbn [mapM] in H.
    destruct (find_type (type column) columns) as [t|] eqn:Ef; [|discriminate].
    cbn [bind] in H.
    destruct (validate t value) as [[]|] eqn:Ev; [|discriminate]. cbn [bind] in H.
    destruct (convert_to_sql t value); [|discriminate]. cbn [bind] in H.
    destruct (mapM _ data) as [rest|]; [|discriminate]. injection H as <-.
    destruct (IH rest eq_refl) as [Hl Hf]. split; [simpl; now rewrite Hl|].
    constructor; [|exact Hf].
    cbn [fst snd]. intros ->. exists t. split; [exact Ef|].
    unfold validate in Ev. simpl in Ev.
    destruct (is_nullable t), (is_primary_key t); simpl in *; congruence.
Qed.

(** X9.  The null marker is never bound to a column that is NOT NULL and
    no primary key: an Insert or an Update that is built has, for every
    entry whose value is the null marker (given, or filled in by Insert),
    a descriptor that is nullable or a primary key.  Otherwise the
    construction has raised. *)
Theorem null_marker_only_where_allowed (table : Table) (data : row_data) (w : World) :
  (forall self,
     insert_statement table (Some data) = Ok self ->
     exists filled,
       fill_all_columns (columns table) data = Ok filled /\
       Forall (fun entry =>
                 snd entry = VNull ->
                 exists t, find_type (type (fst entry)) (map type (columns table)) = Ok t /\
                           is_nullable t || is_primary_key t = true) filled)
  /\
  (forall self,
     snd (UpdateWrapper table (Some data) w) = Ok self ->
     Forall (fun entry =>
               snd entry = VNull ->
               exists t, find_type (type (fst entry)) (map type (columns table)) = Ok t /\
                         is_nullable t || is_primary_key t = true) data).
Proof.
  split.
  - intros self H. unfold insert_statement in H.
    destruct (fill_all_columns (columns table) data) as [filled|]; [|discriminate].
    cbn [bind] in H.
    destruct (extract_sql_safe_values _ filled) as [values|] eqn:Ev; [|discriminate].
    exists filled. split; [reflexivity|].
    exact (proj2 (extract_sql_safe_values_null_rule _ _ _ Ev)).
  - intros self H. unfold UpdateWrapper, bindM, lift in H.
    destruct (extract_sql_safe_values _ data) as [values|] eqn:Ev; [|discriminate].
    exact (proj2 (extract_sql_safe_values_null_rule _ _ _ Ev)).
Qed.

Lemma null_marker_only_where_allowed_witness :
  (exists self filled,
     insert_statement Rooms (Some [(Building, VStr "Main")]) = Ok self /\
     fill_all_columns (columns Rooms) [(Building, VStr "Main")] = Ok filled /\
     Forall (fun entry =>
               snd entry = VNull ->
               exists t, find_type (type (fst entry)) (map type (columns Rooms)) = Ok t /\
                         is_nullable t || is_primary_key t = true) filled)
  /\ insert_statement Rooms (Some [(Floor, VInt 2)]) = Raise IllegalArgumentError.
Proof.
  split; [|reflexivity].
  destruct (null_marker_only_where_allowed Rooms [(Building, VStr "Main")] empty_world)
    as [HI _].
  destruct (HI _ eq_refl) as (filled & Ef & Hf).
  eexists _, filled. split; [reflexivity|]. split; [exact Ef|exact Hf].
Defined.

Lemma placeholders_join (l : list string) :
  placeholders (join ", " l) = list_sum (map placeholders l).
Proof.
  unfold join. induction l as [|x l IH]; [reflexivity|].
  destruct l as [|y l].
  - simpl. lia.
  - change (String.concat ", " (x :: y :: l)) with (x +:+ ", " +:+ String.concat ", " (y :: l)).
    rewrite !placeholders_append, IH. reflexivity.
Qed.

Lemma list_sum_cons (n : nat) (l : list nat) : list_sum (n :: l) = n + list_sum l.
Proof. reflexivity. Qed.

Lemma list_sum_zero (l : list nat) : Forall (fun n => n = 0) l -> list_sum l = 0.
Proof. induction 1 as [|n l -> _ IH]; [reflexivity|exact IH]. Qed.

Lemma list_sum_ones {A : Type} (f : A -> nat) (l : list A) :
  (forall a, f a = 1) -> list_sum (map f l) = length l.
Proof. intros H. induction l as [|a l IH]; [reflexivity|]. simpl. now rewrite H, IH. Qed.

Lemma placeholders_names (cols : list ColumnWrapper) :
  Forall (fun c => plain_name (name c)) cols ->
  placeholders (join ", " (map name cols)) = 0.
Proof.
  intros H. rewrite placeholders_join. apply list_sum_zero.
  apply Forall_forall. intros n Hn.
  apply list_elem_of_In, in_map_iff in Hn as (m & <- & Hm).
  apply in_map_iff in Hm as (c & <- & Hc).
  rewrite Forall_forall in H. apply H. now apply list_elem_of_In.
Qed.

Ltac count_literals :=
  repeat match goal with
         | |- context [placeholders (String ?a ?s)] =>
             let n := eval vm_compute in (placeholders (String a s)) in
             change (placeholders (String a s)) with n
         end.

(** X10.  Every statement is built with as many placeholders as
    parameters, the names of the table and of its columns being free of
    question marks: Select and Delete carry none of either, Insert one
    placeholder per bound value, Update one per assignment. *)
Theorem built_statements_are_aligned (table : Table) (selected : list ColumnWrapper)
    (data : row_data) (w : World) :
  plain_name (table_name table) ->
  Forall (fun c => plain_name (name c)) (columns table) ->
  Forall (fun c => plain_name (name c)) selected ->
  Forall (fun entry => plain_name (name (fst entry))) data ->
  (forall self, snd (Select table (Columns selected) w) = Ok self -> aligned_statement self)
  /\ (forall self, snd (Select table Star w) = Ok self -> aligned_statement self)
  /\ (forall self, snd (Delete table w) = Ok self -> aligned_statement self)
  /\ (forall self, insert_statement table (Some data) = Ok self -> aligned_statement self)
  /\ (forall self, snd (UpdateWrapper table (Some data) w) = Ok self -> aligned_statement self).
Proof.
  intros Ht Hc Hs Hd. unfold aligned_statement.
  assert (forall columns_arg,
            Forall (fun c => plain_name (name c)) (selected_columns table columns_arg) ->
            forall self, snd (Select table columns_arg w) = Ok self ->
            placeholders (statement self) = length (parameterised_query_pool self)) as Hsel.
  { intros columns_arg Hn self H. pose proof (Select_returns _ _ _ _ H) as R.
    rewrite R in H. injection H as <-. cbn [statement parameterised_query_pool].
    rewrite !placeholders_append, placeholders_names, Ht by assumption. reflexivity. }
  split; [|split; [|split; [|split]]].
  - apply Hsel. destruct selected as [|c [|c2 r]]; assumption.
  - apply Hsel. exact Hc.
  - intros self [= <-]. cbn [statement parameterised_query_pool].
    rewrite !placeholders_append, Ht. reflexivity.
  - intros self H. unfold insert_statement in H.
    destruct (fill_all_columns (columns table) data) as [filled|] eqn:F; [|discriminate].
    apply fill_all_columns_keys in F. cbn [bind] in H.
    destruct (extract_sql_safe_values _ filled) as [values|] eqn:Ev; [|discriminate].
    injection H as <-. cbn [statement parameterised_query_pool].
    rewrite !placeholders_append, !placeholders_join, Ht, !length_map.
    assert (list_sum (map placeholders (map (fun _ : PyVal => "?") values)) = length values)
      as -> by (rewrite map_map; now apply list_sum_ones).
    rewrite list_sum_zero; [count_literals; lia|].
    apply Forall_forall. intros n Hn.
    apply list_elem_of_In, in_map_iff in Hn as (m & <- & Hm).
    apply in_map_iff in Hm as ([c v] & <- & Hcv).
    assert (In c (List.filter kept (columns table))) as Hin
      by (rewrite <- F; apply (in_map fst _ _ Hcv)).
    apply List.filter_In in Hin as [Hin _].
    rewrite Forall_forall in Hc. apply Hc. now apply list_elem_of_In.
  - intros self H. unfold UpdateWrapper, bindM, lift in H.
    destruct (extract_sql_safe_values _ data) as [values|] eqn:Ev; [|discriminate].
    injection H as <-. cbn [statement parameterised_query_pool].
    apply extract_sql_safe_values_null_rule in Ev as [Hl _].
    rewrite !placeholders_append, placeholders_join, Ht, length_map, Hl.
    match goal with |- context [list_sum ?l] =>
      assert (list_sum l = length data) as E; [|rewrite E; count_literals; lia]
    end.
    clear -Hd. induction Hd as [|[c v] data Hp _ IH]; [reflexivity|].
    rewrite !map_cons, list_sum_cons, IH, placeholders_append. cbn [fst] in Hp.
    unfold plain_name in Hp. rewrite Hp. reflexivity.
Qed.

Lemma built_statements_are_aligned_witness :
  (forall self, snd (Select Students (Columns [FirstName]) empty_world) = Ok self ->
                aligned_statement self)
  /\ (forall self, snd (Select Students Star empty_world) = Ok self -> aligned_statement self)
  /\ (forall self, snd (Delete Students empty_world) = Ok self -> aligned_statement self)
  /\ (forall self, insert_statement Students (Some [(FirstName, VStr "Connor")]) = Ok self ->
                   aligned_statement self)
  /\ (forall self,
        snd (UpdateWrapper Students (Some [(FirstName, VStr "Connor")]) empty_world) = Ok self ->
        aligned_statement self).
Proof.
  apply (built_statements_are_aligned Students [FirstName] [(FirstName, VStr "Connor")]
           empty_world).
  - reflexivity.
  - repeat constructor.
  - repeat constructor.
  - repeat constructor.
Defined.

(* ===================================================================== *)
(** * Further properties of WHERE and Fetch *)
(* ===================================================================== *)

Section MoreStatements.

Variable engine : list call -> call -> reply.

(** What Where returns and sends when its argument is a condition. *)
Lemma Where_result (self : SQLStatement) (h : gmap loc object) (c : loc)
    (condition_text : string) (pool : list PyVal) (w : World) :
  get_condition h c = Some condition_text ->
  get_pool h c = Some pool ->
  let extended :=
    mkStatement (stmt_table self) (parameterised_query_pool self ++ pool)
                (statement self +:+ " WHERE " +:+ condition_text)
                (selector self) (is_deleting self) (is_updating self) in
  if is_deleting self || is_updating self
  then calls (fst (Where engine self h (Some c) w))
       = calls w ++ [(statement extended, parameterised_query_pool extended)]
       /\ forall r, snd (Where engine self h (Some c) w) = Ok r -> r = extended
  else Where engine self h (Some c) w = (w, Ok extended).
Proof.
  intros Hs Hp. rewrite (Where_condition engine self h c condition_text pool Hs Hp).
  cbn [is_deleting is_updating].
  destruct (is_deleting self || is_updating self); unfold bindM, ret; [|reflexivity].
  match goal with |- context [execute engine ?s w] =>
    pose proof (execute_calls engine s w) as E; destruct (execute engine s w) as [w1 [u|e]]
  end; split; try exact E; cbn [snd]; intros r; [now intros [= <-]|discriminate].
Qed.

End MoreStatements.

(** X11.  WHERE keeps a statement aligned: applied with a condition that
    has as many placeholders as parameters to a statement that has, it
    yields such a statement, and a call it makes on the engine carries as
    many parameters as its text has placeholders. *)
Theorem where_keeps_statements_aligned
    (engine : list call -> call -> reply) (self : SQLStatement)
    (h : gmap loc object) (c : loc) (w : World) :
  aligned_statement self ->
  aligned_condition h c ->
  (forall r, snd (Where engine self h (Some c) w) = Ok r -> aligned_statement r)
  /\ (calls (fst (Where engine self h (Some c) w)) = calls w
      \/ exists sql parameters,
           calls (fst (Where engine self h (Some c) w)) = calls w ++ [(sql, parameters)]
           /\ placeholders sql = length parameters).
Proof.
  intros Ha (t & l & Ht & Hl & Hc). unfold aligned_statement in *.
  pose proof (Where_result engine self h c t l w Ht Hl) as R. cbv zeta in R.
  assert (placeholders (statement self +:+ " WHERE " +:+ t)
          = length (parameterised_query_pool self ++ l)) as Hal.
  { rewrite !placeholders_append, length_app, Ha, Hc. count_literals. lia. }
  destruct (is_deleting self || is_updating self).
  - destruct R as [Ec Er]. split.
    + intros r Hr. rewrite (Er r Hr). exact Hal.
    + right. eexists _, _. split; [exact Ec|exact Hal].
  - rewrite R. split; [|now left]. intros r [= <-]. exact Hal.
Qed.

Lemma where_keeps_statements_aligned_witness :
  (forall r,
     snd (Where no_rows (mkStatement Students [] "DELETE FROM Students" None true false)
            StudentID_is_1 (Some 2%positive) empty_world) = Ok r ->
     aligned_statement r)
  /\ (calls (fst (Where no_rows (mkStatement Students [] "DELETE FROM Students" None true false)
                    StudentID_is_1 (Some 2%positive) empty_world)) = calls empty_world
      \/ exists sql parameters,
           calls (fst (Where no_rows
                         (mkStatement Students [] "DELETE FROM Students" None true false)
                         StudentID_is_1 (Some 2%positive) empty_world))
           = calls empty_world ++ [(sql, parameters)]
           /\ placeholders sql = length parameters).
Proof.
  apply (where_keeps_statements_aligned no_rows
           (mkStatement Students [] "DELETE FROM Students" None true false)
           StudentID_is_1 2%positive empty_world).
  - reflexivity.
  - exists "StudentID = ?", [VInt 1]. repeat split.
Defined.

Lemma get_pool_get_condition (h : gmap loc object) (c : loc) (l : list PyVal) :
  get_pool h c = Some l -> exists t, get_condition h c = Some t.
Proof.
  intros H. destruct (get_pool_inv _ _ _ H) as (s & p & Hc & _).
  exists s. exact (get_condition_intro _ _ _ _ Hc).
Qed.


(** X13.  A selection with a WHERE clause reaches the engine once, at
    Fetch: a Select that returns and Where make no call, and Fetch sends
    the SELECT text of the selected columns (all the columns of the table
    for "*" or a single column, the given columns otherwise) followed by
    the WHERE clause, with the parameters of the condition. *)
Theorem select_where_fetch_calls_once
    (engine : list call -> call -> reply) (cls : Table) (columns_arg : select_columns)
    (s : SQLStatement) (h : gmap loc object) (c : loc) (condition_text : string)
    (pool : list PyVal) (w : World) :
  snd (Select cls columns_arg w) = Ok s ->
  get_condition h c = Some condition_text ->
  get_pool h c = Some pool ->
  fst ((let! s := Select cls columns_arg in Where engine s h (Some c)) w) = w /\
  calls (fst ((let! s := Select cls columns_arg in
               let! s := Where engine s h (Some c) in
               Fetch engine s) w))
  = calls w ++ [(("SELECT " +:+ join ", " (map name (selected_columns cls columns_arg))
                  +:+ " FROM " +:+ table_name cls)
                 +:+ " WHERE " +:+ condition_text, pool)].
Proof.
  intros Hsel Hs Hp. apply Select_returns in Hsel.
  unfold bindM. rewrite !Hsel. clear Hsel.
  set (cols := selected_columns cls columns_arg).
  match goal with |- context [Where engine ?s h (Some c) w] =>
    pose proof (Where_result engine s h c condition_text pool w Hs Hp) as R
  end.
  cbv zeta in R. cbn [is_deleting is_updating orb stmt_table parameterised_query_pool
                      statement selector app] in R.
  rewrite !R. split; [reflexivity|].
  unfold Fetch. cbn [selector]. unfold bindM.
  match goal with |- context [execute engine ?s w] =>
    pose proof (execute_calls engine s w) as E; destruct (execute engine s w) as [w1 [u|e]]
  end; cbn [statement parameterised_query_pool] in E.
  - unfold fetchall, lift.
    destruct (to_python_types cols (cursor_rows w1)); cbn [fst calls]; exact E.
  - cbn [fst]. exact E.
Qed.

Lemma select_where_fetch_calls_once_witness :
  fst ((let! s := Select Students (Columns [FirstName]) in
        Where no_rows s StudentID_is_1 (Some 2%positive)) empty_world) = empty_world /\
  calls (fst ((let! s := Select Students (Columns [FirstName]) in
               let! s := Where no_rows s StudentID_is_1 (Some 2%positive) in
               Fetch no_rows s) empty_world))
  = calls empty_world
    ++ [(("SELECT " +:+ join ", " (map name (selected_columns Students (Columns [FirstName])))
          +:+ " FROM " +:+ table_name Students)
         +:+ " WHERE " +:+ "StudentID = ?", [VInt 1])].
Proof.
  apply (select_where_fetch_calls_once no_rows Students (Columns [FirstName])
           (mkStatement Students [] "SELECT StudentID, FirstName, LastName FROM Students"
              (Some [StudentID; FirstName; LastName]) false false)
           StudentID_is_1 2%positive "StudentID = ?" [VInt 1] empty_world); reflexivity.
Defined.

(* ===================================================================== *)
(** * Further properties of the keyword arguments *)
(* ===================================================================== *)

Lemma column_named_unknown (columns : list ColumnWrapper) (column_name : string) :
  Forall (fun c => name c <> column_name) columns ->
  column_named columns column_name = Raise KeyError.
Proof.
  induction 1 as [|c columns Hc _ IH]; [reflexivity|].
  cbn [column_named]. rewrite IH.
  apply String.eqb_neq in Hc. now rewrite Hc.
Qed.

Lemma mapM_all_raise {A B : Type} (f : A -> outcome B) (l : list A) (e : exn) :
  (forall a e', f a = Raise e' -> e' = e) ->
  Exists (fun a => f a = Raise e) l ->
  mapM f l = Raise e.
Proof.
  intros Hall. induction 1 as [a l Ha|a l _ IH]; cbn [mapM].
  - now rewrite Ha.
  - destruct (f a) as [b|e'] eqn:Ea; cbn [bind].
    + now rewrite IH.
    + now rewrite (Hall a e' Ea).
Qed.

Lemma merge_kwargs_unknown (cls : Table) (data : option row_data)
    (kwargs : list (string * PyVal)) :
  Exists (fun kw => Forall (fun c => name c <> fst kw) (columns cls)) kwargs ->
  merge_kwargs cls data kwargs = Raise KeyError.
Proof.
  intros H. unfold merge_kwargs.
  destruct kwargs as [|kw kwargs]; [inversion H|].
  match goal with |- context [mapM ?f ?l] =>
    assert (mapM f l = Raise KeyError) as ->; [|reflexivity]
  end.
  apply mapM_all_raise.
  - intros [n v] e' He.
    destruct (column_named (columns cls) n) as [c|e''] eqn:Ec; [discriminate|].
    cbn [bind] in He. injection He as <-. exact (column_named_raises _ _ _ Ec).
  - apply Exists_exists. apply Exists_exists in H as ([n v] & Hin & Hall).
    exists (n, v). split; [exact Hin|]. cbn [fst] in Hall.
    now rewrite (column_named_unknown _ _ Hall).
Qed.

(** X14.  A keyword that names no column of the table raises KeyError,
    whatever the mapping and the other keywords are, in InsertInto and in
    Update alike, and nothing reaches the engine. *)
Theorem unknown_keyword_raises_KeyError
    (engine : list call -> call -> reply) (cls : Table) (data : option row_data)
    (kwargs : list (string * PyVal)) (w : World) :
  Exists (fun kw => Forall (fun c => name c <> fst kw) (columns cls)) kwargs ->
  InsertInto engine cls data kwargs w = (w, Raise KeyError) /\
  Update cls data kwargs w = (w, Raise KeyError).
Proof.
  intros H. unfold InsertInto, Update, bindM, lift. cbn [kwargs_is_None].
  rewrite andb_false_r, (merge_kwargs_unknown cls data kwargs H). split; reflexivity.
Qed.

Lemma unknown_keyword_raises_KeyError_witness :
  InsertInto no_rows Students (Some [(FirstName, VStr "Kieran")]) [("Surname", VStr "Lock")]
             empty_world = (empty_world, Raise KeyError) /\
  Update Students (Some [(FirstName, VStr "Kieran")]) [("Surname", VStr "Lock")] empty_world
  = (empty_world, Raise KeyError).
Proof.
  apply (unknown_keyword_raises_KeyError no_rows Students (Some [(FirstName, VStr "Kieran")])
           [("Surname", VStr "Lock")] empty_world).
  apply Exists_cons_hd. repeat constructor; discriminate.
Defined.

(** X15.  Update called without a mapping never raises the
    IllegalArgumentError its guard is written for: it ends in the
    AttributeError of None.keys() or None.update(), or in the KeyError of
    an unknown keyword, and builds no statement. *)
Theorem update_without_data_raises_AttributeError
    (cls : Table) (kwargs : list (string * PyVal)) (w : World) :
  exists e,
    Update cls None kwargs w = (w, Raise e) /\
    (e = AttributeError \/ e = KeyError) /\
    (kwargs = [] -> e = AttributeError).
Proof.
  unfold Update, bindM, lift. cbn [kwargs_is_None andb].
  destruct kwargs as [|kw kwargs].
  - exists AttributeError. split; [reflexivity|]. split; [now left|reflexivity].
  - cbn [merge_kwargs].
    match goal with |- context [mapM ?f ?l] => destruct (mapM f l) as [converted|e] eqn:Em end;
      cbn [bind].
    + exists AttributeError. split; [reflexivity|]. split; [now left|discriminate].
    + exists e. apply mapM_raises in Em as ([column_name value] & _ & Ea).
      destruct (column_named (columns cls) column_name) as [c|e'] eqn:Ec; [discriminate|].
      cbn [bind] in Ea. injection Ea as <-.
      apply column_named_raises in Ec as ->.
      split; [reflexivity|]. split; [now right|discriminate].
Qed.

(* ===================================================================== *)
(** * Further properties of table construction *)
(* ===================================================================== *)

Lemma count_primary_keys_Ok (raw : list (string * decl)) (n m : nat) :
  count_primary_keys (map snd raw) n = Ok m -> closed_types raw = true.
Proof.
  unfold closed_types. revert n.
  induction raw as [|[x d] raw IH]; intros n H; [reflexivity|].
  cbn [map snd count_primary_keys forallb] in *.
  destruct d as [t|c|]; cbn [is_SQL_Type negb andb orb] in *.
  - eauto.
  - destruct (is_ColumnWrapper (DColumn c)); cbn [negb] in *; [eauto|discriminate].
  - discriminate.
Qed.

Lemma same_class_flags (id : positive) (t : SQL_Type) :
  kind (same_class id t) = kind t /\
  is_primary_key (same_class id t) = false /\
  is_nullable (same_class id t) = true.
Proof. unfold same_class. destruct (kind t); repeat split. Qed.

Lemma build_columns_closed (table_name : string) (raw : list (string * decl)) (w : World) :
  closed_types raw = true ->
  exists w' built,
    build_columns table_name raw w = (w', Ok built) /\
    calls w' = calls w /\
    Forall2 (column_of_declaration table_name) raw (map fst built).
Proof.
  unfold closed_types. revert w.
  induction raw as [|[n d] raw IH]; intros w Hc.
  - exists w, []. repeat split. constructor.
  - cbn [map snd forallb] in Hc. apply andb_true_iff in Hc as [Hd Hc].
    cbn [build_columns]. unfold bindM.
    destruct d as [t|c|]; [| |discriminate].
    + unfold ret at 1. destruct (IH w Hc) as (w' & built & -> & Hw & Hf).
      eexists w', _. split; [reflexivity|]. split; [exact Hw|].
      cbn [map fst]. constructor; [|exact Hf]. repeat split.
    + cbn [is_SQL_Type orb] in Hd. rewrite Hd. unfold new_id, ret at 1.
      match goal with |- context [build_columns table_name raw ?w1] =>
        destruct (IH w1 Hc) as (w' & built & -> & Hw & Hf)
      end.
      eexists w', _. split; [reflexivity|]. split; [exact Hw|].
      cbn [map fst]. constructor; [|exact Hf].
      destruct (same_class_flags (next_id w) (type c)) as (K & P & N).
      repeat split; assumption.
Qed.

Lemma primary_key_columns_declared (table_name : string) (raw : list (string * decl))
    (columns : list ColumnWrapper) :
  Forall2 (column_of_declaration table_name) raw columns ->
  primary_key_columns columns = primary_keys raw.
Proof.
  unfold primary_key_columns, primary_keys.
  induction 1 as [|[n d] c raw columns (_ & _ & Hd) _ IH]; [reflexivity|].
  cbn [map snd List.filter] in *. destruct d as [t|c'|]; cbn [declares_primary_key].
  - destruct Hd as [-> _]. destruct (is_primary_key t); simpl; now rewrite IH.
  - destruct Hd as (_ & _ & -> & _). exact IH.
  - contradiction.
Qed.

Lemma append_assoc (a b c : string) : (a +:+ b) +:+ c = a +:+ (b +:+ c).
Proof.
  induction a as [|x a IH]; [reflexivity|].
  change (String x ((a +:+ b) +:+ c) = String x (a +:+ (b +:+ c))). now rewrite IH.
Qed.

Lemma append_empty (a : string) : a +:+ "" = a.
Proof.
  induction a as [|x a IH]; [reflexivity|].
  change (String x (a +:+ "") = String x a). now rewrite IH.
Qed.

(** The DDL fragment of each built column: its name and the SQL of its
    type. *)
Lemma build_columns_fragments (table_name : string) (raw : list (string * decl))
    (w w' : World) (built : list (ColumnWrapper * string)) :
  build_columns table_name raw w = (w', Ok built) ->
  map snd built = map (fun c => name c +:+ " " +:+ query (type c)) (map fst built).
Proof.
  revert w w' built. induction raw as [|[n d] raw IH]; intros w w' built H.
  - injection H as <- <-. reflexivity.
  - cbn [build_columns] in H. unfold bindM in H.
    destruct d as [t|c|]; [| |discriminate].
    + unfold ret at 1 in H.
      destruct (build_columns table_name raw w) as [w1 [rest|]] eqn:E; [|discriminate].
      injection H as <- <-. cbn [map fst snd name type]. f_equal. exact (IH _ _ _ E).
    + destruct (is_ColumnWrapper (DColumn c)); [|discriminate].
      unfold new_id, ret at 1 in H.
      match type of H with context [build_columns table_name raw ?w0] =>
        destruct (build_columns table_name raw w0) as [w1 [rest|]] eqn:E; [|discriminate]
      end.
      injection H as <- <-. cbn [map fst snd name type]. f_equal. exact (IH _ _ _ E).
Qed.

(** The statement __create_table builds reads as the CREATE TABLE text
    of the table it creates. *)
Lemma create_statement_text (p declared_name : string) (raw : list (string * decl))
    (built : list (ColumnWrapper * string)) (fkeys : list fkey) :
  map snd built = map (fun c => name c +:+ " " +:+ query (type c)) (map fst built) ->
  create_statement declared_name (map snd built) fkeys
  = create_table_text (mkTable p declared_name raw (map fst built) fkeys).
Proof.
  intros ->. unfold create_statement, create_table_text.
  cbn [table_name columns foreign_keys].
  destruct fkeys as [|fk fkeys].
  - cbn [map]. change (join ", " (@nil string)) with "".
    change (negb ("" =? "")%string) with false. cbv iota.
    change ("" +:+ ")") with ")". now rewrite !append_assoc.
  - assert (String.eqb (join ", " (map foreign_key_statement (fk :: fkeys))) "" = false) as ->
      by (destruct fkeys; reflexivity).
    cbn [negb]. unfold foreign_key_statement. now rewrite !append_assoc.
Qed.

(** X16.  A table that is constructed has what its schema declares: its
    raw columns are the mapping found in the class; it has one column per
    declaration, in order, under the declared name and the table's name; a
    declared descriptor is kept, a reference to another table's column
    becomes a ForeignKey with a nullable descriptor of the referenced
    class that is no primary key; exactly one column is a primary key; the
    foreign keys are the declared references; the storage path ends in
    .db; and the engine has received exactly two calls, both without
    parameters: the PRAGMA that connect sends, and the CREATE TABLE
    statement, which names the table, lists each column with the SQL of
    its type and ends with one FOREIGN KEY clause for each foreign key. *)
Theorem constructed_table_matches_its_schema
    (engine : list call -> call -> reply) (location : PyVal) (declared_name : string)
    (second : class_value) (w w' : World) (cls : Table) :
  Table_new engine location declared_name second w = (w', Ok cls) ->
  table_name cls = declared_name /\
  second = Mapping (raw_columns cls) /\
  Forall2 (column_of_declaration declared_name) (raw_columns cls) (columns cls) /\
  primary_key_columns (columns cls) = 1 /\
  foreign_keys cls = find_foreign_keys (raw_columns cls) /\
  location = VStr (path cls) /\ ends_with (path cls) ".db" = true /\
  calls w' = calls w ++ [("PRAGMA foreign_keys = ON", []); (create_table_text cls, [])].
Proof.
  unfold Table_new, bindM, lift. intros H.
  destruct (validate_path location) as [p|] eqn:Ep; [|discriminate].
  destruct second as [raw|]; cbn [get_columns items] in H; [|discriminate].
  destruct (validate_foreign_keys (find_foreign_keys raw)) as [[]|]; [|discriminate].
  destruct (validate_columns raw) as [[]|] eqn:Ev; [|discriminate].
  assert (closed_types raw = true) as Hc.
  { unfold validate_columns in Ev.
    destruct (count_primary_keys (map snd raw) 0) as [m|] eqn:Em; [|discriminate].
    exact (count_primary_keys_Ok raw 0 m Em). }
  assert (primary_keys raw = 1) as Hk.
  { rewrite validate_columns_closed in Ev by assumption.
    destruct (primary_keys raw) as [|[|k]]; simpl in Ev; try discriminate. reflexivity. }
  unfold create_table, bindM in H.
  destruct (build_columns_closed declared_name raw w Hc) as (w1 & built & Eb & Hw & Hf).
  rewrite Eb in H. apply build_columns_fragments in Eb.
  pose proof (connect_calls engine w1) as Cc.
  destruct (connect engine w1) as [w2 [[]|]]; [|discriminate]. cbn [fst] in Cc.
  match type of H with context [cursor_execute engine ?q ?a w2] =>
    pose proof (cursor_execute_calls engine q a w2) as Ce;
    destruct (cursor_execute engine q a w2) as [w3 [[]|]]; [|discriminate]
  end.
  cbn [fst] in Ce. unfold ret in H. injection H as <- <-.
  cbn [table_name raw_columns columns path foreign_keys].
  split; [reflexivity|]. split; [reflexivity|]. split; [exact Hf|].
  split; [now rewrite (primary_key_columns_declared _ _ _ Hf)|].
  split; [reflexivity|].
  unfold validate_path in Ep. destruct location; try discriminate.
  destruct (ends_with s ".db") eqn:Ed; [|discriminate]. injection Ep as <-.
  split; [reflexivity|]. split; [exact Ed|].
  rewrite Ce, Cc, Hw, <- app_assoc. cbn [app].
  now rewrite (create_statement_text s declared_name raw built (find_foreign_keys raw) Eb).
Qed.

Lemma constructed_table_matches_its_schema_witness :
  table_name Students = "Students" /\
  Mapping Students_columns = Mapping (raw_columns Students) /\
  Forall2 (column_of_declaration "Students") (raw_columns Students) (columns Students) /\
  primary_key_columns (columns Students) = 1 /\
  foreign_keys Students = find_foreign_keys (raw_columns Students) /\
  VStr "database.db" = VStr (path Students) /\ ends_with (path Students) ".db" = true /\
  calls (mkWorld [("PRAGMA foreign_keys = ON", []);
                  ("CREATE TABLE IF NOT EXISTS Students (StudentID INTEGER PRIMARY KEY, FirstName VARCHAR(30), LastName VARCHAR(20))", [])] [] 100)
  = calls empty_world
    ++ [("PRAGMA foreign_keys = ON", []); (create_table_text Students, [])].
Proof.
  apply (constructed_table_matches_its_schema no_rows (VStr "database.db") "Students"
           (Mapping Students_columns) empty_world).
  reflexivity.
Defined.

(** X17.  The schema is validated before the engine is touched.
    Constructing a table raises InvalidPath exactly when the storage path
    is not a str ending in .db, whatever the columns are; and whenever the
    construction raises InvalidPath, TableKeysError or InvalidColumnType,
    the world is as it was: nothing has been sent to the engine. *)
Theorem table_is_validated_before_the_engine
    (engine : list call -> call -> reply) (location : PyVal) (declared_name : string)
    (second : class_value) (w : World) :
  (snd (Table_new engine location declared_name second w) = Raise InvalidPath
   <-> ~ exists p, location = VStr p /\ ends_with p ".db" = true)
  /\
  (forall e,
     snd (Table_new engine location declared_name second w) = Raise e ->
     e = InvalidPath \/ e = TableKeysError \/ e = InvalidColumnType ->
     fst (Table_new engine location declared_name second w) = w).
Proof.
  pose proof (validate_path_accepts location) as Ha.
  unfold Table_new, bindM, lift.
  destruct (validate_path location) as [p|e0] eqn:Ep.
  2: { apply validate_path_raises in Ep as E0. subst e0. split; [|reflexivity].
       split; [|reflexivity]. intros _ Hex. apply Ha in Hex as [p Hp]. discriminate. }
  assert (exists p, location = VStr p /\ ends_with p ".db" = true) as Hex
    by (apply Ha; eauto).
  destruct second as [raw|]; cbn [get_columns items].
  2: { split; [|reflexivity]. cbn [snd]. split; [discriminate|tauto]. }
  destruct (validate_foreign_keys (find_foreign_keys raw)) as [[]|e1] eqn:Ef.
  2: { split; [|reflexivity]. cbn [snd]. split; [|tauto].
       intros [= ->]. exfalso. rewrite validate_foreign_keys_result in Ef.
       destruct (existsb _ _); discriminate. }
  destruct (validate_columns raw) as [[]|e2] eqn:Ev.
  2: { split; [|reflexivity]. cbn [snd]. split; [|tauto].
       intros [= ->]. exfalso. unfold validate_columns in Ev.
       destruct (count_primary_keys (map snd raw) 0) as [m|e3] eqn:Ec.
       - cbn [bind] in Ev. destruct (m =? 0); [discriminate|].
         destruct (1 <? m); discriminate.
       - cbn [bind] in Ev. injection Ev as ->. clear -Ec.
         revert Ec. generalize 0. induction raw as [|[x d] raw IH]; intros n Ec; [discriminate|].
         cbn [map snd count_primary_keys] in Ec.
         destruct (negb (is_SQL_Type d) && negb (is_ColumnWrapper d)); [discriminate|].
         eauto. }
  pose proof (create_table_errors engine declared_name raw (find_foreign_keys raw) w) as C.
  destruct (create_table engine declared_name raw (find_foreign_keys raw) w)
    as [w1 [built|e]]; unfold ret; cbn [snd fst] in *.
  - split; [|discriminate]. split; [discriminate|tauto].
  - split.
    + split; [|tauto]. intros [= ->].
      destruct (C _ eq_refl) as [H|[H|[H|H]]]; discriminate.
    + intros e' [= <-] Hk. exfalso.
      destruct (C _ eq_refl) as [H|[H|[H|H]]]; subst e;
        destruct Hk as [|[|]]; discriminate.
Qed.

(* ===================================================================== *)
(** * Properties of formatting.py and of the table view *)
(* ===================================================================== *)

Lemma concat_cons (x : string) (l : list string) :
  String.concat "" (x :: l) = x +:+ String.concat "" l.
Proof. destruct l as [|y l]; [now rewrite append_empty|reflexivity]. Qed.

Lemma call_method_formatted (m : method) (p : printable) :
  call_method m p = formatted (opening_code m) p.
Proof. destruct m; reflexivity. Qed.

(** X18.  Formatting never changes what len() sees.  For any nesting of
    the fourteen Formatting methods around a str, len() of the result is
    the length of the str, and str() of the result is the opening codes,
    outermost first, the str itself, and one END code per method. *)
Theorem formatting_keeps_len (methods : list method) (string_ : string) :
  py_len (nested methods string_) = String.length string_ /\
  printable_str (nested methods string_)
  = String.concat "" (map opening_code methods) +:+ string_
    +:+ String.concat "" (repeat END (length methods)).
Proof.
  unfold nested. induction methods as [|m methods [IHl IHs]].
  - split; [reflexivity|]. cbn [fold_right printable_str map length repeat String.concat].
    change ("" +:+ string_ +:+ "") with (string_ +:+ ""). now rewrite append_empty.
  - cbn [fold_right]. rewrite call_method_formatted. unfold formatted.
    cbn [py_len printable_str]. split; [exact IHl|].
    rewrite IHs. cbn [map length repeat]. rewrite !concat_cons, !append_assoc.
    do 3 f_equal.
    clear. induction (length methods) as [|n IH]; cbn [repeat].
    + reflexivity.
    + rewrite !concat_cons, append_assoc, IH. reflexivity.
Qed.

Lemma longest_ge (column : list printable) (field : printable) :
  In field column -> py_len field <= longest column.
Proof.
  unfold longest. induction column as [|x column IH]; [intros []|].
  intros [<-|H]; cbn [fold_right].
  - lia.
  - specialize (IH H). lia.
Qed.

Lemma round_quarters_ge (n : nat) : n / 4 <= round_quarters n.
Proof.
  unfold round_quarters.
  destruct (n mod 4) as [|[|[|r]]]; try lia.
  destruct (Nat.even (n / 4)); lia.
Qed.

(** X19.  Every field of a column is padded up to the column's target
    length.  With the target computed as format_selection does, from the
    longest field of the column, the padding of any field of that column
    is a run of tabs, at least one, and four characters per tab added to
    the field's length rounded down to a multiple of four give exactly the
    target length: all the fields of the column end at the same tab
    stop. *)
Theorem padding_reaches_the_target_length
    (column : list printable) (target_lengths : list nat) (column_idx : nat)
    (field : printable) :
  target_lengths !! column_idx = Some (target_length column) ->
  In field column ->
  exists n,
    get_padding column_idx target_lengths field = Some (text (repeat "009"%char n)) /\
    1 <= n /\
    4 * (py_len field / 4) + 4 * n = target_length column.
Proof.
  intros Ht Hf. unfold get_padding. rewrite Ht.
  pose proof (longest_ge column field Hf) as Hl.
  pose proof (round_quarters_ge (longest column)) as Hr.
  assert (py_len field / 4 <= longest column / 4) as Hd
    by (apply Nat.Div0.div_le_mono; exact Hl).
  unfold target_length in *.
  set (rq := round_quarters (longest column)) in *.
  set (fl := py_len field) in *.
  exists (rq + 1 - fl / 4). split; [|lia].
  unfold tabs. do 3 f_equal.
  assert ((Z.of_nat (4 * rq + 4) - (Z.of_nat fl - Z.of_nat fl mod 4))%Z
          = (Z.of_nat (rq + 1 - fl / 4) * 4)%Z) as ->.
  { pose proof (Nat.div_mod_eq fl 4). pose proof (Nat.mod_upper_bound fl 4).
    lia. }
  rewrite Z.quot_mul by lia. apply Nat2Z.id.
Qed.

Lemma padding_reaches_the_target_length_witness :
  exists n,
    get_padding 0 [target_length [PStr "'Kieran'"; PStr "'Al'"]] (PStr "'Al'")
    = Some (text (repeat "009"%char n)) /\
    1 <= n /\
    4 * (py_len (PStr "'Al'") / 4) + 4 * n = target_length [PStr "'Kieran'"; PStr "'Al'"].
Proof.
  apply (padding_reaches_the_target_length
           [PStr "'Kieran'"; PStr "'Al'"] [target_length [PStr "'Kieran'"; PStr "'Al'"]] 0).
  - reflexivity.
  - right. left. reflexivity.
Defined.

Lemma view_row_Some (columns : list ColumnWrapper) (row : list PyVal) :
  forall field_idx v,
    view_row columns field_idx row = Some v ->
    length v = length row /\ (row = [] \/ field_idx + length row <= length columns).
Proof.
  induction row as [|field row IH]; intros idx v H; cbn [view_row] in H.
  - injection H as <-. split; [reflexivity|now left].
  - destruct (columns !! idx) as [column|] eqn:Ec; [|discriminate].
    destruct (view_row columns (S idx) row) as [rest|] eqn:Er; [|discriminate].
    injection H as <-. destruct (IH _ _ Er) as [Hl Hb].
    apply lookup_lt_Some in Ec. cbn [length]. split; [now rewrite Hl|]. right.
    destruct Hb as [->|Hb]; cbn [length]; lia.
Qed.

Lemma view_row_fits (columns : list ColumnWrapper) (row : list PyVal) :
  forall field_idx,
    field_idx + length row <= length columns ->
    exists v, view_row columns field_idx row = Some v.
Proof.
  induction row as [|field row IH]; intros idx H; cbn [view_row].
  - eauto.
  - cbn [length] in H.
    destruct (lookup_lt_is_Some_2 columns idx ltac:(lia)) as [column ->].
    destruct (IH (S idx) ltac:(lia)) as [rest ->]. eauto.
Qed.

Lemma view_rows_Some (columns : list ColumnWrapper) (selection_data : list (list PyVal)) :
  forall viewed,
    view_rows columns selection_data = Some viewed ->
    Forall2 (fun row v => view_row columns 0 row = Some v) selection_data viewed.
Proof.
  induction selection_data as [|row data IH]; intros viewed H; cbn [view_rows] in H.
  - injection H as <-. constructor.
  - destruct (view_row columns 0 row) as [v|] eqn:Ev; [|discriminate].
    destruct (view_rows columns data) as [rest|]; [|discriminate].
    injection H as <-. constructor; [exact Ev|now apply IH].
Qed.

Lemma view_rows_fit (columns : list ColumnWrapper) (selection_data : list (list PyVal)) :
  Forall (fun row => length row <= length columns) selection_data ->
  exists viewed, view_rows columns selection_data = Some viewed.
Proof.
  induction 1 as [|row data Hr _ [rest IH]]; cbn [view_rows]; [eauto|].
  destruct (view_row_fits columns row 0 Hr) as [v ->]. rewrite IH. eauto.
Qed.

Lemma format_fields_Some (target_lengths : list nat) (row : list printable) :
  forall column_idx s,
    format_fields target_lengths column_idx row = Some s ->
    row = [] \/ column_idx + length row <= length target_lengths.
Proof.
  induction row as [|field row IH]; intros idx s H; [now left|right].
  cbn [format_fields] in H. unfold get_padding in H.
  destruct (target_lengths !! idx) as [t|] eqn:Et; [|discriminate].
  destruct (format_fields target_lengths (S idx) row) as [rest|] eqn:Er; [|discriminate].
  apply lookup_lt_Some in Et.
  destruct (IH _ _ Er) as [->|Hb]; cbn [length]; lia.
Qed.

Lemma format_fields_fits (target_lengths : list nat) (row : list printable) :
  forall column_idx,
    column_idx + length row <= length target_lengths ->
    exists s, format_fields target_lengths column_idx row = Some s.
Proof.
  induction row as [|field row IH]; intros idx H; cbn [format_fields]; [eauto|].
  cbn [length] in H. unfold get_padding.
  destruct (lookup_lt_is_Some_2 target_lengths idx ltac:(lia)) as [t ->].
  destruct (IH (S idx) ltac:(lia)) as [rest ->]. eauto.
Qed.

Lemma format_rows_Some (target_lengths : list nat) (data : list (list printable)) :
  forall s,
    format_rows target_lengths data = Some s ->
    Forall (fun row => row = [] \/ length row <= length target_lengths) data.
Proof.
  induction data as [|row data IH]; intros s H; [constructor|].
  cbn [format_rows] in H. unfold format_row in H.
  destruct (format_fields target_lengths 0 row) as [fields|] eqn:Ef; [|discriminate].
  destruct (format_rows target_lengths data) as [rest|]; [|discriminate].
  constructor; [|eapply IH; reflexivity].
  destruct (format_fields_Some _ _ _ _ Ef) as [->|Hb]; [now left|right; lia].
Qed.

Lemma format_rows_fit (target_lengths : list nat) (data : list (list printable)) :
  Forall (fun row => length row <= length target_lengths) data ->
  exists s, format_rows target_lengths data = Some s.
Proof.
  induction 1 as [|row data Hr _ [rest IH]]; cbn [format_rows]; [eauto|].
  unfold format_row.
  destruct (format_fields_fits target_lengths row 0 Hr) as [fields ->]. rewrite IH. eauto.
Qed.

Lemma shortest_le (rows : list (list printable)) (row : list printable) :
  In row rows -> shortest rows <= length row.
Proof.
  destruct rows as [|first rows]; [intros []|]. cbn [shortest].
  assert (fold_right (fun x n => Nat.min (length x) n) (length first) rows <= length first) as H0.
  { induction rows as [|x rows IH]; cbn [fold_right]; lia. }
  intros [<-|H]; [exact H0|].
  clear H0. induction rows as [|x rows IH]; [destruct H|].
  cbn [fold_right]. destruct H as [<-|H]; [lia|]. specialize (IH H). lia.
Qed.

Lemma shortest_same (rows : list (list printable)) (n : nat) :
  rows <> [] -> Forall (fun row => length row = n) rows -> shortest rows = n.
Proof.
  destruct rows as [|first rows]; [congruence|]. intros _ H.
  inversion H as [|? ? Hf Hr]; subst. cbn [shortest].
  induction Hr as [|x rows Hx _ IH]; cbn [fold_right]; [reflexivity|].
  rewrite IH; [lia|]. constructor; [reflexivity|]. inversion H as [|? ? _ H']; subst.
  now inversion H'.
Qed.

Lemma zip_rows_length (rows : list (list printable)) :
  length (map target_length (zip_rows rows)) = shortest rows.
Proof. unfold zip_rows. now rewrite !length_map, length_seq. Qed.

(** X20.  format_selection succeeds exactly on rectangular data.  The
    table view of a selection is produced exactly when every row has as
    many fields as there are columns; a row with more fields, or with
    fewer, ends in an IndexError (a longer row at columns[field_idx], a
    shorter one at target_lengths[column_idx], since zip stops at the
    shortest row). *)
Theorem format_selection_needs_rectangular_data
    (columns : list ColumnWrapper) (selection_data : list (list PyVal)) :
  (exists result, format_selection columns selection_data = Some result)
  <-> Forall (fun row => length row = length columns) selection_data.
Proof.
  unfold format_selection. split.
  - intros [result H].
    destruct (view_rows columns selection_data) as [viewed|] eqn:Ev; [|discriminate].
    apply view_rows_Some in Ev. apply format_rows_Some in H.
    rewrite zip_rows_length in H.
    inversion H as [|? ? Hh _]; subst. rewrite length_map in Hh.
    assert (forall v, In v viewed -> length columns = 0 \/ length columns <= length v) as Hs.
    { intros v Hv. destruct Hh as [E|Hh].
      - left. apply (f_equal (@length _)) in E. now rewrite length_map in E.
      - right. etransitivity; [exact Hh|]. apply shortest_le.
        apply in_rev. rewrite rev_involutive. unfold table_rows. right. right. exact Hv. }
    clear H Hh. induction Ev as [|row v data viewed Hv _ IH]; constructor.
    + apply view_row_Some in Hv as [Hl Hb].
      destruct (Hs v (or_introl eq_refl)) as [H0|H1];
        destruct Hb as [->|Hb]; cbn [length] in *; lia.
    + apply IH. intros v' Hv'. apply Hs. now right.
  - intros H.
    destruct (view_rows_fit columns selection_data) as [viewed Ev].
    { eapply List.Forall_impl; [|exact H]. cbn. intros; lia. }
    rewrite Ev. apply view_rows_Some in Ev.
    assert (Forall (fun v : list printable => length v = length columns)
              (table_rows columns viewed)) as Hall.
    { unfold table_rows. constructor; [now rewrite length_map|].
      constructor; [now rewrite length_map|].
      clear -H Ev. induction Ev as [|row v data viewed Hv _ IH]; [constructor|].
      inversion H as [|? ? Hr Hd]; subst.
      constructor; [|now apply IH].
      apply view_row_Some in Hv as [-> _]. exact Hr. }
    apply format_rows_fit. rewrite zip_rows_length.
    rewrite (shortest_same _ (length columns)).
    + eapply List.Forall_impl; [|exact Hall]. cbn. intros; lia.
    + unfold table_rows. intros E. apply (f_equal (@length _)) in E.
      rewrite length_rev in E. discriminate.
    + apply List.Forall_forall. intros v Hv. apply in_rev in Hv.
      rewrite List.Forall_forall in Hall. now apply Hall.
Qed.
